(** * MJIT coordinator (mjit.c): a shallow embedding and its properties

    The development follows [src/mjit.c], the part of MRI's method JIT that
    runs on the main thread: the unit lists, the continuation registry, the
    eviction of loaded code ([unload_units]), submission
    ([mjit_add_iseq_to_process]), the synchronous wait
    ([mjit_get_iseq_func]), option normalisation ([mjit_init]), teardown
    ([mjit_finish]) and the GC and class-serial hooks.

    Conventions of the embedding.
    - C [int] values are [Z]; the arithmetic the code performs on them is
      wrapped to 32 bits by [int_wrap], division is C's truncating [Z.quot].
    - A pointer is [option positive]; [None] is [NULL].  Units, iseq bodies
      and continuation records live in heaps ([gmap]) of the state, so that
      the aliasing between [iseq->body->jit_unit] and [node->unit] is the
      code's.  A read through a pointer that is not allocated yields the
      value documented at the accessor, a write through it is dropped.
    - The worker thread and the host interpreter are the environment: every
      blocking point of the coordinator ([rb_native_cond_wait],
      [rb_thread_wait_for], [RUBY_VM_CHECK_INTS]) consumes one step of a
      [schedule], a list of state transformers; an exhausted schedule means
      the call has not returned yet.
    - The engine mutex and the [verbose] sink are not part of the state: the
      model is sequential between blocking points.
    - [free_unit], the list primitives and the types of mjit.h and
      mjit_internal.h are not in mjit.c; they are modelled from the
      specification and marked as such.

    The file has three parts: the model, function by function in the order
    of mjit.c; the vocabulary in which the properties are stated, with the
    states of the examples; the properties. *)

From stdpp Require Import gmap strings list fin_maps.
From Stdlib Require Import ZArith Lia.

Local Open Scope Z_scope.

(** ** Machine integers *)

Definition INT_MIN : Z := - 2 ^ 31.
Definition INT_MAX : Z := 2 ^ 31 - 1.

(** Two's complement wrap-around of a C [int]. *)
Definition int_wrap (z : Z) : Z := (z + 2 ^ 31) mod 2 ^ 32 - 2 ^ 31.

(** ** Data model *)

(** Addresses of heap objects. *)
Abbreviation unit_ptr := positive.
Abbreviation iseq_ptr := positive.
Abbreviation cont_ptr := positive.

(** Modelled from the spec: the [jit_func] cell of mjit.h, "three sentinel
    states plus compiled pointer" (section 3, Iseq body binding). *)
Inductive mjit_func_t : Type :=
| NOT_ADDED_JIT_ISEQ_FUNC
| NOT_READY_JIT_ISEQ_FUNC
| NOT_COMPILED_JIT_ISEQ_FUNC
| JIT_FUNC (entry : Z).

#[global] Instance mjit_func_t_eq_dec : EqDecision mjit_func_t.
Proof. solve_decision. Defined.

(** Modelled from the spec: [enum pch_status_t] of mjit_internal.h. *)
Inductive pch_status_t : Type := PCH_NOT_READY | PCH_FAILED | PCH_SUCCESS.

#[global] Instance pch_status_t_eq_dec : EqDecision pch_status_t.
Proof. solve_decision. Defined.

(** Modelled from the spec: [struct mjit_options] of mjit.h, the recognised
    options of section 6.  [min_calls] is unsigned, [verbose] and
    [max_cache_size] are [int]. *)
Record mjit_options : Type := Build_mjit_options {
  save_temps : bool;
  warnings : bool;
  wait : bool;
  min_calls : Z;
  verbose : Z;
  max_cache_size : Z
}.

(** Modelled from the spec: [struct rb_mjit_unit] (section 3, Unit). *)
Record rb_mjit_unit : Type := Build_rb_mjit_unit {
  u_id : Z;
  u_handle : option Z;
  u_iseq : option iseq_ptr;
  u_used_code_p : bool
}.

(** Modelled from the spec: a list node holds its unit; [next] and [prev]
    are the node's position in the chain. *)
Record rb_mjit_unit_node : Type := Build_rb_mjit_unit_node {
  node_unit : unit_ptr
}.

(** Modelled from the spec: [struct rb_mjit_unit_list].  [ul_head] is the
    chain of nodes reached from [list->head] through [next]; [ul_length] is
    the separate [length] counter. *)
Record rb_mjit_unit_list : Type := Build_rb_mjit_unit_list {
  ul_head : list rb_mjit_unit_node;
  ul_length : Z
}.

(** The fields of [struct rb_iseq_constant_body] the coordinator uses. *)
Record rb_iseq_constant_body : Type := Build_rb_iseq_constant_body {
  jit_func : mjit_func_t;
  jit_unit : option unit_ptr;
  total_calls : Z
}.

(** The [iseq] slot of a control frame holds an imemo object of some kind. *)
Inductive imemo_type_t : Type := imemo_iseq | imemo_ifunc | imemo_other.

#[global] Instance imemo_type_t_eq_dec : EqDecision imemo_type_t.
Proof. solve_decision. Defined.

Record rb_control_frame_t : Type := Build_rb_control_frame_t {
  cfp_pc : option Z;
  cfp_iseq : option (imemo_type_t * iseq_ptr)
}.

(** An execution context: [ec_frames] lists the control frames from
    [RUBY_VM_END_CONTROL_FRAME(ec) - 1] down to [ec->cfp], the order in which
    [mark_ec_units] visits them. *)
Record rb_execution_context_t : Type := Build_rb_execution_context_t {
  ec_vm_stack : option Z;
  ec_frames : list rb_control_frame_t
}.

(** [struct mjit_cont]. *)
Record mjit_cont : Type := Build_mjit_cont {
  c_ec : rb_execution_context_t;
  c_prev : option cont_ptr;
  c_next : option cont_ptr
}.

(** What the coordinator sees and touches of the host runtime. *)
Record host_runtime : Type := Build_host_runtime {
  living_threads : list rb_execution_context_t;
  gc_marked : list iseq_ptr;
  stderr : list string;
  dlclosed : list Z;
  removed_files : list string;
  sync_primitives : bool
}.

(** The globals of mjit.c, the flags it shares with the worker, and the
    heaps. *)
Record mjit_state : Type := Build_mjit_state {
  mjit_opts : mjit_options;
  mjit_enabled : bool;
  mjit_call_p : bool;
  mjit_unit_queue : rb_mjit_unit_list;
  mjit_active_units : rb_mjit_unit_list;
  mjit_compact_units : rb_mjit_unit_list;
  mjit_current_unit_num : Z;
  mjit_in_gc : bool;
  mjit_in_jit : bool;
  mjit_tmp_dir : option string;
  mjit_valid_class_serials : gmap Z bool;
  mjit_pch_file : option string;
  mjit_header_file : option string;
  mjit_pch_status : pch_status_t;
  mjit_stop_worker_p : bool;
  mjit_worker_stopped : bool;
  first_cont : option cont_ptr;
  cont_heap : gmap positive mjit_cont;
  unit_heap : gmap positive rb_mjit_unit;
  iseq_heap : gmap positive rb_iseq_constant_body;
  host : host_runtime
}.

(** Field updates. *)
Definition set_mjit_opts (v : mjit_options) (s : mjit_state) : mjit_state :=
  Build_mjit_state v (mjit_enabled s) (mjit_call_p s) (mjit_unit_queue s) (mjit_active_units s) (mjit_compact_units s) (mjit_current_unit_num s) (mjit_in_gc s) (mjit_in_jit s) (mjit_tmp_dir s) (mjit_valid_class_serials s) (mjit_pch_file s) (mjit_header_file s) (mjit_pch_status s) (mjit_stop_worker_p s) (mjit_worker_stopped s) (first_cont s) (cont_heap s) (unit_heap s) (iseq_heap s) (host s).
Definition set_mjit_enabled (v : bool) (s : mjit_state) : mjit_state :=
  Build_mjit_state (mjit_opts s) v (mjit_call_p s) (mjit_unit_queue s) (mjit_active_units s) (mjit_compact_units s) (mjit_current_unit_num s) (mjit_in_gc s) (mjit_in_jit s) (mjit_tmp_dir s) (mjit_valid_class_serials s) (mjit_pch_file s) (mjit_header_file s) (mjit_pch_status s) (mjit_stop_worker_p s) (mjit_worker_stopped s) (first_cont s) (cont_heap s) (unit_heap s) (iseq_heap s) (host s).
Definition set_mjit_call_p (v : bool) (s : mjit_state) : mjit_state :=
  Build_mjit_state (mjit_opts s) (mjit_enabled s) v (mjit_unit_queue s) (mjit_active_units s) (mjit_compact_units s) (mjit_current_unit_num s) (mjit_in_gc s) (mjit_in_jit s) (mjit_tmp_dir s) (mjit_valid_class_serials s) (mjit_pch_file s) (mjit_header_file s) (mjit_pch_status s) (mjit_stop_worker_p s) (mjit_worker_stopped s) (first_cont s) (cont_heap s) (unit_heap s) (iseq_heap s) (host s).
Definition set_mjit_unit_queue (v : rb_mjit_unit_list) (s : mjit_state) : mjit_state :=
  Build_mjit_state (mjit_opts s) (mjit_enabled s) (mjit_call_p s) v (mjit_active_units s) (mjit_compact_units s) (mjit_current_unit_num s) (mjit_in_gc s) (mjit_in_jit s) (mjit_tmp_dir s) (mjit_valid_class_serials s) (mjit_pch_file s) (mjit_header_file s) (mjit_pch_status s) (mjit_stop_worker_p s) (mjit_worker_stopped s) (first_cont s) (cont_heap s) (unit_heap s) (iseq_heap s) (host s).
Definition set_mjit_active_units (v : rb_mjit_unit_list) (s : mjit_state) : mjit_state :=
  Build_mjit_state (mjit_opts s) (mjit_enabled s) (mjit_call_p s) (mjit_unit_queue s) v (mjit_compact_units s) (mjit_current_unit_num s) (mjit_in_gc s) (mjit_in_jit s) (mjit_tmp_dir s) (mjit_valid_class_serials s) (mjit_pch_file s) (mjit_header_file s) (mjit_pch_status s) (mjit_stop_worker_p s) (mjit_worker_stopped s) (first_cont s) (cont_heap s) (unit_heap s) (iseq_heap s) (host s).
Definition set_mjit_compact_units (v : rb_mjit_unit_list) (s : mjit_state) : mjit_state :=
  Build_mjit_state (mjit_opts s) (mjit_enabled s) (mjit_call_p s) (mjit_unit_queue s) (mjit_active_units s) v (mjit_current_unit_num s) (mjit_in_gc s) (mjit_in_jit s) (mjit_tmp_dir s) (mjit_valid_class_serials s) (mjit_pch_file s) (mjit_header_file s) (mjit_pch_status s) (mjit_stop_worker_p s) (mjit_worker_stopped s) (first_cont s) (cont_heap s) (unit_heap s) (iseq_heap s) (host s).
Definition set_mjit_current_unit_num (v : Z) (s : mjit_state) : mjit_state :=
  Build_mjit_state (mjit_opts s) (mjit_enabled s) (mjit_call_p s) (mjit_unit_queue s) (mjit_active_units s) (mjit_compact_units s) v (mjit_in_gc s) (mjit_in_jit s) (mjit_tmp_dir s) (mjit_valid_class_serials s) (mjit_pch_file s) (mjit_header_file s) (mjit_pch_status s) (mjit_stop_worker_p s) (mjit_worker_stopped s) (first_cont s) (cont_heap s) (unit_heap s) (iseq_heap s) (host s).
Definition set_mjit_in_gc (v : bool) (s : mjit_state) : mjit_state :=
  Build_mjit_state (mjit_opts s) (mjit_enabled s) (mjit_call_p s) (mjit_unit_queue s) (mjit_active_units s) (mjit_compact_units s) (mjit_current_unit_num s) v (mjit_in_jit s) (mjit_tmp_dir s) (mjit_valid_class_serials s) (mjit_pch_file s) (mjit_header_file s) (mjit_pch_status s) (mjit_stop_worker_p s) (mjit_worker_stopped s) (first_cont s) (cont_heap s) (unit_heap s) (iseq_heap s) (host s).
Definition set_mjit_in_jit (v : bool) (s : mjit_state) : mjit_state :=
  Build_mjit_state (mjit_opts s) (mjit_enabled s) (mjit_call_p s) (mjit_unit_queue s) (mjit_active_units s) (mjit_compact_units s) (mjit_current_unit_num s) (mjit_in_gc s) v (mjit_tmp_dir s) (mjit_valid_class_serials s) (mjit_pch_file s) (mjit_header_file s) (mjit_pch_status s) (mjit_stop_worker_p s) (mjit_worker_stopped s) (first_cont s) (cont_heap s) (unit_heap s) (iseq_heap s) (host s).
Definition set_mjit_tmp_dir (v : option string) (s : mjit_state) : mjit_state :=
  Build_mjit_state (mjit_opts s) (mjit_enabled s) (mjit_call_p s) (mjit_unit_queue s) (mjit_active_units s) (mjit_compact_units s) (mjit_current_unit_num s) (mjit_in_gc s) (mjit_in_jit s) v (mjit_valid_class_serials s) (mjit_pch_file s) (mjit_header_file s) (mjit_pch_status s) (mjit_stop_worker_p s) (mjit_worker_stopped s) (first_cont s) (cont_heap s) (unit_heap s) (iseq_heap s) (host s).
Definition set_mjit_valid_class_serials (v : gmap Z bool) (s : mjit_state) : mjit_state :=
  Build_mjit_state (mjit_opts s) (mjit_enabled s) (mjit_call_p s) (mjit_unit_queue s) (mjit_active_units s) (mjit_compact_units s) (mjit_current_unit_num s) (mjit_in_gc s) (mjit_in_jit s) (mjit_tmp_dir s) v (mjit_pch_file s) (mjit_header_file s) (mjit_pch_status s) (mjit_stop_worker_p s) (mjit_worker_stopped s) (first_cont s) (cont_heap s) (unit_heap s) (iseq_heap s) (host s).
Definition set_mjit_pch_file (v : option string) (s : mjit_state) : mjit_state :=
  Build_mjit_state (mjit_opts s) (mjit_enabled s) (mjit_call_p s) (mjit_unit_queue s) (mjit_active_units s) (mjit_compact_units s) (mjit_current_unit_num s) (mjit_in_gc s) (mjit_in_jit s) (mjit_tmp_dir s) (mjit_valid_class_serials s) v (mjit_header_file s) (mjit_pch_status s) (mjit_stop_worker_p s) (mjit_worker_stopped s) (first_cont s) (cont_heap s) (unit_heap s) (iseq_heap s) (host s).
Definition set_mjit_header_file (v : option string) (s : mjit_state) : mjit_state :=
  Build_mjit_state (mjit_opts s) (mjit_enabled s) (mjit_call_p s) (mjit_unit_queue s) (mjit_active_units s) (mjit_compact_units s) (mjit_current_unit_num s) (mjit_in_gc s) (mjit_in_jit s) (mjit_tmp_dir s) (mjit_valid_class_serials s) (mjit_pch_file s) v (mjit_pch_status s) (mjit_stop_worker_p s) (mjit_worker_stopped s) (first_cont s) (cont_heap s) (unit_heap s) (iseq_heap s) (host s).
Definition set_mjit_pch_status (v : pch_status_t) (s : mjit_state) : mjit_state :=
  Build_mjit_state (mjit_opts s) (mjit_enabled s) (mjit_call_p s) (mjit_unit_queue s) (mjit_active_units s) (mjit_compact_units s) (mjit_current_unit_num s) (mjit_in_gc s) (mjit_in_jit s) (mjit_tmp_dir s) (mjit_valid_class_serials s) (mjit_pch_file s) (mjit_header_file s) v (mjit_stop_worker_p s) (mjit_worker_stopped s) (first_cont s) (cont_heap s) (unit_heap s) (iseq_heap s) (host s).
Definition set_mjit_stop_worker_p (v : bool) (s : mjit_state) : mjit_state :=
  Build_mjit_state (mjit_opts s) (mjit_enabled s) (mjit_call_p s) (mjit_unit_queue s) (mjit_active_units s) (mjit_compact_units s) (mjit_current_unit_num s) (mjit_in_gc s) (mjit_in_jit s) (mjit_tmp_dir s) (mjit_valid_class_serials s) (mjit_pch_file s) (mjit_header_file s) (mjit_pch_status s) v (mjit_worker_stopped s) (first_cont s) (cont_heap s) (unit_heap s) (iseq_heap s) (host s).
Definition set_mjit_worker_stopped (v : bool) (s : mjit_state) : mjit_state :=
  Build_mjit_state (mjit_opts s) (mjit_enabled s) (mjit_call_p s) (mjit_unit_queue s) (mjit_active_units s) (mjit_compact_units s) (mjit_current_unit_num s) (mjit_in_gc s) (mjit_in_jit s) (mjit_tmp_dir s) (mjit_valid_class_serials s) (mjit_pch_file s) (mjit_header_file s) (mjit_pch_status s) (mjit_stop_worker_p s) v (first_cont s) (cont_heap s) (unit_heap s) (iseq_heap s) (host s).
Definition set_first_cont (v : option cont_ptr) (s : mjit_state) : mjit_state :=
  Build_mjit_state (mjit_opts s) (mjit_enabled s) (mjit_call_p s) (mjit_unit_queue s) (mjit_active_units s) (mjit_compact_units s) (mjit_current_unit_num s) (mjit_in_gc s) (mjit_in_jit s) (mjit_tmp_dir s) (mjit_valid_class_serials s) (mjit_pch_file s) (mjit_header_file s) (mjit_pch_status s) (mjit_stop_worker_p s) (mjit_worker_stopped s) v (cont_heap s) (unit_heap s) (iseq_heap s) (host s).
Definition set_cont_heap (v : gmap positive mjit_cont) (s : mjit_state) : mjit_state :=
  Build_mjit_state (mjit_opts s) (mjit_enabled s) (mjit_call_p s) (mjit_unit_queue s) (mjit_active_units s) (mjit_compact_units s) (mjit_current_unit_num s) (mjit_in_gc s) (mjit_in_jit s) (mjit_tmp_dir s) (mjit_valid_class_serials s) (mjit_pch_file s) (mjit_header_file s) (mjit_pch_status s) (mjit_stop_worker_p s) (mjit_worker_stopped s) (first_cont s) v (unit_heap s) (iseq_heap s) (host s).
Definition set_unit_heap (v : gmap positive rb_mjit_unit) (s : mjit_state) : mjit_state :=
  Build_mjit_state (mjit_opts s) (mjit_enabled s) (mjit_call_p s) (mjit_unit_queue s) (mjit_active_units s) (mjit_compact_units s) (mjit_current_unit_num s) (mjit_in_gc s) (mjit_in_jit s) (mjit_tmp_dir s) (mjit_valid_class_serials s) (mjit_pch_file s) (mjit_header_file s) (mjit_pch_status s) (mjit_stop_worker_p s) (mjit_worker_stopped s) (first_cont s) (cont_heap s) v (iseq_heap s) (host s).
Definition set_iseq_heap (v : gmap positive rb_iseq_constant_body) (s : mjit_state) : mjit_state :=
  Build_mjit_state (mjit_opts s) (mjit_enabled s) (mjit_call_p s) (mjit_unit_queue s) (mjit_active_units s) (mjit_compact_units s) (mjit_current_unit_num s) (mjit_in_gc s) (mjit_in_jit s) (mjit_tmp_dir s) (mjit_valid_class_serials s) (mjit_pch_file s) (mjit_header_file s) (mjit_pch_status s) (mjit_stop_worker_p s) (mjit_worker_stopped s) (first_cont s) (cont_heap s) (unit_heap s) v (host s).
Definition set_host (v : host_runtime) (s : mjit_state) : mjit_state :=
  Build_mjit_state (mjit_opts s) (mjit_enabled s) (mjit_call_p s) (mjit_unit_queue s) (mjit_active_units s) (mjit_compact_units s) (mjit_current_unit_num s) (mjit_in_gc s) (mjit_in_jit s) (mjit_tmp_dir s) (mjit_valid_class_serials s) (mjit_pch_file s) (mjit_header_file s) (mjit_pch_status s) (mjit_stop_worker_p s) (mjit_worker_stopped s) (first_cont s) (cont_heap s) (unit_heap s) (iseq_heap s) v.

Definition set_living_threads (v : list rb_execution_context_t) (h : host_runtime) : host_runtime :=
  Build_host_runtime v (gc_marked h) (stderr h) (dlclosed h) (removed_files h) (sync_primitives h).
Definition set_gc_marked (v : list iseq_ptr) (h : host_runtime) : host_runtime :=
  Build_host_runtime (living_threads h) v (stderr h) (dlclosed h) (removed_files h) (sync_primitives h).
Definition set_stderr (v : list string) (h : host_runtime) : host_runtime :=
  Build_host_runtime (living_threads h) (gc_marked h) v (dlclosed h) (removed_files h) (sync_primitives h).
Definition set_dlclosed (v : list Z) (h : host_runtime) : host_runtime :=
  Build_host_runtime (living_threads h) (gc_marked h) (stderr h) v (removed_files h) (sync_primitives h).
Definition set_removed_files (v : list string) (h : host_runtime) : host_runtime :=
  Build_host_runtime (living_threads h) (gc_marked h) (stderr h) (dlclosed h) v (sync_primitives h).
Definition set_sync_primitives (v : bool) (h : host_runtime) : host_runtime :=
  Build_host_runtime (living_threads h) (gc_marked h) (stderr h) (dlclosed h) (removed_files h) v.


Definition set_min_calls (v : Z) (o : mjit_options) : mjit_options :=
  Build_mjit_options (save_temps o) (warnings o) (wait o) v (verbose o) (max_cache_size o).
Definition set_max_cache_size (v : Z) (o : mjit_options) : mjit_options :=
  Build_mjit_options (save_temps o) (warnings o) (wait o) (min_calls o) (verbose o) v.

Definition set_u_iseq (v : option iseq_ptr) (u : rb_mjit_unit) : rb_mjit_unit :=
  Build_rb_mjit_unit (u_id u) (u_handle u) v (u_used_code_p u).
Definition set_u_used_code_p (v : bool) (u : rb_mjit_unit) : rb_mjit_unit :=
  Build_rb_mjit_unit (u_id u) (u_handle u) (u_iseq u) v.

Definition set_jit_func (v : mjit_func_t) (b : rb_iseq_constant_body) : rb_iseq_constant_body :=
  Build_rb_iseq_constant_body v (jit_unit b) (total_calls b).
Definition set_jit_unit (v : option unit_ptr) (b : rb_iseq_constant_body) : rb_iseq_constant_body :=
  Build_rb_iseq_constant_body (jit_func b) v (total_calls b).

Definition set_c_prev (v : option cont_ptr) (c : mjit_cont) : mjit_cont :=
  Build_mjit_cont (c_ec c) v (c_next c).
Definition set_c_next (v : option cont_ptr) (c : mjit_cont) : mjit_cont :=
  Build_mjit_cont (c_ec c) (c_prev c) v.

(** ** Reads through pointers *)

(** [unit->iseq]; [NULL] when [unit] is not allocated. *)
Definition unit_iseq (s : mjit_state) (u : unit_ptr) : option iseq_ptr :=
  unit_heap s !! u ≫= u_iseq.

(** [unit->used_code_p]; [FALSE] when [unit] is not allocated. *)
Definition unit_used_code_p (s : mjit_state) (u : unit_ptr) : bool :=
  from_option u_used_code_p false (unit_heap s !! u).

(** [unit->iseq->body->total_calls]; [0] when a pointer on the way is not
    allocated. *)
Definition unit_total_calls (s : mjit_state) (u : unit_ptr) : Z :=
  from_option total_calls 0 (unit_iseq s u ≫= (iseq_heap s !!.)).

(** [body->jit_func]; [NOT_ADDED_JIT_ISEQ_FUNC] when [body] is not
    allocated. *)
Definition body_jit_func (s : mjit_state) (body : iseq_ptr) : mjit_func_t :=
  from_option jit_func NOT_ADDED_JIT_ISEQ_FUNC (iseq_heap s !! body).

(** [iseq->body->jit_unit]; [NULL] when [iseq] is not allocated. *)
Definition body_jit_unit (s : mjit_state) (iseq : iseq_ptr) : option unit_ptr :=
  iseq_heap s !! iseq ≫= jit_unit.

(** ** Primitives of mjit_worker.c *)

(** Modelled from the spec: [free_unit] of mjit_worker.c, which "releases
    the artifact handle via the backend and frees the iseq backlink (but not
    the iseq)" (section 4.1): the handle, if any, goes to [dlclose] and the
    unit is deallocated; the iseq body is left alone. *)
Definition free_unit (u : unit_ptr) (s : mjit_state) : mjit_state :=
  match unit_heap s !! u with
  | None => s
  | Some r =>
    let s :=
      match u_handle r with
      | Some h => set_host (set_dlclosed (h :: dlclosed (host s)) (host s)) s
      | None => s
      end in
    set_unit_heap (delete u (unit_heap s)) s
  end.

(** Modelled from the spec: [create_list_node], [add_to_list] and
    [remove_from_list] of mjit_worker.c "maintain length" (section 4.1);
    [add_to_list] pushes onto the tail (section 4.3).  A node pointer is the
    node's position in the chain. *)
Definition create_list_node (u : unit_ptr) : rb_mjit_unit_node :=
  Build_rb_mjit_unit_node u.

Definition add_to_list (node : rb_mjit_unit_node) (l : rb_mjit_unit_list) : rb_mjit_unit_list :=
  Build_rb_mjit_unit_list (ul_head l ++ [node]) (int_wrap (ul_length l + 1)).

Definition remove_from_list (pos : nat) (l : rb_mjit_unit_list) : rb_mjit_unit_list :=
  Build_rb_mjit_unit_list (delete pos (ul_head l)) (int_wrap (ul_length l - 1)).

(** Modelled from the spec: [remove_file] of mjit_worker.c. *)
Definition remove_file (path : option string) (s : mjit_state) : mjit_state :=
  match path with
  | Some f => set_host (set_removed_files (f :: removed_files (host s)) (host s)) s
  | None => s
  end.

(** ** GC hooks (mjit.c 126-171) *)

(** The environment: what the worker and the host do while the coordinator
    is blocked, one transformer per blocking point. *)
Definition schedule : Type := list (mjit_state -> mjit_state).

(** The [while (mjit_in_jit)] loop of [mjit_gc_start_hook]: each
    [rb_native_cond_wait] lets the environment run. *)
Fixpoint gc_start_wait (sched : schedule) (s : mjit_state) : option (mjit_state * schedule) :=
  if mjit_in_jit s then
    match sched with
    | [] => None
    | w :: sched' => gc_start_wait sched' (w s)
    end
  else Some (s, sched).

Definition mjit_gc_start_hook (sched : schedule) (s : mjit_state) : option (mjit_state * schedule) :=
  if negb (mjit_enabled s) then Some (s, sched)
  else
    match gc_start_wait sched s with
    | None => None
    | Some (s, sched) => Some (set_mjit_in_gc true s, sched)
    end.

Definition mjit_gc_finish_hook (s : mjit_state) : mjit_state :=
  if negb (mjit_enabled s) then s
  else set_mjit_in_gc false s.

Definition mjit_free_iseq (iseq : iseq_ptr) (s : mjit_state) : mjit_state :=
  if negb (mjit_enabled s) then s
  else
    match body_jit_unit s iseq with
    | Some u => set_unit_heap (alter (set_u_iseq None) u (unit_heap s)) s
    | None => s
    end.

(** ** Unit lists (mjit.c 173-193) *)

Definition init_list : rb_mjit_unit_list := Build_rb_mjit_unit_list [] 0.

(** The loop of [free_list], from [node] on: every unit is handed to
    [free_unit] and every node to [xfree].  Node storage is not part of the
    state; the list header is not written. *)
Fixpoint free_list_from (node : list rb_mjit_unit_node) (s : mjit_state) : mjit_state :=
  match node with
  | [] => s
  | n :: next => free_list_from next (free_unit (node_unit n) s)
  end.

Definition free_list (l : rb_mjit_unit_list) (s : mjit_state) : mjit_state :=
  free_list_from (ul_head l) s.

(** ** Continuation registry (mjit.c 199-264) *)

(** [mjit_cont_new]; [cont] is the address [ZALLOC] returned. *)
Definition mjit_cont_new (cont : cont_ptr) (ec : rb_execution_context_t) (s : mjit_state) : mjit_state * cont_ptr :=
  let s :=
    match first_cont s with
    | None => set_cont_heap (<[cont := Build_mjit_cont ec None None]> (cont_heap s)) s
    | Some f =>
      let s := set_cont_heap (<[cont := Build_mjit_cont ec None (Some f)]> (cont_heap s)) s in
      set_cont_heap (alter (set_c_prev (Some cont)) f (cont_heap s)) s
    end in
  (set_first_cont (Some cont) s, cont).

(** [cont->next] and [cont->prev]; [NULL] when [cont] is not allocated. *)
Definition cont_next (s : mjit_state) (cont : cont_ptr) : option cont_ptr :=
  cont_heap s !! cont ≫= c_next.
Definition cont_prev (s : mjit_state) (cont : cont_ptr) : option cont_ptr :=
  cont_heap s !! cont ≫= c_prev.

Definition mjit_cont_free (cont : cont_ptr) (s : mjit_state) : mjit_state :=
  let s :=
    if decide (Some cont = first_cont s) then
      let s := set_first_cont (cont_next s cont) s in
      match first_cont s with
      | Some f => set_cont_heap (alter (set_c_prev None) f (cont_heap s)) s
      | None => s
      end
    else
      let s :=
        match cont_prev s cont with
        | Some p => set_cont_heap (alter (set_c_next (cont_next s cont)) p (cont_heap s)) s
        | None => s
        end in
      match cont_next s cont with
      | Some n => set_cont_heap (alter (set_c_prev (cont_prev s cont)) n (cont_heap s)) s
      | None => s
      end in
  set_cont_heap (delete cont (cont_heap s)) s.

(** The loop of [finish_conts] from [cont] on.  Every round frees one
    allocated record, so [size (cont_heap s)] rounds are all there can be;
    [first_cont] is not written. *)
Fixpoint finish_conts_from (fuel : nat) (cont : option cont_ptr) (s : mjit_state) : mjit_state :=
  match fuel, cont with
  | S fuel, Some c =>
    match cont_heap s !! c with
    | Some r => finish_conts_from fuel (c_next r) (set_cont_heap (delete c (cont_heap s)) s)
    | None => s
    end
  | _, _ => s
  end.

Definition finish_conts (s : mjit_state) : mjit_state :=
  finish_conts_from (size (cont_heap s)) (first_cont s) s.

(** ** Unit creation and the liveness scan (mjit.c 266-302) *)

(** [create_unit]; [zalloc] is what [ZALLOC] returned, [None] for [NULL].
    A fresh unit is zero-filled: no handle, [used_code_p] clear. *)
Definition create_unit (zalloc : option unit_ptr) (iseq : iseq_ptr) (s : mjit_state) : mjit_state :=
  match zalloc with
  | None => s
  | Some unit =>
    let s := set_unit_heap (<[unit := Build_rb_mjit_unit (mjit_current_unit_num s) None (Some iseq) false]> (unit_heap s)) s in
    let s := set_mjit_current_unit_num (int_wrap (mjit_current_unit_num s + 1)) s in
    set_iseq_heap (alter (set_jit_unit (Some unit)) iseq (iseq_heap s)) s
  end.

(** The body of the frame loop of [mark_ec_units] for one frame. *)
Definition mark_cfp (cfp : rb_control_frame_t) (s : mjit_state) : mjit_state :=
  match cfp_pc cfp, cfp_iseq cfp with
  | Some _, Some (ty, iseq) =>
    if decide (ty = imemo_iseq) then
      match body_jit_unit s iseq with
      | Some u => set_unit_heap (alter (set_u_used_code_p true) u (unit_heap s)) s
      | None => s
      end
    else s
  | _, _ => s
  end.

Fixpoint mark_frames (cfp : list rb_control_frame_t) (s : mjit_state) : mjit_state :=
  match cfp with
  | [] => s
  | f :: next => mark_frames next (mark_cfp f s)
  end.

Definition mark_ec_units (ec : rb_execution_context_t) (s : mjit_state) : mjit_state :=
  match ec_vm_stack ec with
  | None => s
  | Some _ => mark_frames (ec_frames ec) s
  end.

(** ** Eviction (mjit.c 304-362) *)

(** First loop of [unload_units]: units whose iseq was collected are freed
    and unlinked.  [node] is the rest of the chain as it was when the loop
    started ([next] is read before the node is removed), [pos] the current
    node's position in the list as it is now. *)
Fixpoint unload_gced (node : list rb_mjit_unit_node) (pos : nat) (s : mjit_state) : mjit_state :=
  match node with
  | [] => s
  | n :: next =>
    match unit_iseq s (node_unit n) with
    | None =>
      let s := free_unit (node_unit n) s in
      unload_gced next pos (set_mjit_active_units (remove_from_list pos (mjit_active_units s)) s)
    | Some _ => unload_gced next (S pos) s
    end
  end.

(** Second loop: clear [used_code_p] on the active units. *)
Fixpoint clear_used_code_p (node : list rb_mjit_unit_node) (s : mjit_state) : mjit_state :=
  match node with
  | [] => s
  | n :: next =>
    clear_used_code_p next (set_unit_heap (alter (set_u_used_code_p false) (node_unit n) (unit_heap s)) s)
  end.

(** [list_for_each(&vm->living_threads, th, vmlt_node) mark_ec_units(th->ec)]. *)
Fixpoint mark_living_threads (th : list rb_execution_context_t) (s : mjit_state) : mjit_state :=
  match th with
  | [] => s
  | ec :: next => mark_living_threads next (mark_ec_units ec s)
  end.

(** [for (cont = first_cont; cont != NULL; cont = cont->next)].  The
    registry is a [NULL]-terminated chain of distinct allocated records, so
    it has at most [size (cont_heap s)] of them, which is the [fuel]
    [unload_units] passes. *)
Fixpoint mark_conts (fuel : nat) (cont : option cont_ptr) (s : mjit_state) : mjit_state :=
  match fuel, cont with
  | S fuel, Some c =>
    match cont_heap s !! c with
    | Some r => mark_conts fuel (c_next r) (mark_ec_units (c_ec r) s)
    | None => s
    end
  | _, _ => s
  end.

(** The inner loop of the eviction loop: the search for [worst_node].
    [worst_node] carries the position of the node with the node. *)
Fixpoint find_worst_node (node : list rb_mjit_unit_node) (pos : nat)
    (worst_node : option (nat * rb_mjit_unit_node)) (s : mjit_state) : option (nat * rb_mjit_unit_node) :=
  match node with
  | [] => worst_node
  | n :: next =>
    if unit_used_code_p s (node_unit n) then find_worst_node next (S pos) worst_node s
    else
      match worst_node with
      | None => find_worst_node next (S pos) (Some (pos, n)) s
      | Some (_, w) =>
        if unit_total_calls s (node_unit w) >? unit_total_calls s (node_unit n)
        then find_worst_node next (S pos) (Some (pos, n)) s
        else find_worst_node next (S pos) worst_node s
      end
  end.

(** "Unload the worst node": [free_unit] then [remove_from_list]. *)
Definition unload_node (worst_node : nat * rb_mjit_unit_node) (s : mjit_state) : mjit_state :=
  let s := free_unit (node_unit (snd worst_node)) s in
  set_mjit_active_units (remove_from_list (fst worst_node) (mjit_active_units s)) s.

(** The eviction loop
    [for (; mjit_active_units.length > mjit_opts.max_cache_size - delete_num;)].
    Every round that does not leave the loop unlinks a node, so the loop
    makes at most as many rounds as the chain has nodes; [fuel] is that
    bound (see [unload_loop_fuel]). *)
Fixpoint unload_loop (fuel : nat) (delete_num : Z) (s : mjit_state) : mjit_state :=
  match fuel with
  | O => s
  | S fuel =>
    if ul_length (mjit_active_units s) >? int_wrap (max_cache_size (mjit_opts s) - delete_num) then
      match find_worst_node (ul_head (mjit_active_units s)) 0 None s with
      | None => s
      | Some worst_node => unload_loop fuel delete_num (unload_node worst_node s)
      end
    else s
  end.

(** The state [unload_units] has built when the eviction loop starts. *)
Definition unload_units_scan (s : mjit_state) : mjit_state :=
  let s := unload_gced (ul_head (mjit_active_units s)) 0 s in
  let s := clear_used_code_p (ul_head (mjit_active_units s)) s in
  let s := mark_living_threads (living_threads (host s)) s in
  mark_conts (size (cont_heap s)) (first_cont s) s.

Definition unload_units (s : mjit_state) : mjit_state :=
  let s := unload_units_scan s in
  let delete_num := Z.quot (ul_length (mjit_active_units s)) 10 in
  unload_loop (S (length (ul_head (mjit_active_units s)))) delete_num s.

(** ** Submission (mjit.c 364-389) *)

Definition mjit_add_iseq_to_process (zalloc : option unit_ptr) (iseq : iseq_ptr) (s : mjit_state) : mjit_state :=
  if negb (mjit_enabled s) || bool_decide (mjit_pch_status s = PCH_FAILED) then s
  else
    let s := set_iseq_heap (alter (set_jit_func NOT_READY_JIT_ISEQ_FUNC) iseq (iseq_heap s)) s in
    let s := create_unit zalloc iseq s in
    match body_jit_unit s iseq with
    | None => s
    | Some unit =>
      let node := create_list_node unit in
      let s := set_mjit_unit_queue (add_to_list node (mjit_unit_queue s)) s in
      if ul_length (mjit_active_units s) >=? max_cache_size (mjit_opts s)
      then unload_units s
      else s
    end.

(** ** Synchronous wait (mjit.c 391-420) *)

Definition MJIT_WAIT_TIMEOUT_SECONDS : Z := 60.

Definition timeout_warning : string := "MJIT warning: timed out to wait for JIT finish".

(** The [while] loop of [mjit_get_iseq_func]; [rb_thread_wait_for(tv)] lets
    the environment run for one step of the schedule. *)
Fixpoint mjit_get_iseq_func_loop (sched : schedule) (tries : Z) (body : iseq_ptr) (s : mjit_state)
    : option (mjit_state * schedule) :=
  if decide (body_jit_func s body = NOT_READY_JIT_ISEQ_FUNC) then
    let tries := int_wrap (tries + 1) in
    if (Z.quot tries 1000 >? MJIT_WAIT_TIMEOUT_SECONDS) || bool_decide (mjit_pch_status s = PCH_FAILED) then
      let s := set_iseq_heap (alter (set_jit_func NOT_COMPILED_JIT_ISEQ_FUNC) body (iseq_heap s)) s in
      let s :=
        if warnings (mjit_opts s) || negb (verbose (mjit_opts s) =? 0)
        then set_host (set_stderr (stderr (host s) ++ [timeout_warning]) (host s)) s
        else s in
      Some (s, sched)
    else
      match sched with
      | [] => None
      | w :: sched' => mjit_get_iseq_func_loop sched' tries body (w s)
      end
  else Some (s, sched).

Definition mjit_get_iseq_func (sched : schedule) (body : iseq_ptr) (s : mjit_state)
    : option (mjit_func_t * mjit_state * schedule) :=
  match mjit_get_iseq_func_loop sched 0 body s with
  | None => None
  | Some (s, sched) => Some (body_jit_func s body, s, sched)
  end.

(** ** Class serials (mjit.c 523-534, 840-862) *)

(** What [RB_TYPE_P] tells [valid_class_serials_add_i] about a value. *)
Inductive ruby_type_t : Type := T_MODULE | T_CLASS | T_OTHER.

(** An entry of the constant table of [rb_cObject], as
    [valid_class_serials_add_i] looks at it. *)
Record rb_const_entry_t : Type := Build_rb_const_entry_t {
  ce_is_const_id : bool;
  ce_type : ruby_type_t;
  ce_class_serial : Z
}.

Definition mjit_add_class_serial (class_serial : Z) (s : mjit_state) : mjit_state :=
  if negb (mjit_enabled s) then s
  else set_mjit_valid_class_serials (<[class_serial := true]> (mjit_valid_class_serials s)) s.

Definition mjit_remove_class_serial (class_serial : Z) (s : mjit_state) : mjit_state :=
  if negb (mjit_enabled s) then s
  else set_mjit_valid_class_serials (delete class_serial (mjit_valid_class_serials s)) s.

Definition valid_class_serials_add_i (ce : rb_const_entry_t) (s : mjit_state) : mjit_state :=
  if negb (ce_is_const_id ce) then s
  else
    match ce_type ce with
    | T_MODULE | T_CLASS => mjit_add_class_serial (ce_class_serial ce) s
    | T_OTHER => s
    end.

Fixpoint rb_id_table_foreach (tbl : list rb_const_entry_t) (s : mjit_state) : mjit_state :=
  match tbl with
  | [] => s
  | ce :: rest => rb_id_table_foreach rest (valid_class_serials_add_i ce s)
  end.

(** ** Initialisation (mjit.c 612-702) *)

Definition DEFAULT_CACHE_SIZE : Z := 1000.
Definition DEFAULT_MIN_CALLS_TO_ADD : Z := 5.
Definition MIN_CACHE_SIZE : Z := 10.

(** What [mjit_init] asks of the host: the directory [system_tmpdir]
    resolves, the outcome of [init_header_filename] (the two file names, or
    [None] when the header cannot be opened), the class serials to seed and
    whether [rb_thread_create_mjit_thread] succeeds. *)
Record init_host : Type := Build_init_host {
  ih_system_tmpdir : string;
  ih_header_filename : option (string * string);
  ih_object_serial : Z;
  ih_top_self_serial : Z;
  ih_const_tbl : option (list rb_const_entry_t);
  ih_create_thread : bool
}.

Definition start_worker (create_thread : bool) (s : mjit_state) : bool * mjit_state :=
  let s := set_mjit_stop_worker_p false s in
  let s := set_mjit_worker_stopped false s in
  if negb create_thread then
    let s := set_mjit_enabled false s in
    (false, set_host (set_sync_primitives false (host s)) s)
  else (true, s).

(** [mjit_init], for a build that is not [_MSC_VER]. *)
Definition mjit_init (opts : mjit_options) (h : init_host) (s : mjit_state) : mjit_state :=
  let s := set_mjit_opts opts s in
  let s := set_mjit_enabled true s in
  let s := set_mjit_call_p true s in
  let s :=
    if min_calls (mjit_opts s) =? 0
    then set_mjit_opts (set_min_calls DEFAULT_MIN_CALLS_TO_ADD (mjit_opts s)) s
    else s in
  let s :=
    if max_cache_size (mjit_opts s) <=? 0
    then set_mjit_opts (set_max_cache_size DEFAULT_CACHE_SIZE (mjit_opts s)) s
    else s in
  let s :=
    if max_cache_size (mjit_opts s) <? MIN_CACHE_SIZE
    then set_mjit_opts (set_max_cache_size MIN_CACHE_SIZE (mjit_opts s)) s
    else s in
  let s := set_mjit_pch_status PCH_NOT_READY s in
  let s := set_mjit_tmp_dir (Some (ih_system_tmpdir h)) s in
  match ih_header_filename h with
  | None => set_mjit_enabled false s
  | Some (header_file, pch_file) =>
    let s := set_mjit_header_file (Some header_file) s in
    let s := set_mjit_pch_file (Some pch_file) s in
    let s := set_mjit_unit_queue init_list s in
    let s := set_mjit_active_units init_list s in
    let s := set_mjit_compact_units init_list s in
    let s := set_host (set_sync_primitives true (host s)) s in
    let s := set_mjit_valid_class_serials ∅ s in
    let s := mjit_add_class_serial (ih_object_serial h) s in
    let s := mjit_add_class_serial (ih_top_self_serial h) s in
    let s :=
      match ih_const_tbl h with
      | Some tbl => rb_id_table_foreach tbl s
      | None => s
      end in
    snd (start_worker (ih_create_thread h) s)
  end.

(** [mjit_child_after_fork]. *)
Definition mjit_child_after_fork (s : mjit_state) : mjit_state :=
  if mjit_enabled s then set_mjit_enabled false s else s.

(** ** Stopping the worker and teardown (mjit.c 704-814) *)

(** The [while (!mjit_worker_stopped)] loop of [stop_worker]; the worker
    runs between the broadcasts. *)
Fixpoint stop_worker_wait (sched : schedule) (s : mjit_state) : option (mjit_state * schedule) :=
  if mjit_worker_stopped s then Some (s, sched)
  else
    match sched with
    | [] => None
    | w :: sched' => stop_worker_wait sched' (w s)
    end.

Definition stop_worker (sched : schedule) (s : mjit_state) : option (mjit_state * schedule) :=
  stop_worker_wait sched (set_mjit_stop_worker_p true s).

(** The [while (mjit_pch_status == PCH_NOT_READY)] loop of [mjit_finish]. *)
Fixpoint pch_wait (sched : schedule) (s : mjit_state) : option (mjit_state * schedule) :=
  if decide (mjit_pch_status s = PCH_NOT_READY) then
    match sched with
    | [] => None
    | w :: sched' => pch_wait sched' (w s)
    end
  else Some (s, sched).

(** [mjit_finish] from the destruction of the mutex on (lines 791-813), for
    a build that is not [_MSC_VER]. *)
Definition mjit_finish_teardown (s : mjit_state) : mjit_state :=
  let s := set_host (set_sync_primitives false (host s)) s in
  let s := if save_temps (mjit_opts s) then s else remove_file (mjit_pch_file s) s in
  let s := set_mjit_header_file None s in
  let s := set_mjit_tmp_dir None s in
  let s := set_mjit_pch_file None s in
  let s := set_mjit_call_p false s in
  let s := free_list (mjit_unit_queue s) s in
  let s := free_list (mjit_active_units s) s in
  let s := free_list (mjit_compact_units s) s in
  let s := finish_conts s in
  set_mjit_enabled false s.

Definition mjit_finish (sched : schedule) (s : mjit_state) : option (mjit_state * schedule) :=
  if negb (mjit_enabled s) then Some (s, sched)
  else
    match pch_wait sched s with
    | None => None
    | Some (s, sched) =>
      match stop_worker sched s with
      | None => None
      | Some (s, sched) => Some (mjit_finish_teardown s, sched)
      end
    end.

(** ** GC mark (mjit.c 816-838) *)

(** The loop of [mjit_mark]: [rb_gc_mark] on the iseq of every queued unit
    that still has one. *)
Fixpoint mjit_mark_from (node : list rb_mjit_unit_node) (s : mjit_state) : mjit_state :=
  match node with
  | [] => s
  | n :: next =>
    match unit_iseq s (node_unit n) with
    | Some iseq =>
      mjit_mark_from next (set_host (set_gc_marked (gc_marked (host s) ++ [iseq]) (host s)) s)
    | None => mjit_mark_from next s
    end
  end.

Definition mjit_mark (s : mjit_state) : mjit_state :=
  if negb (mjit_enabled s) then s
  else mjit_mark_from (ul_head (mjit_unit_queue s)) s.

(** ** Pause and resume (mjit.c 719-763) *)

(** What [mjit_pause] and [mjit_resume] give back: [Qtrue], [Qfalse], or
    the [RuntimeError] that [rb_raise] throws. *)
Inductive rb_result : Type :=
| Qtrue
| Qfalse
| rb_eRuntimeError (msg : string).

(** The [while (mjit_unit_queue.length > 0)] loop of [mjit_pause]; the
    worker runs during [rb_thread_wait_for]. *)
Fixpoint pause_wait (sched : schedule) (s : mjit_state) : option (mjit_state * schedule) :=
  if ul_length (mjit_unit_queue s) >? 0 then
    match sched with
    | [] => None
    | w :: sched' => pause_wait sched' (w s)
    end
  else Some (s, sched).

Definition mjit_pause (wait_p : bool) (sched : schedule) (s : mjit_state)
    : option (rb_result * mjit_state * schedule) :=
  if negb (mjit_enabled s) then Some (rb_eRuntimeError "MJIT is not enabled", s, sched)
  else if mjit_worker_stopped s then Some (Qfalse, s, sched)
  else
    match (if wait_p then pause_wait sched s else Some (s, sched)) with
    | None => None
    | Some (s, sched) =>
      match stop_worker sched s with
      | None => None
      | Some (s, sched) => Some (Qtrue, s, sched)
      end
    end.

(** [mjit_resume]; [create_thread] is whether
    [rb_thread_create_mjit_thread] succeeds. *)
Definition mjit_resume (create_thread : bool) (s : mjit_state) : rb_result * mjit_state :=
  if negb (mjit_enabled s) then (rb_eRuntimeError "MJIT is not enabled", s)
  else if negb (mjit_worker_stopped s) then (Qfalse, s)
  else
    let r := start_worker create_thread s in
    if negb (fst r) then (rb_eRuntimeError "Failed to resume MJIT worker", snd r)
    else (Qtrue, snd r).

(** ** The temporary directory (mjit.c 571-610) *)

(** What [check_tmpdir] and [system_tmpdir] ask of the operating system:
    the environment, [stat] (the [st_mode] of a path, [None] when [stat]
    fails), whether [access(dir, W_OK)] succeeds, and what
    [system_default_tmpdir] returns on the platform ([NULL] where neither
    [_WIN32] nor [_CS_DARWIN_USER_TEMP_DIR] is defined). *)
Record file_system : Type := Build_file_system {
  fs_getenv : string → option string;
  fs_stat : string → option Z;
  fs_access_w : string → bool;
  fs_default_tmpdir : option string
}.

(** The mode bits of <sys/stat.h>, with their POSIX values. *)
Definition S_IFMT : Z := 61440.
Definition S_IFDIR : Z := 16384.
Definition S_IWOTH : Z := 2.
Definition S_ISVTX : Z := 512.

Definition S_ISDIR (m : Z) : bool := Z.land m S_IFMT =? S_IFDIR.

(** [check_tmpdir], for a build that is not [_WIN32]. *)
Definition check_tmpdir (fs : file_system) (dir : option string) : bool :=
  match dir with
  | None => false
  | Some d =>
    match fs_stat fs d with
    | None => false
    | Some st_mode =>
      if negb (S_ISDIR st_mode) then false
      else if negb (Z.land st_mode S_IWOTH =? 0) && (Z.land st_mode S_ISVTX =? 0) then false
      else if negb (fs_access_w fs d) then false
      else true
    end
  end.

(** [system_tmpdir]: the two [RETURN_ENV], the platform default, "/tmp". *)
Definition system_tmpdir (fs : file_system) : string :=
  let tmpdir := fs_getenv fs "TMPDIR" in
  if check_tmpdir fs tmpdir then default "" tmpdir
  else
    let tmpdir := fs_getenv fs "TMP" in
    if check_tmpdir fs tmpdir then default "" tmpdir
    else
      let tmpdir := fs_default_tmpdir fs in
      if check_tmpdir fs tmpdir then default "" tmpdir
      else "/tmp".

(** * Vocabulary of the properties *)

(** ** What an operation leaves alone *)

(** [unload_units] writes the active list, the unit heap and, through
    [dlclose], the host; a state with these three blanked is what it leaves
    alone. *)
Definition outside_eviction (s : mjit_state) : mjit_state :=
  set_host (set_dlclosed [] (host s)) (set_unit_heap ∅ (set_mjit_active_units init_list s)).

(** The scan writes the unit heap only. *)
Definition outside_units (s : mjit_state) : mjit_state := set_unit_heap ∅ s.

(** [free_list] and [free_unit] write the unit heap and, through [dlclose],
    the host; [finish_conts] writes the continuation heap.  The list
    headers and [first_cont] are outside both. *)
Definition outside_heaps (s : mjit_state) : mjit_state :=
  set_host (set_dlclosed [] (host s)) (set_cont_heap ∅ (set_unit_heap ∅ s)).

(** The fields of a unit other than the flag of the scan. *)
Definition unit_identity (r : rb_mjit_unit) : Z * option Z * option iseq_ptr :=
  (u_id r, u_handle r, u_iseq r).

(** ** The synchronous wait *)

(** The state [mjit_get_iseq_func] leaves when it gives up. *)
Definition wait_timed_out (body : iseq_ptr) (s : mjit_state) : mjit_state :=
  let s := set_iseq_heap (alter (set_jit_func NOT_COMPILED_JIT_ISEQ_FUNC) body (iseq_heap s)) s in
  if warnings (mjit_opts s) || negb (verbose (mjit_opts s) =? 0)
  then set_host (set_stderr (stderr (host s) ++ [timeout_warning]) (host s)) s
  else s.

(** A worker that does nothing while the caller sleeps. *)
Definition idle : mjit_state → mjit_state := λ s, s.

(** An environment step that does not write the [jit_func] cell of [j]. *)
Definition leaves_jit_func (j : iseq_ptr) (w : mjit_state → mjit_state) : Prop :=
  ∀ s, body_jit_func (w s) j = body_jit_func s j.

(** ** The worst node and the eviction loop *)

(** A node the eviction loop may unload: its unit is not marked. *)
Definition evictable (s : mjit_state) (n : rb_mjit_unit_node) : Prop :=
  unit_used_code_p s (node_unit n) = false.

(** [node->unit->iseq->body->total_calls]. *)
Definition node_calls (s : mjit_state) (n : rb_mjit_unit_node) : Z :=
  unit_total_calls s (node_unit n).

(** [n], at position [p], is the choice section 4.4 describes: it is not
    marked, no unmarked node has fewer calls, and every unmarked node
    before it has more. *)
Definition is_worst_node (s : mjit_state) (chain : list rb_mjit_unit_node)
    (p : nat) (n : rb_mjit_unit_node) : Prop :=
  chain !! p = Some n ∧ evictable s n ∧
  ∀ q m, chain !! q = Some m → evictable s m →
    node_calls s n ≤ node_calls s m ∧ ((q < p)%nat → node_calls s n < node_calls s m).

(** The invariant of the search: [worst_node] is the choice among the
    nodes visited so far. *)
Definition worst_so_far (s : mjit_state) (visited : list rb_mjit_unit_node)
    (worst_node : option (nat * rb_mjit_unit_node)) : Prop :=
  match worst_node with
  | None => ∀ m, m ∈ visited → ¬ evictable s m
  | Some (p, n) => is_worst_node s visited p n
  end.

(** The length the loop brings [mjit_active_units.length] down to, as the
    code computes it. *)
Definition target_length (delete_num : Z) (s : mjit_state) : Z :=
  int_wrap (max_cache_size (mjit_opts s) - delete_num).

(** The eviction loop as section 4.4 words it: a run from [s] to [s'] is a
    sequence of rounds; a round that finds the length at the target, or no
    unmarked unit, ends the run; any other round unloads the worst node
    (frees its unit, which releases the handle, and unlinks the node). *)
Inductive eviction (delete_num : Z) : mjit_state → mjit_state → Prop :=
| eviction_target (s : mjit_state) :
    ul_length (mjit_active_units s) ≤ target_length delete_num s →
    eviction delete_num s s
| eviction_no_victim (s : mjit_state) :
    target_length delete_num s < ul_length (mjit_active_units s) →
    (∀ m, m ∈ ul_head (mjit_active_units s) → ¬ evictable s m) →
    eviction delete_num s s
| eviction_unload (s s' : mjit_state) (p : nat) (n : rb_mjit_unit_node) :
    target_length delete_num s < ul_length (mjit_active_units s) →
    is_worst_node s (ul_head (mjit_active_units s)) p n →
    eviction delete_num (unload_node (p, n) s) s' →
    eviction delete_num s s'.

(** ** The stacks of the scan *)

(** [iseq] is the iseq of a frame that [mark_ec_units] looks at on [ec]. *)
Definition frame_of (ec : rb_execution_context_t) (iseq : iseq_ptr) : Prop :=
  is_Some (ec_vm_stack ec) ∧
  ∃ cfp, cfp ∈ ec_frames ec ∧ is_Some (cfp_pc cfp) ∧ cfp_iseq cfp = Some (imemo_iseq, iseq).

(** The records [mark_conts] visits. *)
Fixpoint registered_conts (fuel : nat) (cont : option cont_ptr) (h : gmap positive mjit_cont)
    : list mjit_cont :=
  match fuel, cont with
  | S fuel, Some c =>
    match h !! c with
    | Some r => r :: registered_conts fuel (c_next r) h
    | None => []
    end
  | _, _ => []
  end.

(** The stacks the scan walks: the living threads, then the registered
    continuations. *)
Definition scanned_stacks (s : mjit_state) : list rb_execution_context_t :=
  living_threads (host s)
  ++ map c_ec (registered_conts (size (cont_heap s)) (first_cont s) (cont_heap s)).

(** ** Teardown *)


(** Lines 791-806 of [mjit_finish]: the synchronisation primitives, the
    files and the call flag. *)
Definition teardown_resources (s : mjit_state) : mjit_state :=
  let s := set_host (set_sync_primitives false (host s)) s in
  let s := if save_temps (mjit_opts s) then s else remove_file (mjit_pch_file s) s in
  let s := set_mjit_header_file None s in
  let s := set_mjit_tmp_dir None s in
  let s := set_mjit_pch_file None s in
  set_mjit_call_p false s.

(** ** States and hosts of the examples *)

(** The globals as the C runtime zero-initialises them, with empty heaps. *)
Definition zero_options : mjit_options := Build_mjit_options false false false 0 0 0.

Definition zero_host : host_runtime := Build_host_runtime [] [] [] [] [] false.

Definition zero_state : mjit_state :=
  Build_mjit_state zero_options false false init_list init_list init_list 0 false false
    None ∅ None None PCH_NOT_READY false false None ∅ ∅ ∅ zero_host.

(** A host on which [mjit_init] succeeds. *)
Definition plain_init_host : init_host :=
  Build_init_host "/tmp" (Some ("rb_mjit_min_header.h", "/tmp/_ruby_mjit_hp1.h.gch")) 1 2 None true.

(** The options of end-to-end scenario 1: [max_cache_size = 10],
    [min_calls = 5]. *)
Definition scenario_options : mjit_options := Build_mjit_options false true false 5 0 10.

(** A frame of a method that runs the iseq at [iseq]. *)
Definition iseq_frame (iseq : iseq_ptr) : rb_control_frame_t :=
  Build_rb_control_frame_t (Some 1) (Some (imemo_iseq, iseq)).

(** A state after [mjit_init] in which every entry [(a, calls)] is an iseq
    at [a], called [calls] times, compiled into the unit at [a], all units
    in the active list in the order of [entries]; the main thread has a
    frame for every iseq of [on_stack]. *)
Definition cache_state (entries : list (positive * Z)) (on_stack : list iseq_ptr) : mjit_state :=
  let s := set_mjit_pch_status PCH_SUCCESS (mjit_init scenario_options plain_init_host zero_state) in
  let s := set_mjit_active_units
    (Build_rb_mjit_unit_list (map (λ e, create_list_node (fst e)) entries) (Z.of_nat (length entries))) s in
  let s := set_mjit_current_unit_num (Z.of_nat (length entries)) s in
  let s := set_unit_heap
    (list_to_map (map (λ e, (fst e, Build_rb_mjit_unit (Z.pos (fst e)) (Some (Z.pos (fst e))) (Some (fst e)) false)) entries)) s in
  let s := set_iseq_heap
    (list_to_map (map (λ e, (fst e, Build_rb_iseq_constant_body (JIT_FUNC (Z.pos (fst e))) (Some (fst e)) (snd e))) entries)) s in
  set_host (set_living_threads [Build_rb_execution_context_t (Some 1) (map iseq_frame on_stack)] (host s)) s.

(** Eleven loaded units; the iseq at 2 has the fewest calls. *)
Definition eleven_units : list (positive * Z) :=
  [(1%positive, 3); (2%positive, 1); (3%positive, 4); (4%positive, 1); (5%positive, 5);
   (6%positive, 9); (7%positive, 2); (8%positive, 6); (9%positive, 5); (10%positive, 3);
   (11%positive, 5)].

(** A state in which iseq 1 has been submitted and its unit is queued:
    [jit_func] is [NOT_READY], PCH is built, the worker never answers. *)
Definition waiting_state : mjit_state :=
  set_iseq_heap {[ 1%positive := Build_rb_iseq_constant_body NOT_READY_JIT_ISEQ_FUNC (Some 1%positive) 5 ]}
    (set_unit_heap {[ 1%positive := Build_rb_mjit_unit 0 None (Some 1%positive) false ]}
      (set_mjit_unit_queue (Build_rb_mjit_unit_list [create_list_node 1] 1)
        (set_mjit_pch_status PCH_SUCCESS
          (mjit_init scenario_options plain_init_host zero_state)))).


(** An iseq that has reached [min_calls] and has not been submitted. *)
Definition unsubmitted_state : mjit_state :=
  set_iseq_heap {[ 1%positive := Build_rb_iseq_constant_body NOT_ADDED_JIT_ISEQ_FUNC None 5 ]}
    (cache_state [] []).

Definition submitted_twice : mjit_state :=
  mjit_add_iseq_to_process (Some 2%positive) 1
    (mjit_add_iseq_to_process (Some 1%positive) 1 unsubmitted_state).

(** A state in the middle of a run: one unit queued, one loaded, one
    compacted, two continuations registered, PCH still being built. *)
Definition running_state : mjit_state :=
  let s := mjit_init scenario_options plain_init_host zero_state in
  let s := set_mjit_unit_queue (Build_rb_mjit_unit_list [create_list_node 1] 1) s in
  let s := set_mjit_active_units (Build_rb_mjit_unit_list [create_list_node 2] 1) s in
  let s := set_mjit_compact_units (Build_rb_mjit_unit_list [create_list_node 3] 1) s in
  let s := set_unit_heap
    (list_to_map [(1%positive, Build_rb_mjit_unit 0 None (Some 1%positive) false);
                  (2%positive, Build_rb_mjit_unit 1 (Some 4096) (Some 2%positive) false);
                  (3%positive, Build_rb_mjit_unit 2 (Some 8192) None false)]) s in
  let s := fst (mjit_cont_new 1 (Build_rb_execution_context_t None []) s) in
  fst (mjit_cont_new 2 (Build_rb_execution_context_t None []) s).

(** A worker that finishes the PCH at the first wait and stops at the
    second. *)
Definition finishing_worker : schedule :=
  [set_mjit_pch_status PCH_SUCCESS; set_mjit_worker_stopped true].

Definition stopped_state : mjit_state :=
  set_mjit_worker_stopped true (set_mjit_stop_worker_p true (set_mjit_pch_status PCH_SUCCESS running_state)).

(** ** The environment, the class serials, the file system *)

(** The state after the environment has made the steps [ws]. *)
Definition run (ws : schedule) (s : mjit_state) : mjit_state :=
  foldl (λ s w, w s) s ws.

(** A worker that honours [mjit_stop_worker_p]: when it runs with the flag
    set, it stops. *)
Definition cooperative_worker (w : mjit_state → mjit_state) : Prop :=
  ∀ s, mjit_stop_worker_p s = true → mjit_worker_stopped (w s) = true.

(** [mjit_add_class_serial] and [mjit_remove_class_serial] write the class
    serials only. *)
Definition outside_class_serials (s : mjit_state) : mjit_state :=
  set_mjit_valid_class_serials ∅ s.

(** The serial [valid_class_serials_add_i] adds for an entry of the
    constant table, if any. *)
Definition const_entry_serial (ce : rb_const_entry_t) : option Z :=
  if ce_is_const_id ce then
    match ce_type ce with
    | T_MODULE | T_CLASS => Some (ce_class_serial ce)
    | T_OTHER => None
    end
  else None.

(** The class serials [mjit_init] seeds. *)
Definition seeded_class_serials (h : init_host) : list Z :=
  ih_object_serial h :: ih_top_self_serial h
  :: omap const_entry_serial (default [] (ih_const_tbl h)).


(** A file system with a sticky world-writable [/tmp] and a [$TMPDIR] that
    others may write to. *)
Definition unsafe_tmpdir_fs : file_system :=
  Build_file_system
    (λ name, if String.eqb name "TMPDIR" then Some "/home/u/tmp" else None)
    (λ path, if String.eqb path "/home/u/tmp" then Some 16895
             else if String.eqb path "/tmp" then Some 17407 else None)
    (λ _, true) None.

(** ** The active list *)

(** The length counter of a list agrees with its chain, within [int]. *)
Definition list_consistent (l : rb_mjit_unit_list) : Prop :=
  ul_length l = Z.of_nat (length (ul_head l)) ∧ ul_length l ≤ INT_MAX.

(** The number of active nodes whose unit is marked. *)
Definition marked_count (s : mjit_state) : Z :=
  Z.of_nat (length (filter (λ n, unit_used_code_p s (node_unit n) = true)
                      (ul_head (mjit_active_units s)))).

(** Some stack of the scan has a frame that runs an iseq whose [jit_unit]
    is [u]. *)
Definition on_scanned_stack (s : mjit_state) (u : unit_ptr) : Prop :=
  ∃ ec iseq, ec ∈ scanned_stacks s ∧ frame_of ec iseq ∧ body_jit_unit s iseq = Some u.

(** ** The continuation registry *)

(** [cs] are the records of the registry in list order: they are distinct,
    [first_cont] is the first, and each record's [prev] and [next] are its
    neighbours in [cs], [NULL] at the ends. *)
Definition cont_registry (s : mjit_state) (cs : list cont_ptr) : Prop :=
  NoDup cs ∧ first_cont s = head cs ∧
  ∀ i c, cs !! i = Some c →
    ∃ r, cont_heap s !! c = Some r ∧
         c_prev r = match i with O => None | S j => cs !! j end ∧
         c_next r = cs !! S i.

(** The stacks [unload_units] reaches through the registry. *)
Definition cont_stacks (s : mjit_state) : list rb_execution_context_t :=
  map c_ec (registered_conts (size (cont_heap s)) (first_cont s) (cont_heap s)).

(** The stacks of the records [cs]. *)
Definition stacks_of (s : mjit_state) (cs : list cont_ptr) : list rb_execution_context_t :=
  omap (λ c, c_ec <$> cont_heap s !! c) cs.

(** Two continuations registered in a state that has none: the registry is
    [[2; 1]]. *)
Definition two_conts_state : mjit_state :=
  fst (mjit_cont_new 2 (Build_rb_execution_context_t (Some 2) [iseq_frame 2])
    (fst (mjit_cont_new 1 (Build_rb_execution_context_t (Some 1) [iseq_frame 1]) zero_state))).

(** ** GC marking *)

(** The iseqs of the units on the chain [node] that still have one. *)
Definition live_iseqs (s : mjit_state) (node : list rb_mjit_unit_node) : list iseq_ptr :=
  omap (λ n, unit_iseq s (node_unit n)) node.

(** * Properties *)

(** ** Option normalisation *)

Section Normalisation.

Variables (opts : mjit_options) (h : init_host) (s : mjit_state).

Lemma rb_id_table_foreach_opts (tbl : list rb_const_entry_t) (s0 : mjit_state) :
  mjit_opts (rb_id_table_foreach tbl s0) = mjit_opts s0.
Proof.
  revert s0. induction tbl as [|ce tbl IH]; intros s0; [done|].
  simpl. rewrite IH. unfold valid_class_serials_add_i, mjit_add_class_serial.
  by destruct (ce_is_const_id ce), (ce_type ce), (mjit_enabled s0).
Qed.

(** The options [mjit_init] leaves in [mjit_opts], whatever else it does. *)
Lemma mjit_init_opts :
  mjit_opts (mjit_init opts h s) =
    let o := if min_calls opts =? 0 then set_min_calls DEFAULT_MIN_CALLS_TO_ADD opts else opts in
    let o := if max_cache_size o <=? 0 then set_max_cache_size DEFAULT_CACHE_SIZE o else o in
    if max_cache_size o <? MIN_CACHE_SIZE then set_max_cache_size MIN_CACHE_SIZE o else o.
Proof.
  unfold mjit_init. cbn zeta.
  destruct (ih_header_filename h) as [[hf pf]|]; cbn -[Z.eqb Z.leb Z.ltb].
  - unfold start_worker. destruct (ih_create_thread h); cbn -[Z.eqb Z.leb Z.ltb].
    all: destruct (ih_const_tbl h) as [tbl|];
      rewrite ?rb_id_table_foreach_opts; cbn -[Z.eqb Z.leb Z.ltb].
    all: by destruct (min_calls opts =? 0); cbn -[Z.eqb Z.leb Z.ltb];
      destruct (max_cache_size opts <=? 0); cbn -[Z.eqb Z.leb Z.ltb];
      repeat case_match.
  - by destruct (min_calls opts =? 0); cbn -[Z.eqb Z.leb Z.ltb];
      destruct (max_cache_size opts <=? 0); cbn -[Z.eqb Z.leb Z.ltb];
      repeat case_match.
Qed.

End Normalisation.

(** Case analysis on the next integer test of the goal. *)
Ltac Z_test_cases :=
  cbn -[Z.eqb Z.leb Z.ltb];
  match goal with
  | |- context [?a =? ?b] => destruct (Z.eqb_spec a b)
  | |- context [?a <=? ?b] => destruct (Z.leb_spec a b)
  | |- context [?a <? ?b] => destruct (Z.ltb_spec a b)
  end.

(** C7: for every options value, [mjit_init] turns [min_calls = 0] into 5
    and a non-positive [max_cache_size] into the default 1000, and the
    [max_cache_size] it leaves is at least 10. *)
Theorem mjit_init_normalizes_options (opts : mjit_options) (h : init_host) (s : mjit_state) :
  (min_calls opts = 0 → min_calls (mjit_opts (mjit_init opts h s)) = 5) ∧
  (max_cache_size opts ≤ 0 → max_cache_size (mjit_opts (mjit_init opts h s)) = 1000) ∧
  10 ≤ max_cache_size (mjit_opts (mjit_init opts h s)).
Proof.
  rewrite mjit_init_opts. destruct opts as [st wn wt mc vb mcs].
  unfold DEFAULT_MIN_CALLS_TO_ADD, DEFAULT_CACHE_SIZE, MIN_CACHE_SIZE.
  repeat Z_test_cases; cbn; lia.
Qed.

Lemma mjit_init_normalizes_options_witness :
  min_calls (mjit_opts (mjit_init zero_options plain_init_host zero_state)) = 5 ∧
  max_cache_size (mjit_opts (mjit_init zero_options plain_init_host zero_state)) = 1000 ∧
  10 ≤ max_cache_size (mjit_opts (mjit_init zero_options plain_init_host zero_state)).
Proof.
  destruct (mjit_init_normalizes_options zero_options plain_init_host zero_state) as (H1 & H2 & H3).
  split; [apply H1; reflexivity|]. split; [apply H2; simpl; lia|exact H3].
Defined.

(** C6, as the claim states it, fails: with [max_cache_size = 0] the
    normalised value is 1000, not 10. *)
Lemma cache_size_zero_gets_the_default :
  max_cache_size zero_options = 0 ∧
  max_cache_size (mjit_opts (mjit_init zero_options plain_init_host zero_state)) ≠ 10.
Proof. split; [reflexivity|]. vm_compute. discriminate. Qed.

(** C6 (amended): with [max_cache_size = 0] the normalised value is the
    default 1000; the minimum 10 is what a value between 1 and 9 becomes. *)
Theorem mjit_init_cache_size_zero (opts : mjit_options) (h : init_host) (s : mjit_state) :
  (max_cache_size opts = 0 → max_cache_size (mjit_opts (mjit_init opts h s)) = 1000) ∧
  (1 ≤ max_cache_size opts < 10 → max_cache_size (mjit_opts (mjit_init opts h s)) = 10).
Proof.
  rewrite mjit_init_opts. destruct opts as [st wn wt mc vb mcs].
  unfold DEFAULT_MIN_CALLS_TO_ADD, DEFAULT_CACHE_SIZE, MIN_CACHE_SIZE.
  repeat Z_test_cases; cbn; lia.
Qed.

Lemma mjit_init_cache_size_zero_witness :
  max_cache_size (mjit_opts (mjit_init zero_options plain_init_host zero_state)) = 1000 ∧
  max_cache_size (mjit_opts (mjit_init (set_max_cache_size 7 zero_options) plain_init_host zero_state)) = 10.
Proof.
  split.
  - apply (mjit_init_cache_size_zero zero_options plain_init_host zero_state). reflexivity.
  - apply (mjit_init_cache_size_zero (set_max_cache_size 7 zero_options) plain_init_host zero_state).
    simpl. lia.
Defined.

(** ** The entry points when the subsystem is disabled *)

(** C10: with [mjit_enabled] false, [mjit_gc_start_hook],
    [mjit_gc_finish_hook], [mjit_free_iseq], [mjit_mark],
    [mjit_add_iseq_to_process], [mjit_add_class_serial] and
    [mjit_remove_class_serial] return at once (the first without a single
    wait) and leave the whole state, hence the three lists, [mjit_in_gc],
    [mjit_in_jit], the class serials and every [jit_func] and [jit_unit]
    cell, as it was. *)
Theorem disabled_entry_points_change_nothing (s : mjit_state) (sched : schedule)
    (zalloc : option unit_ptr) (iseq : iseq_ptr) (class_serial : Z) :
  mjit_enabled s = false →
  mjit_gc_start_hook sched s = Some (s, sched) ∧
  mjit_gc_finish_hook s = s ∧
  mjit_free_iseq iseq s = s ∧
  mjit_mark s = s ∧
  mjit_add_iseq_to_process zalloc iseq s = s ∧
  mjit_add_class_serial class_serial s = s ∧
  mjit_remove_class_serial class_serial s = s.
Proof.
  intros Hoff.
  unfold mjit_gc_start_hook, mjit_gc_finish_hook, mjit_free_iseq, mjit_mark,
    mjit_add_iseq_to_process, mjit_add_class_serial, mjit_remove_class_serial.
  rewrite Hoff. repeat split.
Qed.

Lemma disabled_entry_points_change_nothing_witness :
  mjit_gc_start_hook [] zero_state = Some (zero_state, []) ∧
  mjit_gc_finish_hook zero_state = zero_state ∧
  mjit_free_iseq 1 zero_state = zero_state ∧
  mjit_mark zero_state = zero_state ∧
  mjit_add_iseq_to_process (Some 1%positive) 1 zero_state = zero_state ∧
  mjit_add_class_serial 7 zero_state = zero_state ∧
  mjit_remove_class_serial 7 zero_state = zero_state.
Proof.
  apply (disabled_entry_points_change_nothing zero_state [] (Some 1%positive) 1%positive 7).
  reflexivity.
Defined.

(** ** The synchronous wait *)

Lemma int_wrap_small (z : Z) : INT_MIN ≤ z ≤ INT_MAX → int_wrap z = z.
Proof.
  unfold INT_MIN, INT_MAX, int_wrap. intros Hz.
  rewrite Z.mod_small; lia.
Qed.

(** The test [tries / 1000 > MJIT_WAIT_TIMEOUT_SECONDS] holds from
    [tries = 61000] on. *)
Lemma timeout_test (tries : Z) :
  0 ≤ tries → (Z.quot tries 1000 >? MJIT_WAIT_TIMEOUT_SECONDS) = bool_decide (61000 ≤ tries).
Proof.
  intros Ht. unfold MJIT_WAIT_TIMEOUT_SECONDS.
  rewrite Z.quot_div_nonneg by lia.
  case_bool_decide as Hc.
  - apply Z.gtb_lt. assert (61 ≤ tries / 1000); [|lia].
    apply Z.div_le_lower_bound; lia.
  - rewrite Z.gtb_ltb. apply Z.ltb_ge. assert (tries / 1000 < 61); [|lia].
    apply Z.div_lt_upper_bound; lia.
Qed.

Section SynchronousWait.

Variables (body : iseq_ptr).

Lemma loop_not_waiting (sched : schedule) (tries : Z) (s : mjit_state) :
  body_jit_func s body ≠ NOT_READY_JIT_ISEQ_FUNC →
  mjit_get_iseq_func_loop sched tries body s = Some (s, sched).
Proof. intros Hr. destruct sched; simpl; by rewrite decide_False. Qed.

Lemma loop_pch_failed (sched : schedule) (tries : Z) (s : mjit_state) :
  body_jit_func s body = NOT_READY_JIT_ISEQ_FUNC →
  mjit_pch_status s = PCH_FAILED →
  mjit_get_iseq_func_loop sched tries body s = Some (wait_timed_out body s, sched).
Proof.
  intros Hr Hp. destruct sched; simpl; rewrite decide_True by done;
    rewrite Hp, orb_true_r; reflexivity.
Qed.

Lemma loop_timeout (sched : schedule) (tries : Z) (s : mjit_state) :
  body_jit_func s body = NOT_READY_JIT_ISEQ_FUNC →
  61000 ≤ tries + 1 ≤ INT_MAX →
  mjit_get_iseq_func_loop sched tries body s = Some (wait_timed_out body s, sched).
Proof.
  intros Hr Ht. unfold INT_MAX in Ht.
  destruct sched; simpl; rewrite decide_True by done;
    rewrite int_wrap_small by (unfold INT_MIN, INT_MAX; lia);
    rewrite timeout_test by lia; rewrite bool_decide_true by lia; reflexivity.
Qed.

Lemma loop_sleep (w : mjit_state → mjit_state) (sched : schedule) (tries : Z) (s : mjit_state) :
  body_jit_func s body = NOT_READY_JIT_ISEQ_FUNC →
  mjit_pch_status s ≠ PCH_FAILED →
  0 ≤ tries + 1 < 61000 →
  mjit_get_iseq_func_loop (w :: sched) tries body s =
  mjit_get_iseq_func_loop sched (tries + 1) body (w s).
Proof.
  intros Hr Hp Ht. simpl. rewrite decide_True by done.
  rewrite int_wrap_small by (unfold INT_MIN, INT_MAX; lia).
  rewrite timeout_test by lia. rewrite bool_decide_false by lia.
  rewrite bool_decide_false by done. reflexivity.
Qed.

Lemma loop_no_schedule (tries : Z) (s : mjit_state) :
  body_jit_func s body = NOT_READY_JIT_ISEQ_FUNC →
  mjit_pch_status s ≠ PCH_FAILED →
  0 ≤ tries + 1 < 61000 →
  mjit_get_iseq_func_loop [] tries body s = None.
Proof.
  intros Hr Hp Ht. simpl. rewrite decide_True by done.
  rewrite int_wrap_small by (unfold INT_MIN, INT_MAX; lia).
  rewrite timeout_test by lia. rewrite bool_decide_false by lia.
  rewrite bool_decide_false by done. reflexivity.
Qed.

(** With an idle worker the loop sleeps as long as [tries] stays below
    61000. *)
Lemma loop_idle (n : nat) (rest : schedule) (tries : Z) (s : mjit_state) :
  body_jit_func s body = NOT_READY_JIT_ISEQ_FUNC →
  mjit_pch_status s ≠ PCH_FAILED →
  0 ≤ tries → tries + Z.of_nat n < 61000 →
  mjit_get_iseq_func_loop (replicate n idle ++ rest) tries body s =
  mjit_get_iseq_func_loop rest (tries + Z.of_nat n) body s.
Proof.
  intros Hr Hp. revert tries. induction n as [|n IH]; intros tries H0 Hn.
  - by rewrite Z.add_0_r.
  - change (replicate (S n) idle ++ rest) with (idle :: (replicate n idle ++ rest)).
    rewrite loop_sleep by (done || lia). unfold idle at 2.
    rewrite IH by lia. f_equal. lia.
Qed.

(** The call returns whatever the worker does: the loop leaves after
    61000 tries at the latest, so 60999 steps of schedule are enough. *)
Lemma loop_returns (sched : schedule) (tries : Z) (s : mjit_state) :
  0 ≤ tries ≤ 60999 →
  (60999 - tries ≤ Z.of_nat (length sched)) →
  is_Some (mjit_get_iseq_func_loop sched tries body s).
Proof.
  revert tries s. induction sched as [|w sched IH]; intros tries s Ht Hlen.
  - destruct (decide (body_jit_func s body = NOT_READY_JIT_ISEQ_FUNC)) as [Hr|Hr].
    + rewrite loop_timeout; [done|done|]. simpl in Hlen. unfold INT_MAX. lia.
    + by rewrite loop_not_waiting.
  - destruct (decide (body_jit_func s body = NOT_READY_JIT_ISEQ_FUNC)) as [Hr|Hr];
      [|by rewrite loop_not_waiting].
    destruct (decide (mjit_pch_status s = PCH_FAILED)) as [Hp|Hp];
      [by rewrite loop_pch_failed|].
    destruct (decide (tries = 60999)) as [->|Hne].
    + rewrite loop_timeout; [done|done|]. unfold INT_MAX. lia.
    + rewrite loop_sleep by (done || lia). apply IH; [lia|].
      simpl in Hlen. lia.
Qed.

End SynchronousWait.

(** [mjit_get_iseq_func] returns under every schedule of at least 60999
    steps. *)
Lemma mjit_get_iseq_func_returns (sched : schedule) (body : iseq_ptr) (s : mjit_state) :
  60999 ≤ Z.of_nat (length sched) → is_Some (mjit_get_iseq_func sched body s).
Proof.
  intros Hlen. unfold mjit_get_iseq_func.
  destruct (loop_returns body sched 0 s) as [[s' sched'] ->]; [lia|lia|done].
Qed.


Lemma wait_timed_out_jit_func (body : iseq_ptr) (s : mjit_state) :
  body_jit_func s body = NOT_READY_JIT_ISEQ_FUNC →
  body_jit_func (wait_timed_out body s) body = NOT_COMPILED_JIT_ISEQ_FUNC.
Proof.
  unfold wait_timed_out, body_jit_func. intros Hr. cbn zeta.
  assert (iseq_heap (set_iseq_heap (alter (set_jit_func NOT_COMPILED_JIT_ISEQ_FUNC) body (iseq_heap s)) s) !! body
          = set_jit_func NOT_COMPILED_JIT_ISEQ_FUNC <$> iseq_heap s !! body) as Hl.
  { simpl. by rewrite lookup_alter_eq. }
  destruct (iseq_heap s !! body) as [b|] eqn:Hb; [|done].
  case_match; simpl; simpl in Hl; by rewrite Hl.
Qed.

(** With PCH failed the first round gives up: [NOT_COMPILED] is returned
    without a wait, and [stderr] gets the warning once if [warnings] or
    [verbose] is on and nothing otherwise. *)
Lemma mjit_get_iseq_func_pch_failed (sched : schedule) (body : iseq_ptr) (s : mjit_state) :
  body_jit_func s body = NOT_READY_JIT_ISEQ_FUNC →
  mjit_pch_status s = PCH_FAILED →
  mjit_get_iseq_func sched body s = Some (NOT_COMPILED_JIT_ISEQ_FUNC, wait_timed_out body s, sched) ∧
  stderr (host (wait_timed_out body s)) =
    stderr (host s) ++
      (if warnings (mjit_opts s) || negb (verbose (mjit_opts s) =? 0) then [timeout_warning] else []).
Proof.
  intros Hr Hp. unfold mjit_get_iseq_func. rewrite loop_pch_failed by done.
  rewrite wait_timed_out_jit_func by done. split; [done|].
  unfold wait_timed_out. cbn -[Z.eqb]. case_match; simpl; [done|by rewrite app_nil_r].
Qed.

(** C5: where the cell stays [NOT_READY] and PCH has not failed, the call
    has not returned after 60000 sleeps of 1 ms, nor after 60998; it gives
    up in the round in which [tries] reaches 61000, after 60999 sleeps, and
    then returns [NOT_COMPILED]. *)
Theorem mjit_get_iseq_func_gives_up_at_61000_tries (body : iseq_ptr) (s : mjit_state) :
  body_jit_func s body = NOT_READY_JIT_ISEQ_FUNC →
  mjit_pch_status s ≠ PCH_FAILED →
  mjit_get_iseq_func (replicate (Z.to_nat 60000) idle) body s = None ∧
  mjit_get_iseq_func (replicate (Z.to_nat 60998) idle) body s = None ∧
  mjit_get_iseq_func (replicate (Z.to_nat 60999) idle) body s =
    Some (NOT_COMPILED_JIT_ISEQ_FUNC, wait_timed_out body s, []).
Proof.
  intros Hr Hp. unfold mjit_get_iseq_func.
  assert (∀ n, 0 ≤ n < 61000 →
    mjit_get_iseq_func_loop (replicate (Z.to_nat n) idle) 0 body s =
    mjit_get_iseq_func_loop [] n body s) as Hidle.
  { intros n Hn. rewrite <- (app_nil_r (replicate _ _)).
    rewrite loop_idle by (done || lia). f_equal. lia. }
  rewrite !Hidle by lia.
  rewrite !loop_no_schedule by (done || lia).
  rewrite loop_timeout by (done || unfold INT_MAX; lia).
  by rewrite wait_timed_out_jit_func.
Qed.

Lemma mjit_get_iseq_func_gives_up_at_61000_tries_witness :
  mjit_get_iseq_func (replicate (Z.to_nat 60000) idle) 1 waiting_state = None ∧
  mjit_get_iseq_func (replicate (Z.to_nat 60998) idle) 1 waiting_state = None ∧
  mjit_get_iseq_func (replicate (Z.to_nat 60999) idle) 1 waiting_state =
    Some (NOT_COMPILED_JIT_ISEQ_FUNC, wait_timed_out 1 waiting_state, []).
Proof.
  apply (mjit_get_iseq_func_gives_up_at_61000_tries 1 waiting_state).
  - reflexivity.
  - discriminate.
Defined.

(** ** What eviction touches *)

Lemma free_unit_outside (u : unit_ptr) (s : mjit_state) :
  outside_eviction (free_unit u s) = outside_eviction s.
Proof.
  unfold free_unit. destruct (unit_heap s !! u) as [r|]; [|done].
  by destruct (u_handle r).
Qed.

Lemma unload_gced_outside (node : list rb_mjit_unit_node) (pos : nat) (s : mjit_state) :
  outside_eviction (unload_gced node pos s) = outside_eviction s.
Proof.
  revert pos s. induction node as [|n node IH]; intros pos s; [done|].
  simpl. destruct (unit_iseq s (node_unit n)); rewrite IH; [done|].
  apply free_unit_outside.
Qed.

Lemma clear_used_code_p_outside (node : list rb_mjit_unit_node) (s : mjit_state) :
  outside_eviction (clear_used_code_p node s) = outside_eviction s.
Proof.
  revert s. induction node as [|n node IH]; intros s; [done|].
  simpl. by rewrite IH.
Qed.

Lemma mark_cfp_outside (cfp : rb_control_frame_t) (s : mjit_state) :
  outside_eviction (mark_cfp cfp s) = outside_eviction s.
Proof. unfold mark_cfp. by repeat case_match. Qed.

Lemma mark_ec_units_outside (ec : rb_execution_context_t) (s : mjit_state) :
  outside_eviction (mark_ec_units ec s) = outside_eviction s.
Proof.
  unfold mark_ec_units. destruct (ec_vm_stack ec); [|done].
  revert s. induction (ec_frames ec) as [|f fs IH]; intros s; [done|].
  simpl. rewrite IH. apply mark_cfp_outside.
Qed.

Lemma mark_living_threads_outside (th : list rb_execution_context_t) (s : mjit_state) :
  outside_eviction (mark_living_threads th s) = outside_eviction s.
Proof.
  revert s. induction th as [|ec th IH]; intros s; [done|].
  simpl. rewrite IH. apply mark_ec_units_outside.
Qed.

Lemma mark_conts_outside (fuel : nat) (cont : option cont_ptr) (s : mjit_state) :
  outside_eviction (mark_conts fuel cont s) = outside_eviction s.
Proof.
  revert cont s. induction fuel as [|fuel IH]; intros [c|] s; try done.
  simpl. destruct (cont_heap s !! c) as [r|]; [|done].
  rewrite IH. apply mark_ec_units_outside.
Qed.

Lemma unload_node_outside (worst_node : nat * rb_mjit_unit_node) (s : mjit_state) :
  outside_eviction (unload_node worst_node s) = outside_eviction s.
Proof. unfold unload_node. cbn zeta. by rewrite <- (free_unit_outside (node_unit (snd worst_node)) s). Qed.

Lemma unload_loop_outside (fuel : nat) (delete_num : Z) (s : mjit_state) :
  outside_eviction (unload_loop fuel delete_num s) = outside_eviction s.
Proof.
  revert s. induction fuel as [|fuel IH]; intros s; [done|].
  simpl. repeat case_match; try done.
  rewrite IH. apply unload_node_outside.
Qed.

Lemma unload_units_scan_outside (s : mjit_state) :
  outside_eviction (unload_units_scan s) = outside_eviction s.
Proof.
  unfold unload_units_scan. cbn zeta.
  by rewrite mark_conts_outside, mark_living_threads_outside,
    clear_used_code_p_outside, unload_gced_outside.
Qed.

Lemma unload_units_outside (s : mjit_state) :
  outside_eviction (unload_units s) = outside_eviction s.
Proof.
  unfold unload_units. cbn zeta.
  by rewrite unload_loop_outside, unload_units_scan_outside.
Qed.


Lemma unload_units_queue (s : mjit_state) : mjit_unit_queue (unload_units s) = mjit_unit_queue s.
Proof. exact (f_equal mjit_unit_queue (unload_units_outside s)). Qed.

Lemma unload_units_current_unit_num (s : mjit_state) :
  mjit_current_unit_num (unload_units s) = mjit_current_unit_num s.
Proof. exact (f_equal mjit_current_unit_num (unload_units_outside s)). Qed.

(** ** The [jit_func] cell *)

Lemma mjit_get_iseq_func_loop_unfold (sched : schedule) (tries : Z) (body : iseq_ptr) (s : mjit_state) :
  mjit_get_iseq_func_loop sched tries body s =
  if decide (body_jit_func s body = NOT_READY_JIT_ISEQ_FUNC) then
    if (Z.quot (int_wrap (tries + 1)) 1000 >? MJIT_WAIT_TIMEOUT_SECONDS)
       || bool_decide (mjit_pch_status s = PCH_FAILED)
    then Some (wait_timed_out body s, sched)
    else
      match sched with
      | [] => None
      | w :: sched' => mjit_get_iseq_func_loop sched' (int_wrap (tries + 1)) body (w s)
      end
  else Some (s, sched).
Proof. by destruct sched. Qed.

Lemma wait_timed_out_other (body j : iseq_ptr) (s : mjit_state) :
  j ≠ body → body_jit_func (wait_timed_out body s) j = body_jit_func s j.
Proof.
  intros Hne. unfold wait_timed_out, body_jit_func. cbn zeta.
  case_match; simpl; by rewrite lookup_alter_ne.
Qed.

(** The only write of the wait loop is [NOT_READY] to [NOT_COMPILED], on
    its own cell. *)
Lemma mjit_get_iseq_func_loop_writes (j : iseq_ptr) (sched : schedule) (tries : Z)
    (body : iseq_ptr) (s s' : mjit_state) (sched' : schedule) :
  Forall (leaves_jit_func j) sched →
  mjit_get_iseq_func_loop sched tries body s = Some (s', sched') →
  body_jit_func s' j = body_jit_func s j ∨
  (j = body ∧ body_jit_func s j = NOT_READY_JIT_ISEQ_FUNC
   ∧ body_jit_func s' j = NOT_COMPILED_JIT_ISEQ_FUNC).
Proof.
  intros Hq. revert tries s. induction Hq as [|w sched Hw Hq IH]; intros tries s;
    rewrite mjit_get_iseq_func_loop_unfold.
  - destruct (decide _) as [Hr|Hr]; [|intros [= <- <-]; by left].
    case_match; [|done]. intros [= <- <-].
    destruct (decide (j = body)) as [->|Hne].
    + right. by rewrite wait_timed_out_jit_func.
    + left. by apply wait_timed_out_other.
  - destruct (decide _) as [Hr|Hr]; [|intros [= <- <-]; by left].
    case_match.
    + intros [= <- <-]. destruct (decide (j = body)) as [->|Hne].
      * right. by rewrite wait_timed_out_jit_func.
      * left. by apply wait_timed_out_other.
    + intros Hloop. apply IH in Hloop. by rewrite (Hw s) in Hloop.
Qed.


(** [mjit_add_iseq_to_process] past its guard. *)
Lemma mjit_add_iseq_to_process_enabled (zalloc : option unit_ptr) (iseq : iseq_ptr) (s : mjit_state) :
  mjit_enabled s = true → mjit_pch_status s ≠ PCH_FAILED →
  mjit_add_iseq_to_process zalloc iseq s =
    let s := set_iseq_heap (alter (set_jit_func NOT_READY_JIT_ISEQ_FUNC) iseq (iseq_heap s)) s in
    let s := create_unit zalloc iseq s in
    match body_jit_unit s iseq with
    | None => s
    | Some unit =>
      let s := set_mjit_unit_queue (add_to_list (create_list_node unit) (mjit_unit_queue s)) s in
      if ul_length (mjit_active_units s) >=? max_cache_size (mjit_opts s)
      then unload_units s
      else s
    end.
Proof.
  intros Hon Hp. unfold mjit_add_iseq_to_process.
  by rewrite Hon, bool_decide_false.
Qed.







(** ** The search for the worst node *)

Section WorstNode.

Variable s : mjit_state.

Lemma worst_so_far_skip (visited : list rb_mjit_unit_node) (n : rb_mjit_unit_node)
    (worst_node : option (nat * rb_mjit_unit_node)) :
  ¬ evictable s n → worst_so_far s visited worst_node → worst_so_far s (visited ++ [n]) worst_node.
Proof.
  intros Hused. destruct worst_node as [[p w]|]; simpl.
  - intros (Hp & Hw & Hmin). split; [|split; [done|]].
    + by apply lookup_app_l_Some.
    + intros q m Hq Hm. apply lookup_snoc_Some in Hq as [[_ Hq]|[_ <-]]; [eauto|done].
  - intros Hall m [Hm|Hm%list_elem_of_singleton]%elem_of_app; [eauto|by subst].
Qed.

Lemma worst_so_far_first (visited : list rb_mjit_unit_node) (n : rb_mjit_unit_node) :
  evictable s n → worst_so_far s visited None → worst_so_far s (visited ++ [n]) (Some (length visited, n)).
Proof.
  simpl. intros Hn Hall. split; [|split; [done|]].
  - by rewrite list_lookup_middle.
  - intros q m Hq Hm. apply lookup_snoc_Some in Hq as [[_ Hq]|[-> <-]].
    + exfalso. eapply Hall; [|done]. by eapply list_elem_of_lookup_2.
    + split; lia.
Qed.

Lemma worst_so_far_better (visited : list rb_mjit_unit_node) (n w : rb_mjit_unit_node) (p : nat) :
  evictable s n → node_calls s w > node_calls s n →
  worst_so_far s visited (Some (p, w)) → worst_so_far s (visited ++ [n]) (Some (length visited, n)).
Proof.
  simpl. intros Hn Hlt (Hp & Hw & Hmin). split; [|split; [done|]].
  - by rewrite list_lookup_middle.
  - intros q m Hq Hm. apply lookup_snoc_Some in Hq as [[Hlen Hq]|[-> <-]].
    + destruct (Hmin q m Hq Hm) as [Hle _]. lia.
    + split; lia.
Qed.

Lemma worst_so_far_keep (visited : list rb_mjit_unit_node) (n w : rb_mjit_unit_node) (p : nat) :
  evictable s n → node_calls s w ≤ node_calls s n →
  worst_so_far s visited (Some (p, w)) → worst_so_far s (visited ++ [n]) (Some (p, w)).
Proof.
  simpl. intros Hn Hle (Hp & Hw & Hmin). split; [|split; [done|]].
  - by apply lookup_app_l_Some.
  - intros q m Hq Hm. apply lookup_snoc_Some in Hq as [[Hlen Hq]|[-> <-]]; [eauto|].
    apply lookup_lt_Some in Hp. split; lia.
Qed.

(** The inner loop keeps the invariant. *)
Lemma find_worst_node_invariant (node visited : list rb_mjit_unit_node)
    (worst_node : option (nat * rb_mjit_unit_node)) :
  worst_so_far s visited worst_node →
  worst_so_far s (visited ++ node) (find_worst_node node (length visited) worst_node s).
Proof.
  revert visited worst_node. induction node as [|n node IH]; intros visited worst_node Hinv.
  - by rewrite app_nil_r.
  - rewrite (cons_middle n), app_assoc. simpl.
    replace (S (length visited)) with (length (visited ++ [n]))
      by (rewrite length_app; simpl; lia).
    destruct (unit_used_code_p s (node_unit n)) eqn:Hused.
    + apply IH, worst_so_far_skip; [|done]. unfold evictable. by rewrite Hused.
    + destruct worst_node as [[p w]|].
      * destruct (Z.gtb_spec (unit_total_calls s (node_unit w)) (unit_total_calls s (node_unit n))).
        -- apply IH. replace (length (visited ++ [n]) - 1)%nat with (length visited)
             by (rewrite length_app; simpl; lia).
           eapply worst_so_far_better; [done| |done]. unfold node_calls. lia.
        -- apply IH. eapply worst_so_far_keep; [done| |done]. unfold node_calls. lia.
      * apply IH. replace (length (visited ++ [n]) - 1)%nat with (length visited)
          by (rewrite length_app; simpl; lia).
        by apply worst_so_far_first.
Qed.

(** What the search returns on the whole chain. *)
Lemma find_worst_node_spec (chain : list rb_mjit_unit_node) :
  match find_worst_node chain 0 None s with
  | Some (p, n) => is_worst_node s chain p n
  | None => ∀ m, m ∈ chain → ¬ evictable s m
  end.
Proof.
  pose proof (find_worst_node_invariant chain [] None) as H. simpl in H.
  apply H. intros m Hm. by apply elem_of_nil in Hm.
Qed.

(** The choice is unique: [is_worst_node] names one node. *)
Lemma is_worst_node_unique (chain : list rb_mjit_unit_node) (p q : nat) (n m : rb_mjit_unit_node) :
  is_worst_node s chain p n → is_worst_node s chain q m → p = q ∧ n = m.
Proof.
  intros (Hp & Hn & Hpmin) (Hq & Hm & Hqmin).
  destruct (Hpmin q m Hq Hm) as [Hle1 Hlt1].
  destruct (Hqmin p n Hp Hn) as [Hle2 Hlt2].
  assert (p = q) as -> by lia.
  split; [done|]. congruence.
Qed.

End WorstNode.

(** ** The eviction loop *)

Lemma free_unit_active_units (u : unit_ptr) (s : mjit_state) :
  mjit_active_units (free_unit u s) = mjit_active_units s.
Proof.
  unfold free_unit. destruct (unit_heap s !! u) as [r|]; [|done].
  by destruct (u_handle r).
Qed.

Lemma unload_node_chain (p : nat) (n : rb_mjit_unit_node) (s : mjit_state) :
  ul_head (mjit_active_units (unload_node (p, n) s)) = delete p (ul_head (mjit_active_units s)).
Proof. unfold unload_node. simpl. by rewrite free_unit_active_units. Qed.

Lemma unload_loop_unfold (fuel : nat) (delete_num : Z) (s : mjit_state) :
  unload_loop (S fuel) delete_num s =
  if ul_length (mjit_active_units s) >? target_length delete_num s then
    match find_worst_node (ul_head (mjit_active_units s)) 0 None s with
    | None => s
    | Some worst_node => unload_loop fuel delete_num (unload_node worst_node s)
    end
  else s.
Proof. reflexivity. Qed.


(** Any two amounts of fuel above the length of the chain give the same
    result. *)
Lemma unload_loop_fuel (fuel fuel' : nat) (delete_num : Z) (s : mjit_state) :
  (length (ul_head (mjit_active_units s)) < fuel)%nat →
  (length (ul_head (mjit_active_units s)) < fuel')%nat →
  unload_loop fuel delete_num s = unload_loop fuel' delete_num s.
Proof.
  revert fuel' s. induction fuel as [|fuel IH]; intros [|fuel'] s Hf Hf'; try lia.
  rewrite !unload_loop_unfold.
  destruct (_ >? _); [|done].
  pose proof (find_worst_node_spec s (ul_head (mjit_active_units s))) as Hspec.
  destruct (find_worst_node _ 0 None s) as [[p n]|]; [|done].
  destruct Hspec as (Hp & _). apply lookup_lt_Some in Hp.
  apply IH; rewrite unload_node_chain, length_delete by (by apply lookup_lt_is_Some); lia.
Qed.

(** Unloading a node of the chain frees its unit, unlinks the node and
    counts the length down. *)
Lemma unload_node_spec (p : nat) (n : rb_mjit_unit_node) (s : mjit_state) :
  ul_head (mjit_active_units (unload_node (p, n) s)) = delete p (ul_head (mjit_active_units s)) ∧
  ul_length (mjit_active_units (unload_node (p, n) s))
    = int_wrap (ul_length (mjit_active_units s) - 1) ∧
  unit_heap (unload_node (p, n) s) !! node_unit n = None ∧
  dlclosed (host (unload_node (p, n) s))
    = match unit_heap s !! node_unit n ≫= u_handle with
      | Some h => h :: dlclosed (host s)
      | None => dlclosed (host s)
      end.
Proof.
  split; [apply unload_node_chain|]. unfold unload_node, free_unit. simpl.
  destruct (unit_heap s !! node_unit n) as [r|] eqn:Hn; simpl.
  - destruct (u_handle r); simpl; by rewrite lookup_delete_eq.
  - done.
Qed.



(** C9: when every unit of the active list is marked, the search of the
    first round finds no node, so the loop is left in that round whatever
    its condition says, and the state is the one the loop started from:
    nothing is unloaded. *)
Theorem unload_loop_all_units_used (fuel : nat) (delete_num : Z) (s : mjit_state) :
  (∀ n, n ∈ ul_head (mjit_active_units s) → unit_used_code_p s (node_unit n) = true) →
  find_worst_node (ul_head (mjit_active_units s)) 0 None s = None ∧
  unload_loop (S fuel) delete_num s = s ∧
  eviction delete_num s s.
Proof.
  intros Hused.
  assert (find_worst_node (ul_head (mjit_active_units s)) 0 None s = None) as Hnone.
  { pose proof (find_worst_node_spec s (ul_head (mjit_active_units s))) as Hspec.
    destruct (find_worst_node _ 0 None s) as [[p n]|]; [|done].
    destruct Hspec as (Hp & Hn & _). apply list_elem_of_lookup_2 in Hp.
    unfold evictable in Hn. rewrite (Hused n Hp) in Hn. discriminate. }
  split; [done|]. split.
  - rewrite unload_loop_unfold, Hnone. by destruct (_ >? _).
  - destruct (Z.le_gt_cases (ul_length (mjit_active_units s)) (target_length delete_num s)).
    + by apply eviction_target.
    + apply eviction_no_victim; [done|]. intros m Hm. unfold evictable.
      by rewrite (Hused m Hm).
Qed.

(** ** Marked units survive eviction *)

Lemma free_unit_lookup_ne (u v : unit_ptr) (s : mjit_state) :
  u ≠ v → unit_heap (free_unit u s) !! v = unit_heap s !! v.
Proof.
  intros Hne. unfold free_unit. destruct (unit_heap s !! u) as [r|]; [|done].
  destruct (u_handle r); simpl; by rewrite lookup_delete_ne.
Qed.





(** ** Runs on a loaded cache *)

Lemma unload_loop_all_units_used_witness :
  find_worst_node
    (ul_head (mjit_active_units (unload_units_scan (cache_state eleven_units (map fst eleven_units)))))
    0 None (unload_units_scan (cache_state eleven_units (map fst eleven_units))) = None ∧
  unload_loop 12 1 (unload_units_scan (cache_state eleven_units (map fst eleven_units)))
    = unload_units_scan (cache_state eleven_units (map fst eleven_units)) ∧
  eviction 1 (unload_units_scan (cache_state eleven_units (map fst eleven_units)))
    (unload_units_scan (cache_state eleven_units (map fst eleven_units))).
Proof.
  apply (unload_loop_all_units_used 11 1
    (unload_units_scan (cache_state eleven_units (map fst eleven_units)))).
  apply Forall_forall. apply (bool_decide_unpack _). vm_compute. exact I.
Defined.

(** The loop condition holds in that state: the run of C9's witness ends
    for want of a victim, not because the target is reached. *)
Example all_units_used_over_target :
  target_length 1 (unload_units_scan (cache_state eleven_units (map fst eleven_units)))
  < ul_length (mjit_active_units (unload_units_scan (cache_state eleven_units (map fst eleven_units)))).
Proof. vm_compute. reflexivity. Qed.

(** End-to-end scenario 6 on eleven units: the iseq at 2 has the fewest
    calls but is on the stack; the units at 4 and then at 7 are unloaded
    instead, which brings the length from 11 to the target 9. *)
Example eviction_spares_unit_on_stack :
  map node_unit (ul_head (mjit_active_units (unload_units (cache_state eleven_units [2%positive]))))
    = [1; 2; 3; 5; 6; 8; 9; 10; 11]%positive ∧
  ul_length (mjit_active_units (unload_units (cache_state eleven_units [2%positive]))) = 9 ∧
  dlclosed (host (unload_units (cache_state eleven_units [2%positive]))) = [7; 4].
Proof. repeat split; vm_compute; reflexivity. Qed.

(** ** Teardown *)

Lemma free_unit_outside_heaps (u : unit_ptr) (s : mjit_state) :
  outside_heaps (free_unit u s) = outside_heaps s.
Proof.
  unfold free_unit. destruct (unit_heap s !! u) as [r|]; [|done].
  by destruct (u_handle r).
Qed.


Lemma free_unit_lookup_eq (u : unit_ptr) (s : mjit_state) :
  unit_heap (free_unit u s) !! u = None.
Proof.
  unfold free_unit. destruct (unit_heap s !! u) as [r|] eqn:Hu; [|done].
  destruct (u_handle r); simpl; by rewrite lookup_delete_eq.
Qed.

Lemma free_unit_lookup_None (u v : unit_ptr) (s : mjit_state) :
  unit_heap s !! v = None → unit_heap (free_unit u s) !! v = None.
Proof.
  intros Hv. destruct (decide (u = v)) as [->|Hne].
  - apply free_unit_lookup_eq.
  - by rewrite free_unit_lookup_ne.
Qed.

Lemma free_list_from_outside_heaps (node : list rb_mjit_unit_node) (s : mjit_state) :
  outside_heaps (free_list_from node s) = outside_heaps s.
Proof.
  revert s. induction node as [|n node IH]; intros s; [done|].
  simpl. rewrite IH. apply free_unit_outside_heaps.
Qed.




Lemma finish_conts_from_outside_heaps (fuel : nat) (cont : option cont_ptr) (s : mjit_state) :
  outside_heaps (finish_conts_from fuel cont s) = outside_heaps s.
Proof.
  revert cont s. induction fuel as [|fuel IH]; intros [c|] s; try done.
  simpl. destruct (cont_heap s !! c); [|done]. by rewrite IH.
Qed.





Lemma teardown_resources_outside (s : mjit_state) :
  mjit_unit_queue (teardown_resources s) = mjit_unit_queue s ∧
  mjit_active_units (teardown_resources s) = mjit_active_units s ∧
  mjit_compact_units (teardown_resources s) = mjit_compact_units s ∧
  first_cont (teardown_resources s) = first_cont s ∧
  cont_heap (teardown_resources s) = cont_heap s ∧
  unit_heap (teardown_resources s) = unit_heap s.
Proof.
  unfold teardown_resources, remove_file. cbn zeta.
  destruct (save_temps _); [done|]. by destruct (mjit_pch_file _).
Qed.

Lemma outside_heaps_fields (s s' : mjit_state) :
  outside_heaps s' = outside_heaps s →
  mjit_unit_queue s' = mjit_unit_queue s ∧
  mjit_active_units s' = mjit_active_units s ∧
  mjit_compact_units s' = mjit_compact_units s ∧
  first_cont s' = first_cont s ∧
  mjit_call_p s' = mjit_call_p s.
Proof.
  intros H. repeat split.
  - exact (f_equal mjit_unit_queue H).
  - exact (f_equal mjit_active_units H).
  - exact (f_equal mjit_compact_units H).
  - exact (f_equal first_cont H).
  - exact (f_equal mjit_call_p H).
Qed.

Lemma free_list_outside_heaps (l : rb_mjit_unit_list) (s : mjit_state) :
  outside_heaps (free_list l s) = outside_heaps s.
Proof. apply free_list_from_outside_heaps. Qed.

(** The teardown of [mjit_finish] in terms of the state it starts from. *)
Lemma mjit_finish_teardown_eq (s : mjit_state) :
  mjit_finish_teardown s =
  set_mjit_enabled false
    (finish_conts
      (free_list (mjit_compact_units s)
        (free_list (mjit_active_units s)
          (free_list (mjit_unit_queue s) (teardown_resources s))))).
Proof.
  destruct (teardown_resources_outside s) as (Hq & Ha & Hc & _).
  unfold mjit_finish_teardown. cbn zeta. fold (teardown_resources s).
  rewrite Hq.
  set (sq := free_list (mjit_unit_queue s) (teardown_resources s)).
  destruct (outside_heaps_fields (teardown_resources s) sq) as (_ & Hqa & Hqc & _);
    [apply free_list_outside_heaps|].
  rewrite Hqa, Ha.
  set (sa := free_list (mjit_active_units s) sq).
  destruct (outside_heaps_fields sq sa) as (_ & _ & Hac & _);
    [apply free_list_outside_heaps|].
  by rewrite Hac, Hqc, Hc.
Qed.


Lemma stop_worker_wait_stopped (sched : schedule) (s s' : mjit_state) (sched' : schedule) :
  stop_worker_wait sched s = Some (s', sched') → mjit_worker_stopped s' = true.
Proof.
  revert s. induction sched as [|w sched IH]; intros s; simpl.
  - destruct (mjit_worker_stopped s) eqn:Hs; [|done]. by intros [= <- _].
  - destruct (mjit_worker_stopped s) eqn:Hs; [by intros [= <- _]|]. apply IH.
Qed.




(** ** Units outside the active list *)

Lemma alter_used_identity (b : bool) (k u : unit_ptr) (m : gmap positive rb_mjit_unit) :
  unit_identity <$> alter (set_u_used_code_p b) k m !! u = unit_identity <$> m !! u.
Proof.
  destruct (decide (k = u)) as [->|Hne].
  - rewrite lookup_alter_eq. by destruct (m !! u).
  - by rewrite lookup_alter_ne.
Qed.

Lemma clear_used_code_p_units (node : list rb_mjit_unit_node) (s : mjit_state) (u : unit_ptr) :
  outside_units (clear_used_code_p node s) = outside_units s ∧
  unit_identity <$> unit_heap (clear_used_code_p node s) !! u = unit_identity <$> unit_heap s !! u.
Proof.
  revert s. induction node as [|n node IH]; intros s; [done|].
  simpl. destruct (IH (set_unit_heap (alter (set_u_used_code_p false) (node_unit n) (unit_heap s)) s))
    as [Hout Hid].
  split; [by rewrite Hout|]. rewrite Hid. simpl. apply alter_used_identity.
Qed.

Lemma mark_cfp_units (cfp : rb_control_frame_t) (s : mjit_state) (u : unit_ptr) :
  outside_units (mark_cfp cfp s) = outside_units s ∧
  unit_identity <$> unit_heap (mark_cfp cfp s) !! u = unit_identity <$> unit_heap s !! u.
Proof.
  unfold mark_cfp. repeat case_match; try done.
  split; [done|]. simpl. apply alter_used_identity.
Qed.

Lemma mark_ec_units_units (ec : rb_execution_context_t) (s : mjit_state) (u : unit_ptr) :
  outside_units (mark_ec_units ec s) = outside_units s ∧
  unit_identity <$> unit_heap (mark_ec_units ec s) !! u = unit_identity <$> unit_heap s !! u.
Proof.
  unfold mark_ec_units. destruct (ec_vm_stack ec); [|done].
  revert s. induction (ec_frames ec) as [|f fs IH]; intros s; [done|].
  simpl. destruct (IH (mark_cfp f s)) as [Hout Hid].
  destruct (mark_cfp_units f s u) as [Hout' Hid'].
  split; [by rewrite Hout|by rewrite Hid].
Qed.

Lemma mark_living_threads_units (th : list rb_execution_context_t) (s : mjit_state) (u : unit_ptr) :
  outside_units (mark_living_threads th s) = outside_units s ∧
  unit_identity <$> unit_heap (mark_living_threads th s) !! u = unit_identity <$> unit_heap s !! u.
Proof.
  revert s. induction th as [|ec th IH]; intros s; [done|].
  simpl. destruct (IH (mark_ec_units ec s)) as [Hout Hid].
  destruct (mark_ec_units_units ec s u) as [Hout' Hid'].
  split; [by rewrite Hout|by rewrite Hid].
Qed.

Lemma mark_conts_units (fuel : nat) (cont : option cont_ptr) (s : mjit_state) (u : unit_ptr) :
  outside_units (mark_conts fuel cont s) = outside_units s ∧
  unit_identity <$> unit_heap (mark_conts fuel cont s) !! u = unit_identity <$> unit_heap s !! u.
Proof.
  revert cont s. induction fuel as [|fuel IH]; intros [c|] s; try done.
  simpl. destruct (cont_heap s !! c) as [r|]; [|done].
  destruct (IH (c_next r) (mark_ec_units (c_ec r) s)) as [Hout Hid].
  destruct (mark_ec_units_units (c_ec r) s u) as [Hout' Hid'].
  split; [by rewrite Hout|by rewrite Hid].
Qed.

(** The first loop of [unload_units] only unlinks, and frees no unit that
    is not on the chain. *)
Lemma unload_gced_outsider (node : list rb_mjit_unit_node) (pos : nat) (s : mjit_state) (u : unit_ptr) :
  (∀ n, n ∈ node → node_unit n ≠ u) →
  unit_heap (unload_gced node pos s) !! u = unit_heap s !! u.
Proof.
  revert pos s. induction node as [|n node IH]; intros pos s Hout; [done|].
  simpl. destruct (unit_iseq s (node_unit n)).
  - apply IH. intros m Hm. apply Hout. by right.
  - rewrite IH by (intros m Hm; apply Hout; by right). simpl.
    apply free_unit_lookup_ne, Hout. by left.
Qed.

Lemma unload_gced_sub (node : list rb_mjit_unit_node) (pos : nat) (s : mjit_state) (n : rb_mjit_unit_node) :
  n ∈ ul_head (mjit_active_units (unload_gced node pos s)) → n ∈ ul_head (mjit_active_units s).
Proof.
  revert pos s. induction node as [|m node IH]; intros pos s; [done|].
  simpl. destruct (unit_iseq s (node_unit m)); [apply IH|].
  intros Hn. apply IH in Hn. simpl in Hn. rewrite free_unit_active_units in Hn.
  by eapply list_elem_of_delete_inv.
Qed.

Lemma unload_loop_outsider (fuel : nat) (delete_num : Z) (s : mjit_state) (u : unit_ptr) :
  (∀ n, n ∈ ul_head (mjit_active_units s) → node_unit n ≠ u) →
  unit_heap (unload_loop fuel delete_num s) !! u = unit_heap s !! u.
Proof.
  revert s. induction fuel as [|fuel IH]; intros s Hout; [done|].
  rewrite unload_loop_unfold. destruct (_ >? _); [|done].
  pose proof (find_worst_node_spec s (ul_head (mjit_active_units s))) as Hspec.
  destruct (find_worst_node _ 0 None s) as [[p w]|]; [|done].
  destruct Hspec as (Hp & _).
  rewrite IH.
  - unfold unload_node. simpl. apply free_unit_lookup_ne, Hout.
    by eapply list_elem_of_lookup_2.
  - intros n Hn. rewrite unload_node_chain in Hn.
    apply Hout. by eapply list_elem_of_delete_inv.
Qed.

Lemma unload_loop_sub (fuel : nat) (delete_num : Z) (s : mjit_state) (n : rb_mjit_unit_node) :
  n ∈ ul_head (mjit_active_units (unload_loop fuel delete_num s)) →
  n ∈ ul_head (mjit_active_units s).
Proof.
  revert s. induction fuel as [|fuel IH]; intros s; [done|].
  rewrite unload_loop_unfold. destruct (_ >? _); [|done].
  destruct (find_worst_node _ 0 None s) as [[p w]|]; [|done].
  intros Hn. apply IH in Hn. rewrite unload_node_chain in Hn.
  by eapply list_elem_of_delete_inv.
Qed.

(** The active list when the eviction loop starts is what the first loop
    left. *)
Lemma unload_units_scan_active_units (s : mjit_state) :
  mjit_active_units (unload_units_scan s) =
  mjit_active_units (unload_gced (ul_head (mjit_active_units s)) 0 s).
Proof.
  unfold unload_units_scan. cbn zeta.
  set (s1 := unload_gced _ 0 s).
  set (s2 := clear_used_code_p _ s1).
  set (s3 := mark_living_threads _ s2).
  destruct (mark_conts_units (size (cont_heap s3)) (first_cont s3) s3 1%positive) as [H4 _].
  destruct (mark_living_threads_units (living_threads (host s2)) s2 1%positive) as [H3 _].
  destruct (clear_used_code_p_units (ul_head (mjit_active_units s1)) s1 1%positive) as [H2 _].
  fold s2 in H2. fold s3 in H3.
  transitivity (mjit_active_units s3); [exact (f_equal mjit_active_units H4)|].
  transitivity (mjit_active_units s2); [exact (f_equal mjit_active_units H3)|].
  exact (f_equal mjit_active_units H2).
Qed.

Lemma unload_units_sub (s : mjit_state) (n : rb_mjit_unit_node) :
  n ∈ ul_head (mjit_active_units (unload_units s)) → n ∈ ul_head (mjit_active_units s).
Proof.
  unfold unload_units. cbn zeta. intros Hn%unload_loop_sub.
  rewrite unload_units_scan_active_units in Hn. by eapply unload_gced_sub.
Qed.

(** [unload_units] frees no unit that is not on the active list, and
    writes nothing but [used_code_p] in it. *)
Lemma unload_units_outsider (s : mjit_state) (u : unit_ptr) :
  (∀ n, n ∈ ul_head (mjit_active_units s) → node_unit n ≠ u) →
  unit_identity <$> unit_heap (unload_units s) !! u = unit_identity <$> unit_heap s !! u.
Proof.
  intros Hout. unfold unload_units. cbn zeta.
  rewrite unload_loop_outsider.
  - unfold unload_units_scan. cbn zeta.
    set (s1 := unload_gced _ 0 s).
    set (s2 := clear_used_code_p _ s1).
    set (s3 := mark_living_threads _ s2).
    destruct (mark_conts_units (size (cont_heap s3)) (first_cont s3) s3 u) as [_ ->].
    destruct (mark_living_threads_units (living_threads (host s2)) s2 u) as [_ H3].
    fold s3 in H3. rewrite H3.
    destruct (clear_used_code_p_units (ul_head (mjit_active_units s1)) s1 u) as [_ H2].
    fold s2 in H2. rewrite H2.
    unfold s1. by rewrite unload_gced_outsider.
  - intros n Hn. rewrite unload_units_scan_active_units in Hn.
    apply Hout. by eapply unload_gced_sub.
Qed.

(** ** Submission creates a unit each time *)

Lemma outside_eviction_fields (s s' : mjit_state) :
  outside_eviction s' = outside_eviction s →
  mjit_enabled s' = mjit_enabled s ∧
  mjit_pch_status s' = mjit_pch_status s ∧
  iseq_heap s' = iseq_heap s ∧
  mjit_current_unit_num s' = mjit_current_unit_num s ∧
  mjit_unit_queue s' = mjit_unit_queue s ∧
  mjit_opts s' = mjit_opts s.
Proof.
  intros H. repeat split.
  - exact (f_equal mjit_enabled H).
  - exact (f_equal mjit_pch_status H).
  - exact (f_equal iseq_heap H).
  - exact (f_equal mjit_current_unit_num H).
  - exact (f_equal mjit_unit_queue H).
  - exact (f_equal mjit_opts H).
Qed.

(** One call of [mjit_add_iseq_to_process] whose allocation succeeds: a
    unit is created at the address [ZALLOC] returned, numbered with the
    counter, bound to the iseq and queued, whatever unit the iseq had. *)
Lemma mjit_add_iseq_to_process_creates (u : unit_ptr) (iseq : iseq_ptr) (s : mjit_state) :
  mjit_enabled s = true → mjit_pch_status s ≠ PCH_FAILED →
  is_Some (iseq_heap s !! iseq) →
  (∀ n, n ∈ ul_head (mjit_active_units s) → node_unit n ≠ u) →
  mjit_enabled (mjit_add_iseq_to_process (Some u) iseq s) = true ∧
  mjit_pch_status (mjit_add_iseq_to_process (Some u) iseq s) = mjit_pch_status s ∧
  is_Some (iseq_heap (mjit_add_iseq_to_process (Some u) iseq s) !! iseq) ∧
  mjit_current_unit_num (mjit_add_iseq_to_process (Some u) iseq s)
    = int_wrap (mjit_current_unit_num s + 1) ∧
  mjit_unit_queue (mjit_add_iseq_to_process (Some u) iseq s)
    = add_to_list (create_list_node u) (mjit_unit_queue s) ∧
  body_jit_unit (mjit_add_iseq_to_process (Some u) iseq s) iseq = Some u ∧
  unit_identity <$> unit_heap (mjit_add_iseq_to_process (Some u) iseq s) !! u
    = Some (mjit_current_unit_num s, None, Some iseq) ∧
  (∀ v, v ≠ u → (∀ n, n ∈ ul_head (mjit_active_units s) → node_unit n ≠ v) →
     unit_identity <$> unit_heap (mjit_add_iseq_to_process (Some u) iseq s) !! v
     = unit_identity <$> unit_heap s !! v) ∧
  (∀ n, n ∈ ul_head (mjit_active_units (mjit_add_iseq_to_process (Some u) iseq s)) →
     n ∈ ul_head (mjit_active_units s)).
Proof.
  intros Hon Hp [b Hb] Hout.
  rewrite mjit_add_iseq_to_process_enabled by done. cbn zeta.
  set (s1 := set_iseq_heap (alter (set_jit_func NOT_READY_JIT_ISEQ_FUNC) iseq (iseq_heap s)) s).
  set (s2 := create_unit (Some u) iseq s1).
  assert (iseq_heap s2 !! iseq
          = Some (set_jit_unit (Some u) (set_jit_func NOT_READY_JIT_ISEQ_FUNC b))) as Hb2.
  { unfold s2, s1. simpl. by rewrite !lookup_alter_eq, Hb. }
  assert (body_jit_unit s2 iseq = Some u) as Hju.
  { unfold body_jit_unit. by rewrite Hb2. }
  rewrite Hju.
  set (s3 := set_mjit_unit_queue (add_to_list (create_list_node u) (mjit_unit_queue s2)) s2).
  assert (∃ s4,
    (if ul_length (mjit_active_units s3) >=? max_cache_size (mjit_opts s3)
     then unload_units s3 else s3) = s4 ∧
    outside_eviction s4 = outside_eviction s3 ∧
    (∀ v, (∀ n, n ∈ ul_head (mjit_active_units s3) → node_unit n ≠ v) →
       unit_identity <$> unit_heap s4 !! v = unit_identity <$> unit_heap s3 !! v) ∧
    (∀ n, n ∈ ul_head (mjit_active_units s4) → n ∈ ul_head (mjit_active_units s3)))
    as (s4 & -> & Hout4 & Hunits & Hsub).
  { destruct (_ >=? _); eexists; (split; [reflexivity|]).
    - split; [apply unload_units_outside|]. split.
      + intros v Hv. by apply unload_units_outsider.
      + apply unload_units_sub.
    - done. }
  destruct (outside_eviction_fields s3 s4 Hout4) as (He & Hps & Hih & Hnum & Hq & _).
  rewrite He, Hps, Hih, Hnum, Hq.
  unfold body_jit_unit. rewrite Hih.
  repeat split; try done.
  - rewrite Hunits by done. simpl. by rewrite lookup_insert_eq.
  - intros v Hne Hv. rewrite Hunits by done. simpl. by rewrite lookup_insert_ne.
Qed.

(** C3, as the claim states it, fails: two calls on the iseq at 1, with the
    subsystem enabled and PCH built, leave two units for it, both queued. *)
Lemma add_iseq_to_process_twice_creates_two_units :
  mjit_enabled unsubmitted_state = true ∧
  mjit_pch_status unsubmitted_state = PCH_SUCCESS ∧
  size (unit_heap unsubmitted_state) = 0%nat ∧
  size (unit_heap submitted_twice) = 2%nat ∧
  unit_iseq submitted_twice 1 = Some 1%positive ∧
  unit_iseq submitted_twice 2 = Some 1%positive ∧
  ul_head (mjit_unit_queue submitted_twice) = [create_list_node 1; create_list_node 2].
Proof. repeat split; vm_compute; reflexivity. Qed.

(** C3 (amended): every call of [mjit_add_iseq_to_process] that passes the
    guard and whose allocation succeeds creates a unit, whether or not the
    iseq has one: two calls on the same iseq create two units, numbered
    with two successive values of the counter, both bound to the iseq and
    both queued in that order; the iseq's [jit_unit] is the second. *)
Theorem mjit_add_iseq_to_process_twice (s : mjit_state) (iseq : iseq_ptr) (u1 u2 : unit_ptr) :
  mjit_enabled s = true → mjit_pch_status s ≠ PCH_FAILED →
  is_Some (iseq_heap s !! iseq) →
  unit_heap s !! u1 = None → unit_heap s !! u2 = None → u1 ≠ u2 →
  (∀ n, n ∈ ul_head (mjit_active_units s) → node_unit n ≠ u1 ∧ node_unit n ≠ u2) →
  unit_identity <$>
    unit_heap (mjit_add_iseq_to_process (Some u2) iseq (mjit_add_iseq_to_process (Some u1) iseq s)) !! u1
    = Some (mjit_current_unit_num s, None, Some iseq) ∧
  unit_identity <$>
    unit_heap (mjit_add_iseq_to_process (Some u2) iseq (mjit_add_iseq_to_process (Some u1) iseq s)) !! u2
    = Some (int_wrap (mjit_current_unit_num s + 1), None, Some iseq) ∧
  ul_head (mjit_unit_queue
    (mjit_add_iseq_to_process (Some u2) iseq (mjit_add_iseq_to_process (Some u1) iseq s)))
    = ul_head (mjit_unit_queue s) ++ [create_list_node u1; create_list_node u2] ∧
  body_jit_unit
    (mjit_add_iseq_to_process (Some u2) iseq (mjit_add_iseq_to_process (Some u1) iseq s)) iseq
    = Some u2.
Proof.
  intros Hon Hp Hi Hu1 Hu2 Hne Hout.
  destruct (mjit_add_iseq_to_process_creates u1 iseq s Hon Hp Hi)
    as (Hon1 & Hp1 & Hi1 & Hnum1 & Hq1 & _ & Hid1 & _ & Hsub1).
  { intros n Hn. by apply Hout. }
  set (s1 := mjit_add_iseq_to_process (Some u1) iseq s) in *.
  destruct (mjit_add_iseq_to_process_creates u2 iseq s1 Hon1)
    as (_ & _ & _ & _ & Hq2 & Hju2 & Hid2 & Hother2 & _).
  { by rewrite Hp1. }
  { done. }
  { intros n Hn. by apply Hout, Hsub1. }
  repeat split.
  - rewrite Hother2; [done|done|]. intros n Hn. by apply Hout, Hsub1.
  - by rewrite Hid2, Hnum1.
  - rewrite Hq2, Hq1. simpl. by rewrite <- app_assoc.
  - done.
Qed.

Lemma mjit_add_iseq_to_process_twice_witness :
  unit_identity <$> unit_heap submitted_twice !! 1%positive = Some (0, None, Some 1%positive) ∧
  unit_identity <$> unit_heap submitted_twice !! 2%positive
    = Some (int_wrap (0 + 1), None, Some 1%positive) ∧
  ul_head (mjit_unit_queue submitted_twice) = [] ++ [create_list_node 1; create_list_node 2] ∧
  body_jit_unit submitted_twice 1 = Some 2%positive.
Proof.
  apply (mjit_add_iseq_to_process_twice unsubmitted_state 1 1 2).
  - reflexivity.
  - discriminate.
  - eexists. reflexivity.
  - reflexivity.
  - reflexivity.
  - discriminate.
  - intros n Hn. vm_compute in Hn. by apply elem_of_nil in Hn.
Defined.

(** ** What the scan marks *)

Lemma outside_units_fields (s s' : mjit_state) :
  outside_units s' = outside_units s →
  iseq_heap s' = iseq_heap s ∧ cont_heap s' = cont_heap s ∧
  first_cont s' = first_cont s ∧ host s' = host s.
Proof.
  intros H. repeat split.
  - exact (f_equal iseq_heap H).
  - exact (f_equal cont_heap H).
  - exact (f_equal first_cont H).
  - exact (f_equal host H).
Qed.

Lemma identity_is_Some (m m' : gmap positive rb_mjit_unit) (u : unit_ptr) :
  unit_identity <$> m' !! u = unit_identity <$> m !! u → is_Some (m !! u) → is_Some (m' !! u).
Proof. intros Hid [r Hr]. rewrite Hr in Hid. by destruct (m' !! u). Qed.

(** A mark is never taken back by a later one. *)
Lemma mark_cfp_mono (cfp : rb_control_frame_t) (s : mjit_state) (u : unit_ptr) :
  unit_used_code_p s u = true → unit_used_code_p (mark_cfp cfp s) u = true.
Proof.
  unfold mark_cfp. repeat case_match; try done.
  unfold unit_used_code_p. simpl. intros Hu.
  match goal with |- context [alter _ ?k _] => destruct (decide (k = u)) as [->|Hne] end.
  - rewrite lookup_alter_eq. by destruct (unit_heap s !! u).
  - by rewrite lookup_alter_ne.
Qed.

Lemma mark_frames_mono (cfp : list rb_control_frame_t) (s : mjit_state) (u : unit_ptr) :
  unit_used_code_p s u = true → unit_used_code_p (mark_frames cfp s) u = true.
Proof.
  revert s. induction cfp as [|f fs IH]; intros s Hu; [done|].
  simpl. by apply IH, mark_cfp_mono.
Qed.

Lemma mark_ec_units_mono (ec : rb_execution_context_t) (s : mjit_state) (u : unit_ptr) :
  unit_used_code_p s u = true → unit_used_code_p (mark_ec_units ec s) u = true.
Proof. unfold mark_ec_units. destruct (ec_vm_stack ec); [apply mark_frames_mono|done]. Qed.

Lemma mark_living_threads_mono (th : list rb_execution_context_t) (s : mjit_state) (u : unit_ptr) :
  unit_used_code_p s u = true → unit_used_code_p (mark_living_threads th s) u = true.
Proof.
  revert s. induction th as [|ec th IH]; intros s Hu; [done|].
  simpl. by apply IH, mark_ec_units_mono.
Qed.

Lemma mark_conts_mono (fuel : nat) (cont : option cont_ptr) (s : mjit_state) (u : unit_ptr) :
  unit_used_code_p s u = true → unit_used_code_p (mark_conts fuel cont s) u = true.
Proof.
  revert cont s. induction fuel as [|fuel IH]; intros [c|] s Hu; try done.
  simpl. destruct (cont_heap s !! c); [|done]. by apply IH, mark_ec_units_mono.
Qed.

(** The frame loop marks the unit of every iseq it meets. *)
Lemma mark_frames_marks (fs : list rb_control_frame_t) (cfp : rb_control_frame_t)
    (iseq : iseq_ptr) (u : unit_ptr) (s : mjit_state) :
  cfp ∈ fs → is_Some (cfp_pc cfp) → cfp_iseq cfp = Some (imemo_iseq, iseq) →
  body_jit_unit s iseq = Some u → is_Some (unit_heap s !! u) →
  unit_used_code_p (mark_frames fs s) u = true.
Proof.
  intros Hcfp [pc Hpc] Hiseq. revert s.
  induction Hcfp as [cfp fs|cfp f fs Hcfp IH]; intros s Hju [r Hr]; simpl.
  - apply mark_frames_mono. unfold mark_cfp. rewrite Hpc, Hiseq, decide_True, Hju by done.
    unfold unit_used_code_p. simpl. by rewrite lookup_alter_eq, Hr.
  - destruct (mark_cfp_units f s u) as [Hout Hid].
    destruct (outside_units_fields _ _ Hout) as (Hih & _).
    apply IH; try done.
    + unfold body_jit_unit in *. by rewrite Hih.
    + eapply identity_is_Some; [done|by eexists].
Qed.

Lemma mark_ec_units_marks (ec : rb_execution_context_t) (iseq : iseq_ptr) (u : unit_ptr) (s : mjit_state) :
  frame_of ec iseq → body_jit_unit s iseq = Some u → is_Some (unit_heap s !! u) →
  unit_used_code_p (mark_ec_units ec s) u = true.
Proof.
  intros ([st Hst] & cfp & Hcfp & Hpc & Hiseq). unfold mark_ec_units. rewrite Hst.
  by apply (mark_frames_marks _ cfp iseq).
Qed.

Lemma mark_living_threads_marks (th : list rb_execution_context_t) (ec : rb_execution_context_t)
    (iseq : iseq_ptr) (u : unit_ptr) (s : mjit_state) :
  ec ∈ th → frame_of ec iseq → body_jit_unit s iseq = Some u → is_Some (unit_heap s !! u) →
  unit_used_code_p (mark_living_threads th s) u = true.
Proof.
  intros Hec Hframe. revert s. induction Hec as [ec th|ec e th Hec IH]; intros s Hju Hu; simpl.
  - by apply mark_living_threads_mono, (mark_ec_units_marks ec iseq).
  - destruct (mark_ec_units_units e s u) as [Hout Hid].
    destruct (outside_units_fields _ _ Hout) as (Hih & _).
    apply IH; try done.
    + unfold body_jit_unit in *. by rewrite Hih.
    + by eapply identity_is_Some.
Qed.

Lemma mark_conts_marks (fuel : nat) (cont : option cont_ptr) (r : mjit_cont)
    (iseq : iseq_ptr) (u : unit_ptr) (s : mjit_state) :
  r ∈ registered_conts fuel cont (cont_heap s) → frame_of (c_ec r) iseq →
  body_jit_unit s iseq = Some u → is_Some (unit_heap s !! u) →
  unit_used_code_p (mark_conts fuel cont s) u = true.
Proof.
  intros Hr Hframe. revert cont s Hr.
  induction fuel as [|fuel IH]; intros [c|] s Hr Hju Hu; simpl in *;
    try by apply elem_of_nil in Hr.
  destruct (cont_heap s !! c) as [r0|]; [|by apply elem_of_nil in Hr].
  apply elem_of_cons in Hr as [->|Hr].
  - by apply mark_conts_mono, (mark_ec_units_marks (c_ec r0) iseq).
  - destruct (mark_ec_units_units (c_ec r0) s u) as [Hout Hid].
    destruct (outside_units_fields _ _ Hout) as (Hih & Hch & _).
    apply IH.
    + by rewrite Hch.
    + unfold body_jit_unit in *. by rewrite Hih.
    + by eapply identity_is_Some.
Qed.

(** The first loop of [unload_units] frees no unit that has its iseq. *)
Lemma unload_gced_keeps_live (node : list rb_mjit_unit_node) (pos : nat) (s : mjit_state) (u : unit_ptr) :
  is_Some (unit_iseq s u) →
  unit_heap (unload_gced node pos s) !! u = unit_heap s !! u.
Proof.
  revert pos s. induction node as [|n node IH]; intros pos s Hu; [done|].
  simpl. destruct (unit_iseq s (node_unit n)) eqn:Hn; [by apply IH|].
  assert (node_unit n ≠ u) as Hne.
  { intros Heq. rewrite Heq in Hn. rewrite Hn in Hu. by destruct Hu. }
  rewrite IH.
  - simpl. by apply free_unit_lookup_ne.
  - unfold unit_iseq in *. simpl. by rewrite free_unit_lookup_ne.
Qed.

(** The scan marks every unit that still has its iseq and is the
    [jit_unit] of an iseq found in a frame of a living thread or of a
    registered continuation. *)
Lemma unload_units_scan_marks (s : mjit_state) (ec : rb_execution_context_t)
    (iseq : iseq_ptr) (u : unit_ptr) :
  ec ∈ scanned_stacks s → frame_of ec iseq →
  body_jit_unit s iseq = Some u → is_Some (unit_iseq s u) →
  unit_used_code_p (unload_units_scan s) u = true.
Proof.
  intros Hec Hframe Hju Hlive. unfold unload_units_scan. cbn zeta.
  set (s1 := unload_gced _ 0 s).
  set (s2 := clear_used_code_p _ s1).
  set (s3 := mark_living_threads _ s2).
  assert (unit_heap s1 !! u = unit_heap s !! u) as Hu1 by by apply unload_gced_keeps_live.
  assert (is_Some (unit_heap s !! u)) as Hu.
  { unfold unit_iseq in Hlive. destruct (unit_heap s !! u); [by eexists|by destruct Hlive]. }
  pose proof (unload_gced_outside (ul_head (mjit_active_units s)) 0 s) as Hout1. fold s1 in Hout1.
  destruct (clear_used_code_p_units (ul_head (mjit_active_units s1)) s1 u) as [Hout2 Hid2].
  fold s2 in Hout2, Hid2.
  destruct (outside_units_fields _ _ Hout2) as (Hih2 & Hch2 & Hfc2 & Hh2).
  assert (iseq_heap s2 = iseq_heap s) as Hih.
  { rewrite Hih2. exact (f_equal iseq_heap Hout1). }
  assert (body_jit_unit s2 iseq = Some u) as Hju2.
  { unfold body_jit_unit in *. by rewrite Hih. }
  assert (is_Some (unit_heap s2 !! u)) as Hu2.
  { eapply identity_is_Some; [done|]. by rewrite Hu1. }
  destruct (mark_living_threads_units (living_threads (host s2)) s2 u) as [Hout3 Hid3].
  fold s3 in Hout3, Hid3.
  destruct (outside_units_fields _ _ Hout3) as (Hih3 & Hch3 & Hfc3 & _).
  apply elem_of_app in Hec as [Hth|Hcont].
  - apply mark_conts_mono. unfold s3. apply (mark_living_threads_marks _ ec iseq); [|done..].
    rewrite Hh2.
    by rewrite (f_equal (λ x, living_threads (host x)) Hout1 : living_threads (host s1) = _).
  - apply list_elem_of_fmap in Hcont as (r & -> & Hr).
    apply (mark_conts_marks _ _ r iseq); [|done| |].
    + rewrite Hch3, Hfc3, Hch2, Hfc2.
      rewrite (f_equal cont_heap Hout1 : cont_heap s1 = _).
      by rewrite (f_equal first_cont Hout1 : first_cont s1 = _).
    + unfold body_jit_unit in *. by rewrite Hih3.
    + by eapply identity_is_Some.
Qed.




(** * Further properties *)

(** ** The GC hooks *)

Lemma run_cons (w : mjit_state → mjit_state) (ws : schedule) (s : mjit_state) :
  run (w :: ws) s = run ws (w s).
Proof. reflexivity. Qed.

(** [gc_start_wait] returns in the first state in which the worker is out
    of the compile region. *)
Lemma gc_start_wait_run (sched : schedule) (s s' : mjit_state) (sched' : schedule) :
  gc_start_wait sched s = Some (s', sched') →
  ∃ pre, sched = pre ++ sched' ∧ s' = run pre s ∧ mjit_in_jit s' = false ∧
    ∀ k, (k < length pre)%nat → mjit_in_jit (run (take k pre) s) = true.
Proof.
  revert s. induction sched as [|w sched IH]; intros s; simpl.
  - destruct (mjit_in_jit s) eqn:Hj; [done|]. intros [= <- <-].
    exists []. repeat split; [done|]. simpl. lia.
  - destruct (mjit_in_jit s) eqn:Hj.
    + intros (pre & -> & -> & Hout & Hin)%IH. exists (w :: pre).
      repeat split; [done|]. intros [|k] Hk; [done|].
      simpl. apply Hin. simpl in Hk. lia.
    + intros [= <- <-]. exists []. repeat split; [done|]. simpl. lia.
Qed.

(** X1: when [mjit_gc_start_hook] returns with the subsystem enabled, the
    worker has left the compile region: the hook has waited through
    exactly the steps of the worker during which [mjit_in_jit] was true,
    and it returns in the first state in which it is false, with
    [mjit_in_gc] set. *)
Theorem mjit_gc_start_hook_waits_for_worker (sched : schedule) (s s' : mjit_state)
    (sched' : schedule) :
  mjit_enabled s = true →
  mjit_gc_start_hook sched s = Some (s', sched') →
  mjit_in_gc s' = true ∧ mjit_in_jit s' = false ∧
  ∃ pre, sched = pre ++ sched' ∧ s' = set_mjit_in_gc true (run pre s) ∧
    ∀ k, (k < length pre)%nat → mjit_in_jit (run (take k pre) s) = true.
Proof.
  intros Hon. unfold mjit_gc_start_hook. rewrite Hon. simpl.
  destruct (gc_start_wait sched s) as [[s1 sched1]|] eqn:Hwait; [|done].
  intros [= <- <-].
  apply gc_start_wait_run in Hwait as (pre & -> & -> & Hout & Hin).
  split; [done|]. split; [done|]. by exists pre.
Qed.

Lemma mjit_gc_start_hook_waits_for_worker_witness :
  mjit_in_gc (set_mjit_in_gc true (set_mjit_in_jit false (set_mjit_in_jit true (cache_state [] []))))
    = true ∧
  mjit_in_jit (set_mjit_in_gc true (set_mjit_in_jit false (set_mjit_in_jit true (cache_state [] []))))
    = false ∧
  ∃ pre, [set_mjit_in_jit false] = pre ++ [] ∧
    set_mjit_in_gc true (set_mjit_in_jit false (set_mjit_in_jit true (cache_state [] [])))
      = set_mjit_in_gc true (run pre (set_mjit_in_jit true (cache_state [] []))) ∧
    ∀ k, (k < length pre)%nat →
      mjit_in_jit (run (take k pre) (set_mjit_in_jit true (cache_state [] []))) = true.
Proof.
  apply (mjit_gc_start_hook_waits_for_worker [set_mjit_in_jit false]
           (set_mjit_in_jit true (cache_state [] []))).
  - reflexivity.
  - vm_compute. reflexivity.
Defined.

Lemma set_mjit_in_gc_same (s : mjit_state) : set_mjit_in_gc (mjit_in_gc s) s = s.
Proof. by destruct s. Qed.

(** X2: a GC cycle adds nothing of its own: if [mjit_in_gc] was clear in
    the state in which [mjit_gc_start_hook] stopped waiting, then
    [mjit_gc_finish_hook], called on what the start hook returned, gives
    that state back. *)
Theorem gc_hooks_round_trip (sched : schedule) (s s' : mjit_state) (sched' : schedule) :
  mjit_enabled s = true → mjit_enabled s' = true →
  mjit_gc_start_hook sched s = Some (s', sched') →
  mjit_in_gc (mjit_gc_finish_hook s') = false ∧
  ∃ pre, sched = pre ++ sched' ∧
    (mjit_in_gc (run pre s) = false → mjit_gc_finish_hook s' = run pre s).
Proof.
  intros Hon Hon' Hstart.
  unfold mjit_gc_start_hook in Hstart. rewrite Hon in Hstart. simpl in Hstart.
  destruct (gc_start_wait sched s) as [[s1 sched1]|] eqn:Hwait; [|done].
  injection Hstart as <- <-.
  apply gc_start_wait_run in Hwait as (pre & -> & -> & _).
  unfold mjit_gc_finish_hook. rewrite Hon'. simpl. split; [done|].
  exists pre. split; [done|]. intros Hgc.
  rewrite <- (set_mjit_in_gc_same (run pre s)) at 2. by rewrite Hgc.
Qed.

Lemma gc_hooks_round_trip_witness :
  mjit_in_gc (mjit_gc_finish_hook (set_mjit_in_gc true (cache_state eleven_units []))) = false ∧
  ∃ pre, [idle] = pre ++ [idle] ∧
    (mjit_in_gc (run pre (cache_state eleven_units [])) = false →
     mjit_gc_finish_hook (set_mjit_in_gc true (cache_state eleven_units []))
       = run pre (cache_state eleven_units [])).
Proof.
  apply (gc_hooks_round_trip [idle] (cache_state eleven_units [])
           (set_mjit_in_gc true (cache_state eleven_units [])) [idle]).
  - reflexivity.
  - reflexivity.
  - vm_compute. reflexivity.
Defined.

(** ** Class serials *)

Lemma set_mjit_valid_class_serials_same (s : mjit_state) :
  set_mjit_valid_class_serials (mjit_valid_class_serials s) s = s.
Proof. by destruct s. Qed.

(** X3: with the subsystem enabled, a serial is valid after
    [mjit_add_class_serial] and not after [mjit_remove_class_serial], the
    other serials are as they were, and the two undo each other: removing
    a serial that was added to a set without it, or adding one that was
    removed from a set with it, gives the state back. *)
Theorem class_serial_round_trip (class_serial : Z) (s : mjit_state) :
  mjit_enabled s = true →
  mjit_valid_class_serials (mjit_add_class_serial class_serial s) !! class_serial = Some true ∧
  mjit_valid_class_serials (mjit_remove_class_serial class_serial s) !! class_serial = None ∧
  (∀ k, k ≠ class_serial →
     mjit_valid_class_serials (mjit_add_class_serial class_serial s) !! k
       = mjit_valid_class_serials s !! k ∧
     mjit_valid_class_serials (mjit_remove_class_serial class_serial s) !! k
       = mjit_valid_class_serials s !! k) ∧
  (mjit_valid_class_serials s !! class_serial = None →
     mjit_remove_class_serial class_serial (mjit_add_class_serial class_serial s) = s) ∧
  (mjit_valid_class_serials s !! class_serial = Some true →
     mjit_add_class_serial class_serial (mjit_remove_class_serial class_serial s) = s).
Proof.
  intros Hon. unfold mjit_add_class_serial, mjit_remove_class_serial.
  rewrite Hon. simpl. rewrite Hon. simpl.
  split; [apply lookup_insert_eq|]. split; [apply lookup_delete_eq|].
  split; [|split].
  - intros k Hk. by rewrite lookup_insert_ne, lookup_delete_ne.
  - intros Hnone. rewrite delete_insert_id by done.
    exact (set_mjit_valid_class_serials_same s).
  - intros Hsome. rewrite insert_delete_id by done.
    exact (set_mjit_valid_class_serials_same s).
Qed.

Lemma class_serial_round_trip_witness :
  mjit_valid_class_serials (mjit_add_class_serial 7 (cache_state [] [])) !! 7 = Some true ∧
  mjit_valid_class_serials (mjit_remove_class_serial 7 (cache_state [] [])) !! 7 = None ∧
  (∀ k, k ≠ 7 →
     mjit_valid_class_serials (mjit_add_class_serial 7 (cache_state [] [])) !! k
       = mjit_valid_class_serials (cache_state [] []) !! k ∧
     mjit_valid_class_serials (mjit_remove_class_serial 7 (cache_state [] [])) !! k
       = mjit_valid_class_serials (cache_state [] []) !! k) ∧
  (mjit_valid_class_serials (cache_state [] []) !! 7 = None →
     mjit_remove_class_serial 7 (mjit_add_class_serial 7 (cache_state [] [])) = cache_state [] []) ∧
  (mjit_valid_class_serials (cache_state [] []) !! 7 = Some true →
     mjit_add_class_serial 7 (mjit_remove_class_serial 7 (cache_state [] [])) = cache_state [] []).
Proof. apply (class_serial_round_trip 7 (cache_state [] [])). reflexivity. Defined.

(** ** Initialisation *)

Lemma mjit_add_class_serial_outside (k : Z) (s : mjit_state) :
  outside_class_serials (mjit_add_class_serial k s) = outside_class_serials s.
Proof. unfold mjit_add_class_serial. by destruct (mjit_enabled s). Qed.

Lemma mjit_add_class_serial_enabled (k : Z) (s : mjit_state) :
  mjit_enabled s = true →
  mjit_valid_class_serials (mjit_add_class_serial k s) = <[k := true]> (mjit_valid_class_serials s) ∧
  mjit_enabled (mjit_add_class_serial k s) = true.
Proof. intros Hon. unfold mjit_add_class_serial. by rewrite Hon. Qed.

Lemma valid_class_serials_add_i_outside (ce : rb_const_entry_t) (s : mjit_state) :
  outside_class_serials (valid_class_serials_add_i ce s) = outside_class_serials s.
Proof.
  unfold valid_class_serials_add_i, mjit_add_class_serial.
  by destruct (ce_is_const_id ce), (ce_type ce), (mjit_enabled s).
Qed.

Lemma rb_id_table_foreach_outside (tbl : list rb_const_entry_t) (s : mjit_state) :
  outside_class_serials (rb_id_table_foreach tbl s) = outside_class_serials s.
Proof.
  revert s. induction tbl as [|ce tbl IH]; intros s; [done|].
  simpl. rewrite IH. apply valid_class_serials_add_i_outside.
Qed.

Lemma valid_class_serials_add_i_serials (ce : rb_const_entry_t) (s : mjit_state) :
  mjit_enabled s = true →
  mjit_valid_class_serials (valid_class_serials_add_i ce s) =
    match const_entry_serial ce with
    | Some y => <[y := true]> (mjit_valid_class_serials s)
    | None => mjit_valid_class_serials s
    end.
Proof.
  intros Hon. unfold valid_class_serials_add_i, mjit_add_class_serial, const_entry_serial.
  rewrite Hon. by destruct (ce_is_const_id ce), (ce_type ce).
Qed.

(** The serials the walk of the constant table leaves, when the subsystem
    is enabled. *)
Lemma rb_id_table_foreach_serials (tbl : list rb_const_entry_t) (s : mjit_state) (k : Z) :
  mjit_enabled s = true →
  mjit_valid_class_serials (rb_id_table_foreach tbl s) !! k =
    if decide (k ∈ omap const_entry_serial tbl) then Some true
    else mjit_valid_class_serials s !! k.
Proof.
  revert s. induction tbl as [|ce tbl IH]; intros s Hon.
  - destruct (decide (k ∈ omap const_entry_serial [])) as [Hin|Hin];
      [by apply elem_of_nil in Hin|done].
  - change (rb_id_table_foreach (ce :: tbl) s)
      with (rb_id_table_foreach tbl (valid_class_serials_add_i ce s)).
    rewrite IH.
    2:{ rewrite <- Hon. exact (f_equal mjit_enabled (valid_class_serials_add_i_outside ce s)). }
    rewrite valid_class_serials_add_i_serials by done.
    change (omap const_entry_serial (ce :: tbl))
      with (match const_entry_serial ce with
            | Some y => y :: omap const_entry_serial tbl
            | None => omap const_entry_serial tbl
            end).
    destruct (const_entry_serial ce) as [y|]; [|done].
    destruct (decide (k = y)) as [->|Hne].
    + rewrite lookup_insert_eq.
      destruct (decide (y ∈ y :: omap const_entry_serial tbl)) as [_|Hn];
        [by case_decide|exfalso; apply Hn; by left].
    + rewrite lookup_insert_ne by done.
      destruct (decide (k ∈ omap const_entry_serial tbl)) as [Hin|Hin].
      * rewrite decide_True; [done|]. by right.
      * rewrite decide_False; [done|]. by intros [?|?]%elem_of_cons.
Qed.

(** [mjit_init] up to the probe of the header file (lines 648-671). *)
Lemma mjit_init_prefix (opts : mjit_options) (h : init_host) (s : mjit_state) :
  ∃ s0,
    mjit_enabled s0 = true ∧ mjit_call_p s0 = true ∧
    mjit_unit_queue s0 = mjit_unit_queue s ∧
    mjit_active_units s0 = mjit_active_units s ∧
    mjit_compact_units s0 = mjit_compact_units s ∧
    mjit_valid_class_serials s0 = mjit_valid_class_serials s ∧
    host s0 = host s ∧
    mjit_init opts h s =
      match ih_header_filename h with
      | None => set_mjit_enabled false s0
      | Some (header_file, pch_file) =>
        let s := set_mjit_header_file (Some header_file) s0 in
        let s := set_mjit_pch_file (Some pch_file) s in
        let s := set_mjit_unit_queue init_list s in
        let s := set_mjit_active_units init_list s in
        let s := set_mjit_compact_units init_list s in
        let s := set_host (set_sync_primitives true (host s)) s in
        let s := set_mjit_valid_class_serials ∅ s in
        let s := mjit_add_class_serial (ih_object_serial h) s in
        let s := mjit_add_class_serial (ih_top_self_serial h) s in
        let s :=
          match ih_const_tbl h with
          | Some tbl => rb_id_table_foreach tbl s
          | None => s
          end in
        snd (start_worker (ih_create_thread h) s)
      end.
Proof.
  unfold mjit_init. cbn zeta.
  set (s0 := set_mjit_tmp_dir (Some (ih_system_tmpdir h)) _).
  exists s0. repeat split; try done; unfold s0; by repeat case_match.
Qed.

(** X4: [mjit_init] leaves the subsystem enabled exactly when the header
    file is found and the worker thread is created; [mjit_call_p] is left
    set in every case, also when the subsystem ends up disabled; and when
    the header file is not found, the three lists, the class serials and
    the synchronisation primitives are not initialised at all. *)
Theorem mjit_init_outcome (opts : mjit_options) (h : init_host) (s : mjit_state) :
  (mjit_enabled (mjit_init opts h s) = true ↔
     is_Some (ih_header_filename h) ∧ ih_create_thread h = true) ∧
  mjit_call_p (mjit_init opts h s) = true ∧
  (ih_header_filename h = None →
     mjit_unit_queue (mjit_init opts h s) = mjit_unit_queue s ∧
     mjit_active_units (mjit_init opts h s) = mjit_active_units s ∧
     mjit_compact_units (mjit_init opts h s) = mjit_compact_units s ∧
     mjit_valid_class_serials (mjit_init opts h s) = mjit_valid_class_serials s ∧
     host (mjit_init opts h s) = host s).
Proof.
  destruct (mjit_init_prefix opts h s) as (s0 & Hon0 & Hcall0 & Hq & Ha & Hc & Hs & Hh & ->).
  destruct (ih_header_filename h) as [[hf pf]|]; cbn zeta.
  - set (sb := set_mjit_valid_class_serials ∅ _).
    set (s1 := mjit_add_class_serial (ih_top_self_serial h) _).
    set (s2 := match ih_const_tbl h with Some tbl => rb_id_table_foreach tbl s1 | None => s1 end).
    assert (outside_class_serials s2 = outside_class_serials s1) as Hout.
    { unfold s2. destruct (ih_const_tbl h); [apply rb_id_table_foreach_outside|done]. }
    assert (outside_class_serials s1 = outside_class_serials sb) as Hout1.
    { unfold s1. by rewrite !mjit_add_class_serial_outside. }
    assert (mjit_enabled s2 = true) as Hon.
    { transitivity (mjit_enabled s1); [exact (f_equal mjit_enabled Hout)|].
      transitivity (mjit_enabled sb); [exact (f_equal mjit_enabled Hout1)|exact Hon0]. }
    assert (mjit_call_p s2 = true) as Hcall.
    { transitivity (mjit_call_p s1); [exact (f_equal mjit_call_p Hout)|].
      transitivity (mjit_call_p sb); [exact (f_equal mjit_call_p Hout1)|exact Hcall0]. }
    unfold start_worker. destruct (ih_create_thread h); simpl.
    + rewrite Hon, Hcall. split; [|done]. split; [by eauto|done].
    + rewrite Hcall. split; [|done]. split; [done|]. by intros [_ ?].
  - simpl. rewrite Hcall0. split; [|done]. split; [done|].
    intros [[? ?] _]. done.
Qed.

(** X5: when the header file is found, [mjit_init] leaves the three lists
    empty with length 0, PCH not ready and the stop flags of the worker
    clear, whatever the state held; the class serials are then exactly
    the serial of [rb_cObject], the serial of the class of the top self
    and the serials of the constants of [rb_cObject] that are constant
    names bound to a class or a module. *)
Theorem mjit_init_success (opts : mjit_options) (h : init_host) (s : mjit_state) :
  is_Some (ih_header_filename h) →
  mjit_unit_queue (mjit_init opts h s) = init_list ∧
  mjit_active_units (mjit_init opts h s) = init_list ∧
  mjit_compact_units (mjit_init opts h s) = init_list ∧
  mjit_stop_worker_p (mjit_init opts h s) = false ∧
  mjit_worker_stopped (mjit_init opts h s) = false ∧
  ∀ k, mjit_valid_class_serials (mjit_init opts h s) !! k =
         if decide (k ∈ seeded_class_serials h) then Some true else None.
Proof.
  intros [[hf pf] Hh].
  destruct (mjit_init_prefix opts h s) as (s0 & Hon0 & _ & _ & _ & _ & _ & _ & ->).
  rewrite Hh. cbn zeta.
  set (sb := set_mjit_valid_class_serials ∅ _).
  set (s1 := mjit_add_class_serial (ih_top_self_serial h) (mjit_add_class_serial (ih_object_serial h) sb)).
  set (s2 := match ih_const_tbl h with Some tbl => rb_id_table_foreach tbl s1 | None => s1 end).
  assert (outside_class_serials s2 = outside_class_serials s1) as Hout.
  { unfold s2. destruct (ih_const_tbl h); [apply rb_id_table_foreach_outside|done]. }
  assert (mjit_enabled sb = true) as Honb by exact Hon0.
  destruct (mjit_add_class_serial_enabled (ih_object_serial h) sb Honb) as [Hsa Hona].
  destruct (mjit_add_class_serial_enabled (ih_top_self_serial h) _ Hona) as [Hsc Hon1].
  fold s1 in Hsc, Hon1.
  assert (outside_class_serials s1 = outside_class_serials sb) as Hout1.
  { unfold s1. by rewrite !mjit_add_class_serial_outside. }
  assert (∀ k, mjit_valid_class_serials s1 !! k =
            if decide (k ∈ [ih_object_serial h; ih_top_self_serial h]) then Some true else None)
    as Hs1.
  { intros k. rewrite Hsc, Hsa.
    change (mjit_valid_class_serials sb) with (∅ : gmap Z bool).
    destruct (decide (k = ih_top_self_serial h)) as [->|Hne1].
    - rewrite lookup_insert_eq, decide_True; [done|]. right. by left.
    - rewrite lookup_insert_ne by done.
      destruct (decide (k = ih_object_serial h)) as [->|Hne2].
      + rewrite lookup_insert_eq, decide_True; [done|]. by left.
      + rewrite lookup_insert_ne, lookup_empty by done.
        rewrite decide_False; [done|].
        intros [?|[?|?%elem_of_nil]%elem_of_cons]%elem_of_cons; done. }
  assert (∀ k, mjit_valid_class_serials s2 !! k =
            if decide (k ∈ seeded_class_serials h) then Some true else None) as Hs2.
  { intros k. unfold s2, seeded_class_serials.
    destruct (ih_const_tbl h) as [tbl|]; simpl; [|apply Hs1].
    rewrite rb_id_table_foreach_serials, Hs1 by done.
    destruct (decide (k ∈ omap const_entry_serial tbl)) as [Hin|Hin].
    - rewrite decide_True; [done|]. by do 2 right.
    - destruct (decide (k ∈ [ih_object_serial h; ih_top_self_serial h])) as [Hin'|Hin'].
      + rewrite decide_True; [done|].
        apply elem_of_cons in Hin' as [->|[->|?%elem_of_nil]%elem_of_cons];
          [by left|right; by left|done].
      + rewrite decide_False; [done|].
        intros [->|[->|?]%elem_of_cons]%elem_of_cons; [| |done].
        * apply Hin'. by left.
        * apply Hin'. right. by left. }
  assert (mjit_unit_queue s2 = init_list ∧ mjit_active_units s2 = init_list
          ∧ mjit_compact_units s2 = init_list) as (Hq & Ha & Hc).
  { repeat split.
    - transitivity (mjit_unit_queue s1); [exact (f_equal mjit_unit_queue Hout)|].
      exact (f_equal mjit_unit_queue Hout1).
    - transitivity (mjit_active_units s1); [exact (f_equal mjit_active_units Hout)|].
      exact (f_equal mjit_active_units Hout1).
    - transitivity (mjit_compact_units s1); [exact (f_equal mjit_compact_units Hout)|].
      exact (f_equal mjit_compact_units Hout1). }
  unfold start_worker. by destruct (ih_create_thread h).
Qed.

Lemma mjit_init_success_witness :
  mjit_unit_queue (mjit_init scenario_options plain_init_host waiting_state) = init_list ∧
  mjit_active_units (mjit_init scenario_options plain_init_host waiting_state) = init_list ∧
  mjit_compact_units (mjit_init scenario_options plain_init_host waiting_state) = init_list ∧
  mjit_stop_worker_p (mjit_init scenario_options plain_init_host waiting_state) = false ∧
  mjit_worker_stopped (mjit_init scenario_options plain_init_host waiting_state) = false ∧
  ∀ k, mjit_valid_class_serials (mjit_init scenario_options plain_init_host waiting_state) !! k =
         if decide (k ∈ seeded_class_serials plain_init_host) then Some true else None.
Proof.
  apply (mjit_init_success scenario_options plain_init_host waiting_state).
  eexists. reflexivity.
Defined.

Lemma mjit_init_outcome_witness :
  mjit_enabled (mjit_init scenario_options
    (Build_init_host "/tmp" None 1 2 None true) waiting_state) = false ∧
  mjit_call_p (mjit_init scenario_options
    (Build_init_host "/tmp" None 1 2 None true) waiting_state) = true ∧
  mjit_unit_queue (mjit_init scenario_options
    (Build_init_host "/tmp" None 1 2 None true) waiting_state) = mjit_unit_queue waiting_state.
Proof.
  destruct (mjit_init_outcome scenario_options (Build_init_host "/tmp" None 1 2 None true)
              waiting_state) as (Hiff & Hcall & Hnone).
  split; [|split; [exact Hcall|by apply Hnone]].
  destruct (mjit_enabled (mjit_init _ _ _)) eqn:Hon; [|done].
  destruct (proj1 Hiff eq_refl) as [[? Hh] _]. discriminate Hh.
Defined.

(** ** After a fork *)

(** X6: in the child, after [mjit_child_after_fork], the subsystem is
    disabled and stays as the parent left it: submission does nothing,
    [mjit_pause] and [mjit_resume] raise, [mjit_finish] does nothing, so
    that no unit, list or continuation is freed. *)
Theorem mjit_child_after_fork_disables (s : mjit_state) (sched : schedule)
    (zalloc : option unit_ptr) (iseq : iseq_ptr) (wait_p create_thread : bool) :
  mjit_enabled (mjit_child_after_fork s) = false ∧
  mjit_add_iseq_to_process zalloc iseq (mjit_child_after_fork s) = mjit_child_after_fork s ∧
  mjit_pause wait_p sched (mjit_child_after_fork s)
    = Some (rb_eRuntimeError "MJIT is not enabled", mjit_child_after_fork s, sched) ∧
  mjit_resume create_thread (mjit_child_after_fork s)
    = (rb_eRuntimeError "MJIT is not enabled", mjit_child_after_fork s) ∧
  mjit_finish sched (mjit_child_after_fork s) = Some (mjit_child_after_fork s, sched) ∧
  unit_heap (mjit_child_after_fork s) = unit_heap s ∧
  cont_heap (mjit_child_after_fork s) = cont_heap s ∧
  mjit_unit_queue (mjit_child_after_fork s) = mjit_unit_queue s ∧
  mjit_active_units (mjit_child_after_fork s) = mjit_active_units s ∧
  mjit_compact_units (mjit_child_after_fork s) = mjit_compact_units s ∧
  host (mjit_child_after_fork s) = host s.
Proof.
  assert (mjit_enabled (mjit_child_after_fork s) = false) as Hoff.
  { unfold mjit_child_after_fork. by destruct (mjit_enabled s) eqn:Hon. }
  split; [done|].
  unfold mjit_add_iseq_to_process, mjit_pause, mjit_resume, mjit_finish.
  rewrite Hoff. simpl. repeat split; unfold mjit_child_after_fork; by destruct (mjit_enabled s).
Qed.

(** ** Stopping, pausing and resuming the worker *)

Lemma stop_worker_wait_idle (n : nat) (s : mjit_state) :
  mjit_worker_stopped s = false → stop_worker_wait (replicate n idle) s = None.
Proof.
  intros Hs. induction n as [|n IH]; simpl; rewrite Hs; [done|exact IH].
Qed.

(** X7: [stop_worker] returns only once the worker has stopped.  Against a
    worker that honours the stop flag it returns after at most one round;
    against a worker that never stops it never returns, however long it
    runs: there is no forced termination. *)
Theorem stop_worker_needs_cooperation (w : mjit_state → mjit_state) (sched : schedule)
    (s : mjit_state) :
  (∀ sched0 s' sched', stop_worker sched0 s = Some (s', sched') → mjit_worker_stopped s' = true) ∧
  (cooperative_worker w →
     stop_worker (w :: sched) s =
       if mjit_worker_stopped s then Some (set_mjit_stop_worker_p true s, w :: sched)
       else Some (w (set_mjit_stop_worker_p true s), sched)) ∧
  (mjit_worker_stopped s = false → ∀ n, stop_worker (replicate n idle) s = None).
Proof.
  split; [|split].
  - intros sched0 s' sched'. unfold stop_worker. apply stop_worker_wait_stopped.
  - intros Hw. unfold stop_worker. simpl.
    destruct (mjit_worker_stopped s) eqn:Hs; [done|].
    assert (mjit_worker_stopped (w (set_mjit_stop_worker_p true s)) = true) as Hstop
      by by apply Hw.
    destruct sched; simpl; by rewrite Hstop.
  - intros Hs n. unfold stop_worker. by apply stop_worker_wait_idle.
Qed.

Lemma stop_worker_needs_cooperation_witness :
  stop_worker [set_mjit_worker_stopped true] (cache_state [] []) =
    (if mjit_worker_stopped (cache_state [] [])
     then Some (set_mjit_stop_worker_p true (cache_state [] []), [set_mjit_worker_stopped true])
     else Some (set_mjit_worker_stopped true (set_mjit_stop_worker_p true (cache_state [] [])), [])) ∧
  ∀ n, stop_worker (replicate n idle) (cache_state [] []) = None.
Proof.
  destruct (stop_worker_needs_cooperation (set_mjit_worker_stopped true) [] (cache_state [] []))
    as (_ & Hcoop & Hidle).
  split.
  - apply Hcoop. intros s _. reflexivity.
  - apply Hidle. reflexivity.
Defined.

(** [pause_wait] returns in the first state in which the queue is empty. *)
Lemma pause_wait_run (sched : schedule) (s s' : mjit_state) (sched' : schedule) :
  pause_wait sched s = Some (s', sched') →
  ∃ pre, sched = pre ++ sched' ∧ s' = run pre s ∧ ul_length (mjit_unit_queue s') ≤ 0 ∧
    ∀ k, (k < length pre)%nat → 0 < ul_length (mjit_unit_queue (run (take k pre) s)).
Proof.
  revert s. induction sched as [|w sched IH]; intros s; simpl.
  - destruct (Z.gtb_spec (ul_length (mjit_unit_queue s)) 0) as [Hq|Hq]; [done|].
    intros [= <- <-]. exists []. repeat split; [done|]. simpl. lia.
  - destruct (Z.gtb_spec (ul_length (mjit_unit_queue s)) 0) as [Hq|Hq].
    + intros (pre & -> & -> & Hout & Hin)%IH. exists (w :: pre).
      repeat split; [done|]. intros [|k] Hk; [simpl; lia|].
      simpl. apply Hin. simpl in Hk. lia.
    + intros [= <- <-]. exists []. repeat split; [done|]. simpl. lia.
Qed.

(** X8: [mjit_pause] raises when the subsystem is disabled and answers
    [Qfalse] when the worker is already stopped, in both cases without a
    wait and without touching the state.  Otherwise, when it returns, it
    returns [Qtrue] with the worker stopped; with [wait_p] it has first
    slept through exactly the steps of the worker during which the queue
    had units, and has asked the worker to stop only in a state in which
    the queue was empty. *)
Theorem mjit_pause_outcomes (wait_p : bool) (sched : schedule) (s : mjit_state) :
  (mjit_enabled s = false →
     mjit_pause wait_p sched s = Some (rb_eRuntimeError "MJIT is not enabled", s, sched)) ∧
  (mjit_enabled s = true → mjit_worker_stopped s = true →
     mjit_pause wait_p sched s = Some (Qfalse, s, sched)) ∧
  (∀ r s' sched',
     mjit_enabled s = true → mjit_worker_stopped s = false →
     mjit_pause wait_p sched s = Some (r, s', sched') →
     r = Qtrue ∧ mjit_worker_stopped s' = true ∧
     ∃ pre sched1, sched = pre ++ sched1 ∧
       stop_worker sched1 (run pre s) = Some (s', sched') ∧
       if wait_p
       then ul_length (mjit_unit_queue (run pre s)) ≤ 0 ∧
            ∀ k, (k < length pre)%nat → 0 < ul_length (mjit_unit_queue (run (take k pre) s))
       else pre = []).
Proof.
  unfold mjit_pause. split; [|split].
  - by intros ->.
  - by intros -> ->.
  - intros r s' sched' -> ->. simpl.
    destruct wait_p.
    + destruct (pause_wait sched s) as [[s1 sched1]|] eqn:Hwait; [|done].
      destruct (stop_worker sched1 s1) as [[s2 sched2]|] eqn:Hstop; [|done].
      intros [= <- <- <-]. split; [done|].
      split; [by eapply stop_worker_wait_stopped|].
      apply pause_wait_run in Hwait as (pre & -> & -> & Hq & Hin).
      by exists pre, sched1.
    + destruct (stop_worker sched s) as [[s2 sched2]|] eqn:Hstop; [|done].
      intros [= <- <- <-]. split; [done|].
      split; [by eapply stop_worker_wait_stopped|].
      by exists [], sched.
Qed.

(** A worker that compiles the queued unit during the first sleep and stops
    when asked to. *)
Lemma mjit_pause_outcomes_witness :
  mjit_pause true [set_mjit_unit_queue init_list; set_mjit_worker_stopped true] zero_state
    = Some (rb_eRuntimeError "MJIT is not enabled", zero_state,
            [set_mjit_unit_queue init_list; set_mjit_worker_stopped true]) ∧
  mjit_pause true [] stopped_state = Some (Qfalse, stopped_state, []) ∧
  (Qtrue = Qtrue ∧
   mjit_worker_stopped
     (set_mjit_worker_stopped true (set_mjit_stop_worker_p true
        (set_mjit_unit_queue init_list waiting_state))) = true ∧
   ∃ pre sched1,
     [set_mjit_unit_queue init_list; set_mjit_worker_stopped true] = pre ++ sched1 ∧
     stop_worker sched1 (run pre waiting_state)
       = Some (set_mjit_worker_stopped true (set_mjit_stop_worker_p true
                 (set_mjit_unit_queue init_list waiting_state)), []) ∧
     ul_length (mjit_unit_queue (run pre waiting_state)) ≤ 0 ∧
     ∀ k, (k < length pre)%nat →
       0 < ul_length (mjit_unit_queue (run (take k pre) waiting_state))).
Proof.
  split; [|split].
  - apply (mjit_pause_outcomes true
             [set_mjit_unit_queue init_list; set_mjit_worker_stopped true] zero_state).
    reflexivity.
  - apply (mjit_pause_outcomes true [] stopped_state); reflexivity.
  - apply (mjit_pause_outcomes true
             [set_mjit_unit_queue init_list; set_mjit_worker_stopped true] waiting_state).
    + reflexivity.
    + reflexivity.
    + vm_compute. reflexivity.
Defined.

Lemma set_worker_flags_same (s : mjit_state) :
  set_mjit_worker_stopped (mjit_worker_stopped s)
    (set_mjit_stop_worker_p (mjit_stop_worker_p s) s) = s.
Proof. by destruct s. Qed.

(** X9: [mjit_resume] after a pause restarts the worker: with the worker
    stopped it clears both stop flags and answers [Qtrue], and a second
    [mjit_resume] answers [Qfalse] and changes nothing.  If the thread
    cannot be created it raises and leaves the subsystem disabled.
    Against a worker that does nothing but stop when asked, [mjit_pause]
    followed by [mjit_resume] gives the state back. *)
Theorem mjit_resume_after_pause (sched : schedule) (s : mjit_state) :
  mjit_enabled s = true →
  (mjit_worker_stopped s = true →
     mjit_resume true s
       = (Qtrue, set_mjit_worker_stopped false (set_mjit_stop_worker_p false s)) ∧
     mjit_resume true (snd (mjit_resume true s)) = (Qfalse, snd (mjit_resume true s)) ∧
     fst (mjit_resume false s) = rb_eRuntimeError "Failed to resume MJIT worker" ∧
     mjit_enabled (snd (mjit_resume false s)) = false) ∧
  (mjit_worker_stopped s = false → mjit_stop_worker_p s = false →
     mjit_resume true s = (Qfalse, s) ∧
     mjit_pause false (set_mjit_worker_stopped true :: sched) s
       = Some (Qtrue, set_mjit_worker_stopped true (set_mjit_stop_worker_p true s), sched) ∧
     mjit_resume true (set_mjit_worker_stopped true (set_mjit_stop_worker_p true s)) = (Qtrue, s)).
Proof.
  intros Hon. split.
  - intros Hs. unfold mjit_resume, start_worker. rewrite Hon, Hs. simpl.
    rewrite Hon. simpl. done.
  - intros Hs Hp. unfold mjit_resume, mjit_pause, stop_worker, start_worker.
    rewrite Hon, Hs. simpl. rewrite Hs, Hon. simpl.
    repeat split.
    + by destruct sched.
    + f_equal. rewrite <- (set_worker_flags_same s) at 2. by rewrite Hs, Hp.
Qed.

Lemma mjit_resume_after_pause_witness :
  (mjit_resume true stopped_state
     = (Qtrue, set_mjit_worker_stopped false (set_mjit_stop_worker_p false stopped_state)) ∧
   mjit_resume true (snd (mjit_resume true stopped_state))
     = (Qfalse, snd (mjit_resume true stopped_state)) ∧
   fst (mjit_resume false stopped_state) = rb_eRuntimeError "Failed to resume MJIT worker" ∧
   mjit_enabled (snd (mjit_resume false stopped_state)) = false) ∧
  (mjit_resume true waiting_state = (Qfalse, waiting_state) ∧
   mjit_pause false [set_mjit_worker_stopped true] waiting_state
     = Some (Qtrue, set_mjit_worker_stopped true (set_mjit_stop_worker_p true waiting_state), []) ∧
   mjit_resume true (set_mjit_worker_stopped true (set_mjit_stop_worker_p true waiting_state))
     = (Qtrue, waiting_state)).
Proof.
  split.
  - apply (mjit_resume_after_pause [] stopped_state); reflexivity.
  - apply (mjit_resume_after_pause [] waiting_state); reflexivity.
Defined.

(** ** The sweep of collected iseqs *)

Lemma unload_gced_lookup_None (node : list rb_mjit_unit_node) (pos : nat) (s : mjit_state)
    (v : unit_ptr) :
  unit_heap s !! v = None → unit_heap (unload_gced node pos s) !! v = None.
Proof.
  revert pos s. induction node as [|n node IH]; intros pos s Hv; [done|].
  simpl. destruct (unit_iseq s (node_unit n)); apply IH; [done|].
  simpl. by apply free_unit_lookup_None.
Qed.

(** The first loop only frees: a unit it leaves allocated is as it was. *)
Lemma unload_gced_lookup_Some (node : list rb_mjit_unit_node) (pos : nat) (s : mjit_state)
    (v : unit_ptr) (r : rb_mjit_unit) :
  unit_heap (unload_gced node pos s) !! v = Some r → unit_heap s !! v = Some r.
Proof.
  revert pos s. induction node as [|n node IH]; intros pos s; [done|].
  simpl. destruct (unit_iseq s (node_unit n)); [apply IH|].
  intros Hv%IH. simpl in Hv.
  destruct (decide (node_unit n = v)) as [<-|Hne].
  - by rewrite free_unit_lookup_eq in Hv.
  - by rewrite free_unit_lookup_ne in Hv.
Qed.

(** The first loop frees the unit of every node whose unit has no iseq. *)
Lemma unload_gced_frees (node : list rb_mjit_unit_node) (pos : nat) (s : mjit_state)
    (n : rb_mjit_unit_node) :
  n ∈ node → unit_iseq s (node_unit n) = None →
  unit_heap (unload_gced node pos s) !! node_unit n = None.
Proof.
  revert pos s. induction node as [|m node IH]; intros pos s Hn Hgone.
  - by apply elem_of_nil in Hn.
  - simpl. apply elem_of_cons in Hn as [->|Hn].
    + rewrite Hgone. apply unload_gced_lookup_None. simpl. apply free_unit_lookup_eq.
    + destruct (unit_iseq s (node_unit m)) eqn:Hm; [by apply IH|].
      apply IH; [done|]. unfold unit_iseq in *. simpl.
      destruct (decide (node_unit m = node_unit n)) as [Heq|Hne].
      * by rewrite <- Heq, free_unit_lookup_eq.
      * by rewrite free_unit_lookup_ne.
Qed.

(** Every node the first loop keeps has a unit with its iseq. *)
Lemma unload_gced_live (node visited : list rb_mjit_unit_node) (s : mjit_state) :
  ul_head (mjit_active_units s) = visited ++ node →
  (∀ m, m ∈ visited → is_Some (unit_iseq s (node_unit m))) →
  ∀ m, m ∈ ul_head (mjit_active_units (unload_gced node (length visited) s)) →
       is_Some (unit_iseq (unload_gced node (length visited) s) (node_unit m)).
Proof.
  revert visited s. induction node as [|h node IH]; intros visited s Hchain Hlive.
  - simpl. rewrite Hchain, app_nil_r. exact Hlive.
  - simpl. destruct (unit_iseq s (node_unit h)) as [i|] eqn:Hh.
    + replace (S (length visited)) with (length (visited ++ [h]))
        by (rewrite length_app; simpl; lia).
      apply IH; [by rewrite <- app_assoc|].
      intros m [Hm|Hm%list_elem_of_singleton]%elem_of_app; [by apply Hlive|].
      subst m. by rewrite Hh.
    + apply IH.
      * simpl. by rewrite free_unit_active_units, Hchain, delete_middle.
      * intros m Hm. specialize (Hlive m Hm).
        assert (node_unit h ≠ node_unit m) as Hne.
        { intros Heq. rewrite Heq in Hh. rewrite Hh in Hlive. by destruct Hlive. }
        unfold unit_iseq in *. simpl. by rewrite free_unit_lookup_ne.
Qed.

Lemma unload_loop_lookup_None (fuel : nat) (delete_num : Z) (s : mjit_state) (v : unit_ptr) :
  unit_heap s !! v = None → unit_heap (unload_loop fuel delete_num s) !! v = None.
Proof.
  revert s. induction fuel as [|fuel IH]; intros s Hv; [done|].
  rewrite unload_loop_unfold. destruct (_ >? _); [|done].
  destruct (find_worst_node _ 0 None s) as [[p w]|]; [|done].
  apply IH. unfold unload_node. simpl. by apply free_unit_lookup_None.
Qed.

(** The scan after the first loop changes no unit but for its flag. *)
Lemma unload_units_scan_identity (s : mjit_state) (u : unit_ptr) :
  unit_identity <$> unit_heap (unload_units_scan s) !! u =
  unit_identity <$> unit_heap (unload_gced (ul_head (mjit_active_units s)) 0 s) !! u.
Proof.
  unfold unload_units_scan. cbn zeta.
  set (s1 := unload_gced _ 0 s).
  set (s2 := clear_used_code_p _ s1).
  set (s3 := mark_living_threads _ s2).
  destruct (mark_conts_units (size (cont_heap s3)) (first_cont s3) s3 u) as [_ ->].
  destruct (mark_living_threads_units (living_threads (host s2)) s2 u) as [_ H3].
  fold s3 in H3. rewrite H3.
  destruct (clear_used_code_p_units (ul_head (mjit_active_units s1)) s1 u) as [_ H2].
  by fold s2 in H2.
Qed.

Lemma unit_identity_iseq (m m' : gmap positive rb_mjit_unit) (u : unit_ptr) :
  unit_identity <$> m' !! u = unit_identity <$> m !! u →
  m' !! u ≫= u_iseq = m !! u ≫= u_iseq.
Proof.
  destruct (m' !! u) as [[? ? ? ?]|], (m !! u) as [[? ? ? ?]|]; simpl; try done.
  unfold unit_identity. simpl. by intros [= _ _ ->].
Qed.

(** What [unload_units] does with a collected iseq, and what the sweep
    guarantees to the loops that follow. *)
Lemma unload_units_sweeps (s : mjit_state) :
  (∀ n, n ∈ ul_head (mjit_active_units s) → unit_iseq s (node_unit n) = None →
     unit_heap (unload_units s) !! node_unit n = None ∧
     ∀ m, m ∈ ul_head (mjit_active_units (unload_units s)) → node_unit m ≠ node_unit n) ∧
  (∀ m, m ∈ ul_head (mjit_active_units (unload_units_scan s)) →
     is_Some (unit_iseq (unload_units_scan s) (node_unit m))).
Proof.
  pose proof (unload_gced_live (ul_head (mjit_active_units s)) [] s eq_refl) as Hlive.
  simpl in Hlive.
  assert (∀ m, m ∈ ul_head (mjit_active_units (unload_units_scan s)) →
               is_Some (unit_iseq (unload_units_scan s) (node_unit m))) as Hscan.
  { intros m Hm. rewrite unload_units_scan_active_units in Hm.
    unfold unit_iseq. rewrite (unit_identity_iseq _ _ _ (unload_units_scan_identity s (node_unit m))).
    apply Hlive; [|done]. intros m' Hm'. by apply elem_of_nil in Hm'. }
  split; [|done].
  intros n Hn Hgone.
  assert (unit_heap (unload_units_scan s) !! node_unit n = None) as Hfreed.
  { pose proof (unload_units_scan_identity s (node_unit n)) as Hid.
    rewrite (unload_gced_frees _ 0 s n Hn Hgone) in Hid.
    by destruct (unit_heap (unload_units_scan s) !! node_unit n). }
  split.
  - unfold unload_units. cbn zeta. by apply unload_loop_lookup_None.
  - intros m Hm Heq. unfold unload_units in Hm. cbn zeta in Hm.
    apply unload_loop_sub in Hm. apply Hscan in Hm.
    unfold unit_iseq in Hm. rewrite Heq, Hfreed in Hm. by destruct Hm.
Qed.

(** X10: [unload_units] first unloads, whatever the cache size and the
    stacks, every active unit whose iseq was collected: the unit is freed
    and no node of the active list holds it any more.  Hence when the
    second loop starts every node of the active list has a unit with an
    iseq, which is what the assertion of line 327 says of the iseq. *)
Theorem unload_units_sweeps_collected (s : mjit_state) :
  (∀ n, n ∈ ul_head (mjit_active_units s) → unit_iseq s (node_unit n) = None →
     unit_heap (unload_units s) !! node_unit n = None ∧
     ∀ m, m ∈ ul_head (mjit_active_units (unload_units s)) → node_unit m ≠ node_unit n) ∧
  (∀ m, m ∈ ul_head (mjit_active_units (unload_units_scan s)) →
     is_Some (unit_iseq (unload_units_scan s) (node_unit m))).
Proof. apply unload_units_sweeps. Qed.

Lemma mjit_free_iseq_outside (iseq : iseq_ptr) (s : mjit_state) :
  outside_units (mjit_free_iseq iseq s) = outside_units s.
Proof. unfold mjit_free_iseq. by repeat case_match. Qed.

(** X11: with the subsystem enabled, [mjit_free_iseq] clears the iseq of
    the unit the iseq points to and frees nothing: that unit keeps its id,
    handle and flag, every other unit, the three lists and the iseq
    bodies are as they were.  If a node of the active list holds that
    unit, the next [unload_units] frees the unit and unlinks it. *)
Theorem mjit_free_iseq_then_unload (iseq : iseq_ptr) (u : unit_ptr) (s : mjit_state) :
  mjit_enabled s = true → body_jit_unit s iseq = Some u →
  unit_heap (mjit_free_iseq iseq s) !! u = set_u_iseq None <$> unit_heap s !! u ∧
  (∀ v, v ≠ u → unit_heap (mjit_free_iseq iseq s) !! v = unit_heap s !! v) ∧
  outside_units (mjit_free_iseq iseq s) = outside_units s ∧
  (∀ n, n ∈ ul_head (mjit_active_units s) → node_unit n = u →
     unit_heap (unload_units (mjit_free_iseq iseq s)) !! u = None ∧
     ∀ m, m ∈ ul_head (mjit_active_units (unload_units (mjit_free_iseq iseq s))) →
          node_unit m ≠ u).
Proof.
  intros Hon Hju.
  assert (unit_heap (mjit_free_iseq iseq s) !! u = set_u_iseq None <$> unit_heap s !! u) as Hu.
  { unfold mjit_free_iseq. rewrite Hon, Hju. simpl. apply lookup_alter_eq. }
  split; [done|]. split; [|split; [apply mjit_free_iseq_outside|]].
  - intros v Hv. unfold mjit_free_iseq. rewrite Hon, Hju. simpl. by apply lookup_alter_ne.
  - intros n Hn <-.
    destruct (unload_units_sweeps (mjit_free_iseq iseq s)) as [Hsweep _].
    apply Hsweep.
    + by rewrite (f_equal mjit_active_units (mjit_free_iseq_outside iseq s)
                  : mjit_active_units (mjit_free_iseq iseq s) = mjit_active_units s).
    + unfold unit_iseq. rewrite Hu. by destruct (unit_heap s !! node_unit n).
Qed.

Lemma mjit_free_iseq_then_unload_witness :
  unit_heap (mjit_free_iseq 3 (cache_state eleven_units [])) !! 3%positive
    = set_u_iseq None <$> unit_heap (cache_state eleven_units []) !! 3%positive ∧
  (∀ v, v ≠ 3%positive →
     unit_heap (mjit_free_iseq 3 (cache_state eleven_units [])) !! v
       = unit_heap (cache_state eleven_units []) !! v) ∧
  outside_units (mjit_free_iseq 3 (cache_state eleven_units []))
    = outside_units (cache_state eleven_units []) ∧
  (∀ n, n ∈ ul_head (mjit_active_units (cache_state eleven_units [])) → node_unit n = 3%positive →
     unit_heap (unload_units (mjit_free_iseq 3 (cache_state eleven_units []))) !! 3%positive = None ∧
     ∀ m, m ∈ ul_head (mjit_active_units (unload_units (mjit_free_iseq 3 (cache_state eleven_units [])))) →
          node_unit m ≠ 3%positive).
Proof.
  apply (mjit_free_iseq_then_unload 3 3 (cache_state eleven_units [])).
  - reflexivity.
  - vm_compute. reflexivity.
Defined.

(** The sweep on the cache of the examples after iseq 3 was collected:
    unit 3 goes first, then the least called unit brings the length to
    the target. *)
Example unload_after_free_iseq :
  map node_unit (ul_head (mjit_active_units
    (unload_units (mjit_free_iseq 3 (cache_state eleven_units [])))))
    = [1; 4; 5; 6; 7; 8; 9; 10; 11]%positive.
Proof. vm_compute. reflexivity. Qed.

Lemma unload_units_sweeps_collected_witness :
  unit_heap (unload_units (mjit_free_iseq 3 (cache_state eleven_units []))) !! 3%positive = None.
Proof.
  destruct (unload_units_sweeps_collected (mjit_free_iseq 3 (cache_state eleven_units [])))
    as [Hsweep _].
  apply (Hsweep (create_list_node 3)).
  - vm_compute. repeat constructor.
  - vm_compute. reflexivity.
Defined.

(** ** What the scan marks *)

Lemma body_jit_unit_outside (s s' : mjit_state) (iseq : iseq_ptr) :
  outside_units s' = outside_units s → body_jit_unit s' iseq = body_jit_unit s iseq.
Proof.
  intros H. destruct (outside_units_fields _ _ H) as (Hih & _).
  unfold body_jit_unit. by rewrite Hih.
Qed.

Lemma alter_false_used (k u : unit_ptr) (s : mjit_state) :
  unit_used_code_p (set_unit_heap (alter (set_u_used_code_p false) k (unit_heap s)) s) u = true →
  unit_used_code_p s u = true.
Proof.
  unfold unit_used_code_p. simpl. destruct (decide (k = u)) as [->|Hne].
  - rewrite lookup_alter_eq. by destruct (unit_heap s !! u).
  - by rewrite lookup_alter_ne.
Qed.

(** The second loop sets no flag, and clears the flag of every node it
    visits. *)
Lemma clear_used_code_p_sets_none (node : list rb_mjit_unit_node) (s : mjit_state) (u : unit_ptr) :
  unit_used_code_p (clear_used_code_p node s) u = true → unit_used_code_p s u = true.
Proof.
  revert s. induction node as [|n node IH]; intros s; [done|].
  simpl. intros Hu%IH. by apply alter_false_used in Hu.
Qed.

Lemma clear_used_code_p_clears (node : list rb_mjit_unit_node) (s : mjit_state)
    (n : rb_mjit_unit_node) :
  n ∈ node → unit_used_code_p (clear_used_code_p node s) (node_unit n) = false.
Proof.
  revert s. induction node as [|m node IH]; intros s Hn.
  - by apply elem_of_nil in Hn.
  - simpl. apply elem_of_cons in Hn as [->|Hn]; [|by apply IH].
    apply not_true_is_false. intros Hu%clear_used_code_p_sets_none.
    revert Hu. unfold unit_used_code_p. simpl. rewrite lookup_alter_eq.
    by destruct (unit_heap s !! node_unit m).
Qed.

(** A flag that a mark loop leaves set was set before or belongs to the
    unit of an iseq the loop met. *)
Lemma mark_cfp_inv (cfp : rb_control_frame_t) (s : mjit_state) (u : unit_ptr) :
  unit_used_code_p (mark_cfp cfp s) u = true →
  unit_used_code_p s u = true ∨
  ∃ iseq, is_Some (cfp_pc cfp) ∧ cfp_iseq cfp = Some (imemo_iseq, iseq) ∧
          body_jit_unit s iseq = Some u.
Proof.
  unfold mark_cfp.
  destruct (cfp_pc cfp) as [pc|]; [|by left].
  destruct (cfp_iseq cfp) as [[ty iseq]|]; [|by left].
  destruct (decide (ty = imemo_iseq)) as [->|]; [|by left].
  destruct (body_jit_unit s iseq) as [v|] eqn:Hv; [|by left].
  destruct (decide (v = u)) as [->|Hne].
  - intros _. right. exists iseq. by eauto.
  - unfold unit_used_code_p. simpl. rewrite lookup_alter_ne by done. by left.
Qed.

Lemma mark_frames_inv (fs : list rb_control_frame_t) (s : mjit_state) (u : unit_ptr) :
  unit_used_code_p (mark_frames fs s) u = true →
  unit_used_code_p s u = true ∨
  ∃ cfp iseq, cfp ∈ fs ∧ is_Some (cfp_pc cfp) ∧ cfp_iseq cfp = Some (imemo_iseq, iseq) ∧
              body_jit_unit s iseq = Some u.
Proof.
  revert s. induction fs as [|f fs IH]; intros s; [by left|].
  simpl. intros [Hu|(cfp & iseq & Hcfp & Hpc & Hiseq & Hju)]%IH.
  - apply mark_cfp_inv in Hu as [Hu|(iseq & Hpc & Hiseq & Hju)]; [by left|].
    right. exists f, iseq. repeat split; try done. by left.
  - right. exists cfp, iseq. repeat split; try done; [by right|].
    destruct (mark_cfp_units f s u) as [Hout _].
    by rewrite <- (body_jit_unit_outside _ _ iseq Hout).
Qed.

Lemma mark_ec_units_inv (ec : rb_execution_context_t) (s : mjit_state) (u : unit_ptr) :
  unit_used_code_p (mark_ec_units ec s) u = true →
  unit_used_code_p s u = true ∨ ∃ iseq, frame_of ec iseq ∧ body_jit_unit s iseq = Some u.
Proof.
  unfold mark_ec_units, frame_of. destruct (ec_vm_stack ec) as [st|]; [|by left].
  intros [Hu|(cfp & iseq & Hcfp & Hpc & Hiseq & Hju)]%mark_frames_inv; [by left|].
  right. exists iseq. split; [|done]. split; [by eexists|]. by exists cfp.
Qed.

Lemma mark_living_threads_inv (th : list rb_execution_context_t) (s : mjit_state) (u : unit_ptr) :
  unit_used_code_p (mark_living_threads th s) u = true →
  unit_used_code_p s u = true ∨
  ∃ ec iseq, ec ∈ th ∧ frame_of ec iseq ∧ body_jit_unit s iseq = Some u.
Proof.
  revert s. induction th as [|e th IH]; intros s; [by left|].
  simpl. intros [Hu|(ec & iseq & Hec & Hframe & Hju)]%IH.
  - apply mark_ec_units_inv in Hu as [Hu|(iseq & Hframe & Hju)]; [by left|].
    right. exists e, iseq. repeat split; try done; [by left|apply Hframe..].
  - right. exists ec, iseq. split; [by right|]. split; [done|].
    destruct (mark_ec_units_units e s u) as [Hout _].
    by rewrite <- (body_jit_unit_outside _ _ iseq Hout).
Qed.

Lemma mark_conts_inv (fuel : nat) (cont : option cont_ptr) (s : mjit_state) (u : unit_ptr) :
  unit_used_code_p (mark_conts fuel cont s) u = true →
  unit_used_code_p s u = true ∨
  ∃ r iseq, r ∈ registered_conts fuel cont (cont_heap s) ∧ frame_of (c_ec r) iseq ∧
            body_jit_unit s iseq = Some u.
Proof.
  revert cont s. induction fuel as [|fuel IH]; intros [c|] s; try by left.
  simpl. destruct (cont_heap s !! c) as [r0|]; [|by left].
  destruct (mark_ec_units_units (c_ec r0) s u) as [Hout _].
  destruct (outside_units_fields _ _ Hout) as (_ & Hch & _).
  intros [Hu|(r & iseq & Hr & Hframe & Hju)]%IH.
  - apply mark_ec_units_inv in Hu as [Hu|(iseq & Hframe & Hju)]; [by left|].
    right. exists r0, iseq. split; [by left|done].
  - right. exists r, iseq. split; [|split; [done|]].
    + right. by rewrite <- Hch.
    + by rewrite <- (body_jit_unit_outside _ _ iseq Hout).
Qed.

Lemma outside_eviction_stacks (s s' : mjit_state) :
  outside_eviction s' = outside_eviction s →
  living_threads (host s') = living_threads (host s) ∧ cont_heap s' = cont_heap s ∧
  first_cont s' = first_cont s ∧ iseq_heap s' = iseq_heap s.
Proof.
  intros H. repeat split.
  - exact (f_equal (λ s, living_threads (host s)) H).
  - exact (f_equal cont_heap H).
  - exact (f_equal first_cont H).
  - exact (f_equal iseq_heap H).
Qed.

(** X12: when the eviction loop of [unload_units] starts, a node of the
    active list is marked exactly when some frame with a [pc] and an iseq,
    on the stack of a living thread or of a registered continuation, runs
    an iseq whose [jit_unit] is the node's unit.  Marks left from an
    earlier call do not survive. *)
Theorem unload_units_scan_marks_exactly (s : mjit_state) (n : rb_mjit_unit_node) :
  n ∈ ul_head (mjit_active_units (unload_units_scan s)) →
  unit_used_code_p (unload_units_scan s) (node_unit n) = true ↔ on_scanned_stack s (node_unit n).
Proof.
  intros Hn. split.
  - pose proof Hn as Hn1. rewrite unload_units_scan_active_units in Hn1.
    revert Hn1. unfold unload_units_scan, on_scanned_stack, scanned_stacks. cbn zeta.
    set (s1 := unload_gced _ 0 s).
    set (s2 := clear_used_code_p _ s1).
    set (s3 := mark_living_threads _ s2).
    intros Hn1 Hu.
    assert (outside_eviction s2 = outside_eviction s) as H2.
    { unfold s2, s1. by rewrite clear_used_code_p_outside, unload_gced_outside. }
    assert (outside_eviction s3 = outside_eviction s) as H3.
    { unfold s3. by rewrite mark_living_threads_outside. }
    destruct (outside_eviction_stacks _ _ H2) as (Hh2 & _ & _ & Hih2).
    destruct (outside_eviction_stacks _ _ H3) as (_ & Hch3 & Hfc3 & Hih3).
    apply mark_conts_inv in Hu as [Hu|(r & iseq & Hr & Hframe & Hju)].
    + apply mark_living_threads_inv in Hu as [Hu|(ec & iseq & Hec & Hframe & Hju)].
      * pose proof (clear_used_code_p_clears _ s1 n Hn1) as Hclear.
        fold s2 in Hclear. congruence.
      * exists ec, iseq. split; [|split; [done|]].
        -- apply elem_of_app. left. by rewrite <- Hh2.
        -- unfold body_jit_unit in *. by rewrite <- Hih2.
    + exists (c_ec r), iseq. split; [|split; [done|]].
      * apply elem_of_app. right. apply list_elem_of_fmap. exists r. split; [done|].
        by rewrite <- Hch3, <- Hfc3.
      * unfold body_jit_unit in *. by rewrite <- Hih3.
  - intros (ec & iseq & Hec & Hframe & Hju).
    apply (unload_units_scan_marks s ec iseq); try done.
    destruct (unload_units_sweeps s) as [_ Hlive]. specialize (Hlive n Hn).
    unfold unit_iseq in *.
    rewrite (unit_identity_iseq _ _ _ (unload_units_scan_identity s (node_unit n))) in Hlive.
    destruct (unit_heap (unload_gced (ul_head (mjit_active_units s)) 0 s) !! node_unit n)
      as [r|] eqn:Hr; [|by destruct Hlive].
    apply unload_gced_lookup_Some in Hr. by rewrite Hr.
Qed.

Lemma unload_units_scan_marks_exactly_witness :
  unit_used_code_p (unload_units_scan (cache_state eleven_units [2%positive])) 2%positive = true
  ↔ on_scanned_stack (cache_state eleven_units [2%positive]) 2%positive.
Proof.
  apply (unload_units_scan_marks_exactly (cache_state eleven_units [2%positive])
           (create_list_node 2)).
  vm_compute. repeat constructor.
Defined.

(** ** The length of the active list after eviction *)

Lemma filter_all_length {A} (P : A → Prop) `{∀ x, Decision (P x)} (l : list A) :
  (∀ x, x ∈ l → P x) → length (filter P l) = length l.
Proof.
  induction l as [|x l IH]; intros Hall; [done|].
  rewrite filter_cons_True by (apply Hall; by left).
  simpl. f_equal. apply IH. intros y Hy. apply Hall. by right.
Qed.

Lemma filter_delete_length {A} (P : A → Prop) `{∀ x, Decision (P x)} (l : list A)
    (p : nat) (w : A) :
  l !! p = Some w → ¬ P w → length (filter P (delete p l)) = length (filter P l).
Proof.
  intros (l1 & l2 & -> & ->)%list_elem_of_split_length Hw.
  rewrite delete_middle, !filter_app, filter_cons_False by done. done.
Qed.

(** Unloading an unmarked node changes no flag. *)
Lemma unload_node_used (p : nat) (w : rb_mjit_unit_node) (s : mjit_state) (v : unit_ptr) :
  unit_used_code_p s (node_unit w) = false →
  unit_used_code_p (unload_node (p, w) s) v = unit_used_code_p s v.
Proof.
  intros Hw. unfold unload_node, unit_used_code_p in *. simpl.
  destruct (decide (node_unit w = v)) as [<-|Hne].
  - by rewrite free_unit_lookup_eq, Hw.
  - by rewrite free_unit_lookup_ne.
Qed.

Lemma marked_count_le (s : mjit_state) :
  0 ≤ marked_count s ≤ Z.of_nat (length (ul_head (mjit_active_units s))).
Proof. unfold marked_count. pose proof (length_filter (λ n, unit_used_code_p s (node_unit n) = true) (ul_head (mjit_active_units s))). lia. Qed.

Lemma unload_node_marked_count (p : nat) (w : rb_mjit_unit_node) (s : mjit_state) :
  ul_head (mjit_active_units s) !! p = Some w → evictable s w →
  marked_count (unload_node (p, w) s) = marked_count s.
Proof.
  intros Hp Hw. unfold marked_count. rewrite unload_node_chain. f_equal.
  rewrite <- (filter_delete_length _ _ p w Hp) by (unfold evictable in Hw; congruence).
  f_equal. apply list_filter_iff. intros m. by rewrite unload_node_used.
Qed.

(** The eviction loop keeps the counter of the active list equal to the
    length of its chain and stops at the target or at the marked nodes,
    whichever is more. *)
Lemma unload_loop_length (fuel : nat) (delete_num : Z) (s : mjit_state) :
  list_consistent (mjit_active_units s) →
  (length (ul_head (mjit_active_units s)) < fuel)%nat →
  list_consistent (mjit_active_units (unload_loop fuel delete_num s)) ∧
  ul_length (mjit_active_units (unload_loop fuel delete_num s))
    = Z.max (marked_count s)
        (Z.min (ul_length (mjit_active_units s)) (target_length delete_num s)).
Proof.
  revert s. induction fuel as [|fuel IH]; intros s [Hlen Hmax] Hfuel; [lia|].
  pose proof (marked_count_le s) as Hmc.
  rewrite unload_loop_unfold.
  destruct (_ >? _) eqn:Hgt.
  - apply Z.gtb_lt in Hgt.
    pose proof (find_worst_node_spec s (ul_head (mjit_active_units s))) as Hspec.
    destruct (find_worst_node _ 0 None s) as [[p w]|].
    + destruct Hspec as (Hp & Hw & _).
      pose proof (lookup_lt_Some _ _ _ Hp) as Hlt.
      destruct (unload_node_spec p w s) as (Hchain & Hcount & _).
      rewrite int_wrap_small in Hcount by (unfold INT_MIN, INT_MAX in *; lia).
      destruct (IH (unload_node (p, w) s)) as [Hcons ->].
      * split; rewrite Hcount, ?Hchain, ?length_delete by (by apply lookup_lt_is_Some); lia.
      * rewrite Hchain, length_delete by (by apply lookup_lt_is_Some). lia.
      * split; [done|].
        rewrite (unload_node_marked_count p w s Hp Hw), Hcount.
        assert (target_length delete_num (unload_node (p, w) s) = target_length delete_num s) as ->.
        { unfold target_length.
          destruct (outside_eviction_fields _ _ (unload_node_outside (p, w) s))
            as (_ & _ & _ & _ & _ & ->). done. }
        lia.
    + split; [done|].
      assert (marked_count s = Z.of_nat (length (ul_head (mjit_active_units s)))) as ->; [|lia].
      unfold marked_count. f_equal. apply filter_all_length.
      intros m Hm. specialize (Hspec m Hm). unfold evictable in Hspec.
      by destruct (unit_used_code_p s (node_unit m)).
  - split; [done|]. rewrite Z.gtb_ltb in Hgt. apply Z.ltb_ge in Hgt. lia.
Qed.

(** The first loop keeps the counter equal to the length of the chain. *)
Lemma unload_gced_consistent (node visited : list rb_mjit_unit_node) (s : mjit_state) :
  ul_head (mjit_active_units s) = visited ++ node →
  list_consistent (mjit_active_units s) →
  list_consistent (mjit_active_units (unload_gced node (length visited) s)) ∧
  ul_length (mjit_active_units (unload_gced node (length visited) s))
    ≤ ul_length (mjit_active_units s).
Proof.
  revert visited s. induction node as [|h node IH]; intros visited s Hchain [Hlen Hmax].
  - simpl. split; [done|lia].
  - simpl. destruct (unit_iseq s (node_unit h)).
    + replace (S (length visited)) with (length (visited ++ [h]))
        by (rewrite length_app; simpl; lia).
      apply IH; [by rewrite <- app_assoc|done].
    + set (s' := set_mjit_active_units _ _).
      assert (ul_head (mjit_active_units s') = visited ++ node) as Hchain'.
      { unfold s'. simpl. by rewrite free_unit_active_units, Hchain, delete_middle. }
      assert (ul_length (mjit_active_units s') = ul_length (mjit_active_units s) - 1) as Hlen'.
      { unfold s'. simpl. rewrite free_unit_active_units. apply int_wrap_small.
        rewrite Hlen, Hchain, length_app in *. simpl in *. unfold INT_MIN, INT_MAX in *. lia. }
      destruct (IH visited s' Hchain') as [Hcons Hle].
      * split; rewrite Hlen', ?Hchain'; [|lia].
        rewrite Hlen, Hchain, !length_app. simpl. lia.
      * split; [done|]. lia.
Qed.

(** X13: if the counter of the active list is the length of its chain,
    [unload_units] leaves it so, and the length it leaves is the larger of
    two numbers: how many active units are on a stack, and the smaller of
    the length after the sweep of collected iseqs and the target
    [max_cache_size - length / 10] the code computes from it.  The list
    never grows. *)
Theorem unload_units_length (s : mjit_state) :
  list_consistent (mjit_active_units s) →
  list_consistent (mjit_active_units (unload_units s)) ∧
  ul_length (mjit_active_units (unload_units s))
    = Z.max (marked_count (unload_units_scan s))
        (Z.min (ul_length (mjit_active_units (unload_units_scan s)))
           (target_length (Z.quot (ul_length (mjit_active_units (unload_units_scan s))) 10)
              (unload_units_scan s))) ∧
  ul_length (mjit_active_units (unload_units s)) ≤ ul_length (mjit_active_units s).
Proof.
  intros Hcons.
  destruct (unload_gced_consistent (ul_head (mjit_active_units s)) [] s eq_refl Hcons)
    as [Hcons1 Hle1].
  simpl in Hcons1, Hle1. rewrite <- unload_units_scan_active_units in Hcons1, Hle1.
  unfold unload_units. cbn zeta.
  destruct (unload_loop_length (S (length (ul_head (mjit_active_units (unload_units_scan s)))))
              (Z.quot (ul_length (mjit_active_units (unload_units_scan s))) 10)
              (unload_units_scan s) Hcons1) as [Hcons2 Hlen2]; [lia|].
  split; [done|]. split; [done|].
  rewrite Hlen2. pose proof (marked_count_le (unload_units_scan s)) as Hmc.
  destruct Hcons1 as [Hc _]. lia.
Qed.

Lemma unload_units_length_witness :
  list_consistent (mjit_active_units (unload_units (cache_state eleven_units [2%positive]))) ∧
  ul_length (mjit_active_units (unload_units (cache_state eleven_units [2%positive])))
    = Z.max (marked_count (unload_units_scan (cache_state eleven_units [2%positive])))
        (Z.min (ul_length (mjit_active_units (unload_units_scan (cache_state eleven_units [2%positive]))))
           (target_length
              (Z.quot (ul_length (mjit_active_units (unload_units_scan (cache_state eleven_units [2%positive])))) 10)
              (unload_units_scan (cache_state eleven_units [2%positive])))) ∧
  ul_length (mjit_active_units (unload_units (cache_state eleven_units [2%positive])))
    ≤ ul_length (mjit_active_units (cache_state eleven_units [2%positive])).
Proof.
  apply (unload_units_length (cache_state eleven_units [2%positive])).
  split; [vm_compute; reflexivity|vm_compute; discriminate].
Defined.

(** ** What eviction leaves alone *)

Lemma unload_gced_sublist (node : list rb_mjit_unit_node) (pos : nat) (s : mjit_state) :
  ul_head (mjit_active_units (unload_gced node pos s)) `sublist_of` ul_head (mjit_active_units s).
Proof.
  revert pos s. induction node as [|m node IH]; intros pos s; [done|].
  simpl. destruct (unit_iseq s (node_unit m)); [apply IH|].
  etrans; [apply IH|]. simpl. rewrite free_unit_active_units. apply sublist_delete.
Qed.

Lemma unload_loop_sublist (fuel : nat) (delete_num : Z) (s : mjit_state) :
  ul_head (mjit_active_units (unload_loop fuel delete_num s))
    `sublist_of` ul_head (mjit_active_units s).
Proof.
  revert s. induction fuel as [|fuel IH]; intros s; [done|].
  rewrite unload_loop_unfold. destruct (_ >? _); [|done].
  destruct (find_worst_node _ 0 None s) as [[p w]|]; [|done].
  etrans; [apply IH|]. rewrite unload_node_chain. apply sublist_delete.
Qed.

Lemma unload_loop_lookup_Some (fuel : nat) (delete_num : Z) (s : mjit_state)
    (v : unit_ptr) (r : rb_mjit_unit) :
  unit_heap (unload_loop fuel delete_num s) !! v = Some r → unit_heap s !! v = Some r.
Proof.
  revert s. induction fuel as [|fuel IH]; intros s; [done|].
  rewrite unload_loop_unfold. destruct (_ >? _); [|done].
  destruct (find_worst_node _ 0 None s) as [[p w]|]; [|done].
  intros Hv%IH. unfold unload_node in Hv. simpl in Hv.
  destruct (decide (node_unit w = v)) as [<-|Hne].
  - by rewrite free_unit_lookup_eq in Hv.
  - by rewrite free_unit_lookup_ne in Hv.
Qed.

(** X14: [unload_units] only unlinks and frees.  The chain of the active
    list it leaves is the old one with some nodes taken out, in the same
    order; the queue, the compact list and the unit counter are not
    written; a unit that no active node holds is neither freed nor changed
    but for its flag; and a unit that is allocated afterwards was allocated
    before, with the same id, handle and iseq. *)
Theorem unload_units_only_unlinks (s : mjit_state) :
  ul_head (mjit_active_units (unload_units s)) `sublist_of` ul_head (mjit_active_units s) ∧
  mjit_unit_queue (unload_units s) = mjit_unit_queue s ∧
  mjit_compact_units (unload_units s) = mjit_compact_units s ∧
  mjit_current_unit_num (unload_units s) = mjit_current_unit_num s ∧
  (∀ u, (∀ n, n ∈ ul_head (mjit_active_units s) → node_unit n ≠ u) →
     unit_identity <$> unit_heap (unload_units s) !! u = unit_identity <$> unit_heap s !! u) ∧
  (∀ u r, unit_heap (unload_units s) !! u = Some r →
     ∃ r0, unit_heap s !! u = Some r0 ∧ unit_identity r = unit_identity r0).
Proof.
  pose proof (unload_units_outside s) as Hout.
  destruct (outside_eviction_fields _ _ Hout) as (_ & _ & _ & Hnum & Hq & _).
  repeat split; try done.
  - unfold unload_units. cbn zeta. etrans; [apply unload_loop_sublist|].
    rewrite unload_units_scan_active_units. apply unload_gced_sublist.
  - exact (f_equal mjit_compact_units Hout).
  - apply unload_units_outsider.
  - intros u r Hr. unfold unload_units in Hr. cbn zeta in Hr.
    apply unload_loop_lookup_Some in Hr.
    pose proof (unload_units_scan_identity s u) as Hid. rewrite Hr in Hid. simpl in Hid.
    destruct (unit_heap (unload_gced (ul_head (mjit_active_units s)) 0 s) !! u) as [r0|] eqn:Hr0;
      [|done].
    apply unload_gced_lookup_Some in Hr0. exists r0. split; [done|].
    simpl in Hid. congruence.
Qed.

Lemma unload_units_only_unlinks_witness :
  unit_identity <$> unit_heap (unload_units running_state) !! 1%positive
    = unit_identity <$> unit_heap running_state !! 1%positive.
Proof.
  destruct (unload_units_only_unlinks running_state) as (_ & _ & _ & _ & Hout & _).
  apply Hout. intros n Hn. vm_compute in Hn. apply list_elem_of_singleton in Hn. by subst n.
Defined.

(** ** The caller's side of the synchronous wait *)

(** What a wait loop that returns has done: it slept through a prefix of
    the schedule of at most [60999 - tries] steps and then either found the
    cell no longer [NOT_READY], having written nothing, or timed out on a
    cell that still was. *)
Lemma mjit_get_iseq_func_loop_result (sched : schedule) (tries : Z) (body : iseq_ptr)
    (s s' : mjit_state) (sched' : schedule) :
  0 ≤ tries ≤ 60999 →
  mjit_get_iseq_func_loop sched tries body s = Some (s', sched') →
  ∃ slept, sched = slept ++ sched' ∧ Z.of_nat (length slept) ≤ 60999 - tries ∧
    ((s' = run slept s ∧ body_jit_func s' body ≠ NOT_READY_JIT_ISEQ_FUNC) ∨
     (s' = wait_timed_out body (run slept s) ∧
      body_jit_func (run slept s) body = NOT_READY_JIT_ISEQ_FUNC)).
Proof.
  revert tries s. induction sched as [|w sched IH]; intros tries s Ht;
    rewrite mjit_get_iseq_func_loop_unfold;
    rewrite int_wrap_small by (unfold INT_MIN, INT_MAX; lia);
    (destruct (decide (body_jit_func s body = NOT_READY_JIT_ISEQ_FUNC)) as [Hr|Hr];
     [|intros [= <- <-]; exists []; simpl; repeat split; [lia|by left]]);
    (destruct (_ || _) eqn:Hstop;
     [intros [= <- <-]; exists []; simpl; repeat split; [lia|by right]|]);
    [done|].
  apply orb_false_iff in Hstop as [Hq _].
  rewrite Z.gtb_ltb in Hq. apply Z.ltb_ge in Hq. unfold MJIT_WAIT_TIMEOUT_SECONDS in Hq.
  assert (tries + 1 < 61000) as Hlt.
  { destruct (decide (tries + 1 < 61000)) as [|Hge]; [done|].
    assert (61 ≤ Z.quot (tries + 1) 1000); [|lia].
    rewrite Z.quot_div_nonneg by lia. apply Z.div_le_lower_bound; lia. }
  intros Hloop. apply IH in Hloop as (slept & -> & Hlen & Hres); [|lia].
  exists (w :: slept). rewrite run_cons. simpl length. repeat split; [lia|done].
Qed.

(** X15: [mjit_get_iseq_func] sleeps at most 60999 times, so it returns
    under every schedule that has that many steps.  When it returns, the
    value is never [NOT_READY]; the steps it slept through are a prefix of
    the schedule; and the state is the one the worker left, untouched by the
    caller, unless the call timed out on a cell that was still
    [NOT_READY], which it then turned into [NOT_COMPILED]. *)
Theorem mjit_get_iseq_func_wait (body : iseq_ptr) (s : mjit_state) :
  (∀ sched, 60999 ≤ Z.of_nat (length sched) → is_Some (mjit_get_iseq_func sched body s)) ∧
  (∀ sched v s' sched',
     mjit_get_iseq_func sched body s = Some (v, s', sched') →
     v ≠ NOT_READY_JIT_ISEQ_FUNC ∧
     ∃ slept, sched = slept ++ sched' ∧ Z.of_nat (length slept) ≤ 60999 ∧
       ((s' = run slept s ∧ v = body_jit_func (run slept s) body) ∨
        (s' = wait_timed_out body (run slept s) ∧ v = NOT_COMPILED_JIT_ISEQ_FUNC ∧
         body_jit_func (run slept s) body = NOT_READY_JIT_ISEQ_FUNC))).
Proof.
  split; [intros sched; apply mjit_get_iseq_func_returns|].
  intros sched v s' sched'. unfold mjit_get_iseq_func.
  destruct (mjit_get_iseq_func_loop sched 0 body s) as [[s1 sched1]|] eqn:Hloop; [|done].
  intros [= <- <- <-].
  apply mjit_get_iseq_func_loop_result in Hloop as (slept & -> & Hlen & Hres); [|lia].
  destruct Hres as [[-> Hr]|[-> Hr]].
  - split; [done|]. exists slept. repeat split; [lia|by left].
  - rewrite wait_timed_out_jit_func by done. split; [done|].
    exists slept. repeat split; [lia|by right].
Qed.

Lemma mjit_get_iseq_func_wait_witness :
  is_Some (mjit_get_iseq_func (replicate (Z.to_nat 60999) idle) 1 waiting_state).
Proof.
  destruct (mjit_get_iseq_func_wait 1 waiting_state) as [Hreturns _].
  apply Hreturns. rewrite length_replicate. lia.
Defined.

(** A wait that nobody answers ends in [NOT_COMPILED]. *)
Lemma mjit_get_iseq_func_unanswered (sched : schedule) (body : iseq_ptr) (s : mjit_state) :
  body_jit_func s body = NOT_READY_JIT_ISEQ_FUNC →
  Forall (leaves_jit_func body) sched → 60999 ≤ Z.of_nat (length sched) →
  ∃ s' sched', mjit_get_iseq_func sched body s = Some (NOT_COMPILED_JIT_ISEQ_FUNC, s', sched').
Proof.
  intros Hr Hleave Hlen.
  destruct (mjit_get_iseq_func_returns sched body s Hlen) as [[[v s'] sched'] Hget].
  exists s', sched'. rewrite Hget. do 3 f_equal.
  revert Hget. unfold mjit_get_iseq_func.
  destruct (mjit_get_iseq_func_loop sched 0 body s) as [[s1 sched1]|] eqn:Hloop; [|done].
  intros [= <- <- <-].
  pose proof (mjit_get_iseq_func_loop_writes body _ _ _ _ _ _ Hleave Hloop) as [Hsame|(_ & _ & Hnc)];
    [|done].
  apply mjit_get_iseq_func_loop_result in Hloop as (slept & _ & _ & [[_ Hnr]|[-> Hr']]); [| |lia].
  - congruence.
  - by apply wait_timed_out_jit_func.
Qed.

(** X16: when the allocation of the unit fails for an iseq that has no
    unit, [mjit_add_iseq_to_process] has stored [NOT_READY] in the cell and
    done nothing else: no unit, no node, no eviction.  Nobody will compile
    that iseq, so a synchronous caller whose worker leaves the cell alone
    gets [NOT_COMPILED], after the timeout. *)
Theorem mjit_add_iseq_to_process_allocation_failure (iseq : iseq_ptr) (s : mjit_state) :
  mjit_enabled s = true → mjit_pch_status s ≠ PCH_FAILED →
  is_Some (iseq_heap s !! iseq) → body_jit_unit s iseq = None →
  mjit_add_iseq_to_process None iseq s
    = set_iseq_heap (alter (set_jit_func NOT_READY_JIT_ISEQ_FUNC) iseq (iseq_heap s)) s ∧
  ∀ sched, Forall (leaves_jit_func iseq) sched → 60999 ≤ Z.of_nat (length sched) →
    ∃ s' sched',
      mjit_get_iseq_func sched iseq (mjit_add_iseq_to_process None iseq s)
        = Some (NOT_COMPILED_JIT_ISEQ_FUNC, s', sched').
Proof.
  intros Hon Hp [b Hb] Hju.
  assert (mjit_add_iseq_to_process None iseq s
    = set_iseq_heap (alter (set_jit_func NOT_READY_JIT_ISEQ_FUNC) iseq (iseq_heap s)) s) as Heq.
  { rewrite mjit_add_iseq_to_process_enabled by done. cbn zeta. unfold create_unit.
    assert (body_jit_unit (set_iseq_heap (alter (set_jit_func NOT_READY_JIT_ISEQ_FUNC) iseq
              (iseq_heap s)) s) iseq = None) as ->; [|done].
    unfold body_jit_unit in *. simpl. rewrite lookup_alter_eq, Hb in *. simpl in *.
    by destruct b. }
  split; [done|]. intros sched Hleave Hlen. rewrite Heq.
  apply mjit_get_iseq_func_unanswered; try done.
  unfold body_jit_func. simpl. by rewrite lookup_alter_eq, Hb.
Qed.

Lemma mjit_add_iseq_to_process_allocation_failure_witness :
  mjit_add_iseq_to_process None 1 unsubmitted_state
    = set_iseq_heap (alter (set_jit_func NOT_READY_JIT_ISEQ_FUNC) 1%positive
                       (iseq_heap unsubmitted_state))
        unsubmitted_state ∧
  ∀ sched, Forall (leaves_jit_func 1) sched → 60999 ≤ Z.of_nat (length sched) →
    ∃ s' sched',
      mjit_get_iseq_func sched 1 (mjit_add_iseq_to_process None 1 unsubmitted_state)
        = Some (NOT_COMPILED_JIT_ISEQ_FUNC, s', sched').
Proof.
  apply (mjit_add_iseq_to_process_allocation_failure 1 unsubmitted_state).
  - reflexivity.
  - discriminate.
  - vm_compute. by eexists.
  - vm_compute. reflexivity.
Defined.

(** ** The continuation registry *)

Lemma allocated_length {A} (h : gmap positive A) (cs : list positive) :
  NoDup cs → (∀ c, c ∈ cs → is_Some (h !! c)) → (length cs ≤ size h)%nat.
Proof.
  revert h. induction cs as [|c cs IH]; intros h Hnd Hall; [simpl; lia|].
  apply NoDup_cons in Hnd as [Hc Hnd].
  pose proof (map_size_delete_Some c h (Hall c ltac:(by left))) as Hsize.
  assert (size h ≠ 0%nat) as Hne.
  { intros ->%map_size_empty_inv. destruct (Hall c) as [r Hr]; [by left|done]. }
  specialize (IH (delete c h) Hnd). simpl.
  assert (length cs ≤ size (delete c h))%nat; [|lia].
  apply IH. intros c' Hc'. rewrite lookup_delete_ne by (intros ->; done).
  apply Hall. by right.
Qed.

Lemma cont_registry_allocated (s : mjit_state) (cs : list cont_ptr) (c : cont_ptr) :
  cont_registry s cs → c ∈ cs → is_Some (cont_heap s !! c).
Proof.
  intros (_ & _ & Hrec) [i Hi]%list_elem_of_lookup_1.
  destruct (Hrec i c Hi) as (r & Hr & _). by eexists.
Qed.

(** The walk of [mark_conts] over a registry visits its records in order. *)
Lemma registered_conts_from (h : gmap positive mjit_cont) (cs : list cont_ptr) (fuel i : nat) :
  (∀ j c, cs !! j = Some c → ∃ r, h !! c = Some r ∧ c_next r = cs !! S j) →
  (length cs ≤ fuel + i)%nat →
  registered_conts fuel (cs !! i) h = omap (h !!.) (drop i cs).
Proof.
  intros Hrec. revert i. induction fuel as [|fuel IH]; intros i Hlen.
  - simpl. by rewrite drop_ge by lia.
  - destruct (cs !! i) as [c|] eqn:Hc.
    + destruct (Hrec i c Hc) as (r & Hr & Hnext).
      rewrite (drop_S _ _ _ Hc). simpl. rewrite Hr. simpl.
      f_equal. rewrite Hnext. apply IH. lia.
    + simpl. apply lookup_ge_None in Hc. by rewrite drop_ge.
Qed.

Lemma map_omap_lookup (h : gmap positive mjit_cont) (l : list cont_ptr) :
  map c_ec (omap (h !!.) l) = omap (λ c, c_ec <$> h !! c) l.
Proof.
  induction l as [|c l IH]; [done|].
  csimpl. destruct (h !! c); csimpl; by rewrite ?IH.
Qed.

Lemma cont_stacks_registry (s : mjit_state) (cs : list cont_ptr) :
  cont_registry s cs → cont_stacks s = stacks_of s cs.
Proof.
  intros Hreg. pose proof Hreg as (Hnd & Hfirst & Hrec).
  unfold cont_stacks, stacks_of. rewrite Hfirst, head_lookup.
  rewrite (registered_conts_from _ cs).
  - rewrite drop_0. apply map_omap_lookup.
  - intros j c Hc. destruct (Hrec j c Hc) as (r & Hr & _ & Hn). by exists r.
  - pose proof (allocated_length (cont_heap s) cs Hnd) as Hlen.
    rewrite Nat.add_0_r. apply Hlen. intros c. by apply cont_registry_allocated.
Qed.

Lemma stacks_of_ext (s s' : mjit_state) (cs : list cont_ptr) :
  (∀ c, c ∈ cs → c_ec <$> cont_heap s' !! c = c_ec <$> cont_heap s !! c) →
  stacks_of s' cs = stacks_of s cs.
Proof.
  unfold stacks_of. induction cs as [|c cs IH]; intros Hext; [done|].
  csimpl. rewrite (Hext c) by by left.
  assert (omap (λ c, c_ec <$> cont_heap s' !! c) cs
          = omap (λ c, c_ec <$> cont_heap s !! c) cs) as ->; [|done].
  apply IH. intros c' Hc'. apply Hext. by right.
Qed.

Lemma cont_registry_first (s : mjit_state) (cs : list cont_ptr) (f : cont_ptr) :
  cont_registry s cs → first_cont s = Some f →
  ∃ rf, cont_heap s !! f = Some rf ∧ c_prev rf = None.
Proof.
  intros (_ & Hfirst & Hrec) Hf. rewrite Hfirst, head_lookup in Hf.
  destruct (Hrec 0%nat f Hf) as (rf & Hrf & Hpf & _). by exists rf.
Qed.

Lemma stacks_of_cons (s : mjit_state) (c : cont_ptr) (cs : list cont_ptr) :
  stacks_of s (c :: cs) =
  match c_ec <$> cont_heap s !! c with
  | Some ec => ec :: stacks_of s cs
  | None => stacks_of s cs
  end.
Proof. reflexivity. Qed.

(** X17: [mjit_cont_new] puts the new record at the head of a well-formed
    registry and leaves it well formed; from then on [unload_units] scans
    the stack of the new continuation, before those it scanned already; and
    [mjit_cont_free] of the record just made gives the old state back. *)
Theorem mjit_cont_new_registers (cont : cont_ptr) (ec : rb_execution_context_t)
    (s : mjit_state) (cs : list cont_ptr) :
  cont_registry s cs → cont_heap s !! cont = None →
  snd (mjit_cont_new cont ec s) = cont ∧
  cont_registry (fst (mjit_cont_new cont ec s)) (cont :: cs) ∧
  scanned_stacks (fst (mjit_cont_new cont ec s))
    = living_threads (host s) ++ ec :: cont_stacks s ∧
  mjit_cont_free cont (fst (mjit_cont_new cont ec s)) = s.
Proof.
  intros Hreg Hfresh. pose proof Hreg as (Hnd & Hfirst & Hrec).
  assert (cont ∉ cs) as Hnotin.
  { intros Hin. destruct (cont_registry_allocated s cs cont Hreg Hin) as [r Hr]. congruence. }
  split; [done|].
  assert (cont_registry (fst (mjit_cont_new cont ec s)) (cont :: cs)) as Hreg'.
  { split; [by apply NoDup_cons|]. split; [done|].
    intros i c Hi. unfold mjit_cont_new. simpl. rewrite Hfirst.
    destruct cs as [|f cs'].
    - destruct i as [|i]; [|done]. injection Hi as <-. simpl.
      eexists. rewrite lookup_insert_eq. done.
    - simpl. destruct (Hrec 0%nat f eq_refl) as (rf & Hrf & Hpf & Hnf).
      assert (f ≠ cont) as Hfc by (intros ->; congruence).
      destruct i as [|[|j]].
      + injection Hi as <-. eexists. rewrite lookup_alter_ne, lookup_insert_eq by done. done.
      + injection Hi as <-. eexists.
        rewrite lookup_alter_eq, lookup_insert_ne, Hrf by done. simpl. done.
      + simpl in Hi. destruct (Hrec (S j) c Hi) as (r & Hr & Hp & Hn).
        assert (c ≠ f) as Hcf.
        { intros ->.
          by pose proof (NoDup_lookup (f :: cs') (S j) 0 f Hnd Hi eq_refl). }
        assert (c ≠ cont) as Hcc by (intros ->; congruence).
        exists r. by rewrite lookup_alter_ne, lookup_insert_ne. }
  split; [done|]. split.
  - assert (host (fst (mjit_cont_new cont ec s)) = host s) as Hhost.
    { unfold mjit_cont_new. by destruct (first_cont s). }
    unfold scanned_stacks. rewrite Hhost. f_equal.
    fold (cont_stacks (fst (mjit_cont_new cont ec s))). fold (cont_stacks s).
    rewrite (cont_stacks_registry _ _ Hreg'), (cont_stacks_registry _ _ Hreg).
    rewrite stacks_of_cons.
    assert (c_ec <$> cont_heap (fst (mjit_cont_new cont ec s)) !! cont = Some ec) as ->.
    { unfold mjit_cont_new. simpl. destruct (first_cont s) as [f|] eqn:Hf; simpl.
      - destruct (cont_registry_first s cs f Hreg Hf) as (rf & Hrf & _).
        assert (f ≠ cont) as Hfc by (intros ->; congruence).
        by rewrite lookup_alter_ne, lookup_insert_eq.
      - by rewrite lookup_insert_eq. }
    f_equal. apply stacks_of_ext. intros c Hc.
    assert (c ≠ cont) as Hcc by (intros ->; done).
    unfold mjit_cont_new. simpl. destruct (first_cont s) as [f|]; simpl.
    + destruct (decide (f = c)) as [->|Hne].
      * rewrite lookup_alter_eq, lookup_insert_ne by done. by destruct (cont_heap s !! c).
      * by rewrite lookup_alter_ne, lookup_insert_ne.
    + by rewrite lookup_insert_ne.
  - unfold mjit_cont_new, mjit_cont_free, cont_next, cont_prev. simpl.
    rewrite decide_True by done. simpl.
    destruct (first_cont s) as [f|] eqn:Hf; simpl.
    + destruct (cont_registry_first s cs f Hreg Hf) as (rf & Hrf & Hpf).
      assert (f ≠ cont) as Hfc by (intros ->; congruence).
      rewrite lookup_alter_ne, lookup_insert_eq by done. simpl.
      assert (delete cont (alter (set_c_prev None) f (alter (set_c_prev (Some cont)) f
                (<[cont := Build_mjit_cont ec None (Some f)]> (cont_heap s))))
              = cont_heap s) as ->.
      { apply map_eq. intros k. destruct (decide (k = cont)) as [->|Hk].
        - by rewrite lookup_delete_eq.
        - rewrite lookup_delete_ne by done. destruct (decide (k = f)) as [->|Hkf].
          + rewrite !lookup_alter_eq, lookup_insert_ne, Hrf by done. simpl.
            destruct rf. simpl in *. by rewrite Hpf.
          + by rewrite !lookup_alter_ne, lookup_insert_ne. }
      rewrite <- Hf. by destruct s.
    + rewrite lookup_insert_eq. simpl. rewrite delete_insert_id by done.
      rewrite <- Hf. by destruct s.
Qed.

Lemma mjit_cont_new_registers_witness :
  snd (mjit_cont_new 3 (Build_rb_execution_context_t (Some 3) []) two_conts_state) = 3%positive ∧
  cont_registry (fst (mjit_cont_new 3 (Build_rb_execution_context_t (Some 3) []) two_conts_state))
    [3; 2; 1]%positive ∧
  scanned_stacks (fst (mjit_cont_new 3 (Build_rb_execution_context_t (Some 3) []) two_conts_state))
    = living_threads (host two_conts_state)
      ++ Build_rb_execution_context_t (Some 3) [] :: cont_stacks two_conts_state ∧
  mjit_cont_free 3 (fst (mjit_cont_new 3 (Build_rb_execution_context_t (Some 3) []) two_conts_state))
    = two_conts_state.
Proof.
  apply (mjit_cont_new_registers 3 (Build_rb_execution_context_t (Some 3) []) two_conts_state
           [2; 1]%positive).
  - split; [|split; [reflexivity|]].
    + apply NoDup_cons. split; [|apply NoDup_singleton].
      intros Hin%list_elem_of_singleton. discriminate.
    + intros [|[|i]] c Hi; try done; injection Hi as <-;
        eexists; (split; [vm_compute; reflexivity|done]).
  - vm_compute. reflexivity.
Defined.

(** X18: [mjit_cont_free] of a record of a well-formed registry takes that
    record out and frees it: the registry is well formed on the remaining
    records, in the same order, whether the record was the first, the last
    or in the middle, and [unload_units] scans the stacks of the remaining
    records only. *)
Theorem mjit_cont_free_unregisters (cont : cont_ptr) (s : mjit_state)
    (cs : list cont_ptr) (k : nat) :
  cont_registry s cs → cs !! k = Some cont →
  cont_registry (mjit_cont_free cont s) (delete k cs) ∧
  cont_heap (mjit_cont_free cont s) !! cont = None ∧
  scanned_stacks (mjit_cont_free cont s) = living_threads (host s) ++ stacks_of s (delete k cs).
Proof.
  intros Hreg Hk. pose proof Hreg as (Hnd & Hfirst & Hrec).
  destruct (Hrec k cont Hk) as (rc & Hrc & Hpc & Hnc).
  assert (NoDup (delete k cs)) as Hnd'.
  { by apply (sublist_NoDup _ cs), sublist_delete. }
  assert (host (mjit_cont_free cont s) = host s) as Hhost.
  { unfold mjit_cont_free. by repeat case_match. }
  assert (cont_heap (mjit_cont_free cont s) !! cont = None) as Hfreed.
  { unfold mjit_cont_free. simpl. apply lookup_delete_eq. }
  assert (∀ i c, cs !! i = Some c → i ≠ k → c ≠ cont) as Hother.
  { intros i c Hi Hik ->. by pose proof (NoDup_lookup _ _ _ _ Hnd Hi Hk). }
  assert (∀ i j c, cs !! i = Some c → cs !! j = Some c → i = j) as Hinj.
  { intros i j c. by apply NoDup_lookup. }
  assert (cont_registry (mjit_cont_free cont s) (delete k cs) ∧
          ∀ c, c ∈ delete k cs →
               c_ec <$> cont_heap (mjit_cont_free cont s) !! c = c_ec <$> cont_heap s !! c)
    as [Hreg' Hecs].
  { destruct k as [|k'].
    - (* the first record *)
      assert (first_cont s = Some cont) as Hf by by rewrite Hfirst, head_lookup.
      destruct cs as [|c0 cs']; [done|]. injection Hk as ->. simpl delete. simpl in Hnc.
      unfold mjit_cont_free, cont_next. rewrite decide_True by done. cbn zeta.
      rewrite Hrc. simpl. rewrite Hnc.
      destruct cs' as [|n cs'']; simpl.
      + split; [|by intros c Hc%elem_of_nil].
        split; [done|]. split; [done|]. by intros i c Hi.
      + destruct (Hrec 1%nat n eq_refl) as (rn & Hrn & Hpn & Hnn).
        assert (n ≠ cont) as Hncont by (by apply (Hother 1%nat)).
        split.
        * split; [done|]. split; [done|].
          intros i c Hi. destruct (Hrec (S i) c Hi) as (r & Hr & Hp & Hn).
          assert (c ≠ cont) as Hc by (by apply (Hother (S i))).
          cbn [cont_heap set_cont_heap]. rewrite lookup_delete_ne by done.
          destruct i as [|j].
          -- injection Hi as <-. rewrite lookup_alter_eq, Hrn. simpl.
             eexists. split; [done|]. simpl. split; [done|].
             rewrite Hrn in Hr. injection Hr as <-. exact Hn.
          -- assert (c ≠ n) as Hcn.
             { intros ->. by pose proof (Hinj (S (S j)) 1%nat n Hi eq_refl). }
             rewrite lookup_alter_ne by done. exists r. by rewrite Hr.
        * intros c Hc. assert (c ≠ cont) as Hcc.
          { apply list_elem_of_lookup_1 in Hc as [i Hi]. by apply (Hother (S i)). }
          rewrite lookup_delete_ne by done.
          destruct (decide (n = c)) as [->|Hne].
          -- rewrite lookup_alter_eq. by destruct (cont_heap s !! c).
          -- by rewrite lookup_alter_ne.
    - (* a record with a predecessor *)
      assert (is_Some (cs !! 0%nat)) as [c0 Hc0].
      { apply lookup_lt_is_Some. apply lookup_lt_Some in Hk. lia. }
      assert (c0 ≠ cont) as Hc0c by (by apply (Hother 0%nat)).
      assert (is_Some (cs !! k')) as [p Hp].
      { apply lookup_lt_is_Some. apply lookup_lt_Some in Hk. lia. }
      destruct (Hrec k' p Hp) as (rp & Hrp & Hpp & Hnp).
      assert (p ≠ cont) as Hpc' by (apply (Hother k'); [done|lia]).
      assert (first_cont (mjit_cont_free cont s) = first_cont s) as Hfirst'.
      { unfold mjit_cont_free. rewrite decide_False by (rewrite Hfirst, head_lookup, Hc0; congruence).
        by repeat case_match. }
      assert (∀ c, c ≠ cont →
        cont_heap (mjit_cont_free cont s) !! c =
        (if decide (Some c = cs !! S (S k')) then set_c_prev (Some p) else id) <$>
        ((if decide (c = p) then set_c_next (cs !! S (S k')) else id) <$> cont_heap s !! c))
        as Hheap.
      { intros c Hc. unfold mjit_cont_free, cont_next, cont_prev.
        rewrite decide_False by (rewrite Hfirst, head_lookup, Hc0; congruence).
        cbn zeta. rewrite Hrc. simpl. rewrite Hpc, Hp, Hnc. simpl.
        rewrite lookup_alter_ne, Hrc by done. simpl. rewrite Hnc, Hpc, Hp.
        destruct (cs !! S (S k')) as [n|] eqn:Hn; simpl; rewrite lookup_delete_ne by done.
        - destruct (decide (Some c = Some n)) as [[= ->]|Hcn].
          + rewrite lookup_alter_eq. destruct (decide (n = p)) as [->|Hnep].
            * rewrite lookup_alter_eq. by destruct (cont_heap s !! p).
            * rewrite lookup_alter_ne by done. by destruct (cont_heap s !! n).
          + rewrite lookup_alter_ne by congruence.
            destruct (decide (c = p)) as [->|Hcp].
            * rewrite lookup_alter_eq. by destruct (cont_heap s !! p).
            * rewrite lookup_alter_ne by done. by destruct (cont_heap s !! c).
        - destruct (decide (c = p)) as [->|Hcp].
          + rewrite lookup_alter_eq. by destruct (cont_heap s !! p).
          + rewrite lookup_alter_ne by done. by destruct (cont_heap s !! c). }
      split.
      + split; [done|]. split.
        { rewrite Hfirst', Hfirst, !head_lookup. by rewrite list_lookup_delete_lt by lia. }
        intros i c Hi.
        destruct (decide (i < S k')%nat) as [Hlt|Hge].
        * rewrite list_lookup_delete_lt in Hi by done.
          destruct (Hrec i c Hi) as (r & Hr & Hpr & Hnr).
          assert (c ≠ cont) as Hc by (apply (Hother i); [done|lia]).
          rewrite Hheap, Hr by done. simpl.
          assert (Some c ≠ cs !! S (S k')) as Hcn.
          { intros Heq. symmetry in Heq. pose proof (Hinj _ _ _ Hi Heq). lia. }
          rewrite (decide_False (P := Some c = _)) by done. simpl.
          eexists. split; [done|].
          destruct (decide (c = p)) as [->|Hcp].
          -- pose proof (Hinj _ _ _ Hi Hp) as ->. simpl. split.
             ++ rewrite Hpr. destruct k' as [|j]; [done|].
                by rewrite list_lookup_delete_lt by lia.
             ++ by rewrite list_lookup_delete_ge by lia.
          -- simpl. assert (i ≠ k') as Hik by (intros ->; congruence). split.
             ++ rewrite Hpr. destruct i as [|j]; [done|].
                by rewrite list_lookup_delete_lt by lia.
             ++ rewrite Hnr. by rewrite list_lookup_delete_lt by lia.
        * rewrite list_lookup_delete_ge in Hi by lia.
          destruct (Hrec (S i) c Hi) as (r & Hr & Hpr & Hnr).
          assert (c ≠ cont) as Hc by (apply (Hother (S i)); [done|lia]).
          assert (c ≠ p) as Hcp.
          { intros ->. pose proof (Hinj _ _ _ Hi Hp). lia. }
          rewrite Hheap, Hr by done. simpl.
          rewrite (decide_False (P := c = p)) by done. simpl.
          eexists. split; [done|].
          destruct (decide (Some c = cs !! S (S k'))) as [Heq|Hcn].
          -- symmetry in Heq. pose proof (Hinj _ _ _ Hi Heq) as [= ->]. simpl. split.
             ++ by rewrite list_lookup_delete_lt by lia.
             ++ rewrite Hnr. by rewrite list_lookup_delete_ge by lia.
          -- simpl. assert (i ≠ S k') as Hik by (intros ->; congruence). split.
             ++ rewrite Hpr. destruct i as [|j]; [lia|].
                by rewrite list_lookup_delete_ge by lia.
             ++ rewrite Hnr. by rewrite list_lookup_delete_ge by lia.
      + intros c Hc.
        assert (c ≠ cont) as Hcc.
        { intros ->. apply list_elem_of_lookup_1 in Hc as [i Hi].
          destruct (decide (i < S k')%nat).
          - rewrite list_lookup_delete_lt in Hi by done. pose proof (Hinj _ _ _ Hi Hk). lia.
          - rewrite list_lookup_delete_ge in Hi by lia. pose proof (Hinj _ _ _ Hi Hk). lia. }
        rewrite Hheap by done. destruct (cont_heap s !! c) as [r|]; [|done]. simpl.
        by repeat case_decide. }
  split; [done|]. split; [done|].
  unfold scanned_stacks. rewrite Hhost. f_equal.
  fold (cont_stacks (mjit_cont_free cont s)).
  rewrite (cont_stacks_registry _ _ Hreg'). by apply stacks_of_ext.
Qed.

Lemma mjit_cont_free_unregisters_witness :
  cont_registry (mjit_cont_free 1 two_conts_state) (delete 1%nat [2; 1]%positive) ∧
  cont_heap (mjit_cont_free 1 two_conts_state) !! 1%positive = None ∧
  scanned_stacks (mjit_cont_free 1 two_conts_state)
    = living_threads (host two_conts_state)
      ++ stacks_of two_conts_state (delete 1%nat [2; 1]%positive).
Proof.
  apply (mjit_cont_free_unregisters 1 two_conts_state [2; 1]%positive 1).
  - split; [|split; [reflexivity|]].
    + apply NoDup_cons. split; [|apply NoDup_singleton].
      intros Hin%list_elem_of_singleton. discriminate.
    + intros [|[|i]] c Hi; try done; injection Hi as <-;
        eexists; (split; [vm_compute; reflexivity|done]).
  - reflexivity.
Defined.

(** ** GC marking *)

Lemma live_iseqs_cons (s : mjit_state) (n : rb_mjit_unit_node) (node : list rb_mjit_unit_node) :
  live_iseqs s (n :: node) =
  match unit_iseq s (node_unit n) with
  | Some iseq => iseq :: live_iseqs s node
  | None => live_iseqs s node
  end.
Proof. reflexivity. Qed.

Lemma mjit_mark_from_eq (node : list rb_mjit_unit_node) (s : mjit_state) :
  mjit_mark_from node s
  = set_host (set_gc_marked (gc_marked (host s) ++ live_iseqs s node) (host s)) s.
Proof.
  revert s. induction node as [|n node IH]; intros s.
  - unfold live_iseqs. simpl. rewrite app_nil_r. destruct s as [? ? ? ? ? ? ? ? ? ? ? ? ? ? ? ? ? ? ? ? h].
    by destruct h.
  - rewrite live_iseqs_cons. simpl.
    destruct (unit_iseq s (node_unit n)) as [iseq|] eqn:Hn; [|apply IH].
    rewrite IH. destruct s as [? ? ? ? ? ? ? ? ? ? ? ? ? ? ? ? ? ? ? ? h]. destruct h.
    unfold live_iseqs, unit_iseq. simpl. by rewrite <- app_assoc.
Qed.

(** X19: with the subsystem enabled, [mjit_mark] reports to the collector
    the iseq of every unit of the queue that still has one, in queue order,
    and writes nothing else; units of the active list are not reported.  An
    iseq that [mjit_add_iseq_to_process] has just queued is therefore
    reported. *)
Theorem mjit_mark_reports_queue (s : mjit_state) :
  mjit_enabled s = true →
  mjit_mark s
    = set_host (set_gc_marked (gc_marked (host s)
                                 ++ live_iseqs s (ul_head (mjit_unit_queue s))) (host s)) s ∧
  ∀ u iseq, mjit_pch_status s ≠ PCH_FAILED → is_Some (iseq_heap s !! iseq) →
    (∀ n, n ∈ ul_head (mjit_active_units s) → node_unit n ≠ u) →
    iseq ∈ gc_marked (host (mjit_mark (mjit_add_iseq_to_process (Some u) iseq s))).
Proof.
  intros Hon. split.
  - unfold mjit_mark. rewrite Hon. simpl. apply mjit_mark_from_eq.
  - intros u iseq Hp Hi Hout.
    destruct (mjit_add_iseq_to_process_creates u iseq s Hon Hp Hi Hout)
      as (Hon1 & _ & _ & _ & Hq1 & _ & Hid1 & _).
    set (s1 := mjit_add_iseq_to_process (Some u) iseq s) in *.
    unfold mjit_mark. rewrite Hon1. simpl. rewrite mjit_mark_from_eq. simpl.
    apply elem_of_app. right. rewrite Hq1. unfold add_to_list, live_iseqs. simpl.
    apply list_elem_of_omap. exists (create_list_node u). split.
    + apply elem_of_app. right. by left.
    + unfold unit_iseq. simpl.
      destruct (unit_heap s1 !! u) as [[? ? ? ?]|]; simpl in *; [|done].
      unfold unit_identity in Hid1. simpl in Hid1. by injection Hid1 as _ _ ->.
Qed.

Lemma mjit_mark_reports_queue_witness :
  mjit_mark waiting_state
    = set_host (set_gc_marked (gc_marked (host waiting_state)
                                 ++ live_iseqs waiting_state (ul_head (mjit_unit_queue waiting_state)))
                  (host waiting_state)) waiting_state ∧
  ∀ u iseq, mjit_pch_status waiting_state ≠ PCH_FAILED →
    is_Some (iseq_heap waiting_state !! iseq) →
    (∀ n, n ∈ ul_head (mjit_active_units waiting_state) → node_unit n ≠ u) →
    iseq ∈ gc_marked (host (mjit_mark (mjit_add_iseq_to_process (Some u) iseq waiting_state))).
Proof. apply (mjit_mark_reports_queue waiting_state). reflexivity. Defined.

(** X20: once [mjit_free_iseq] has been told that an iseq was collected,
    [mjit_mark] no longer reports that iseq, provided the queued units
    bound to it are the unit the iseq points to. *)
Theorem mjit_free_iseq_hides_from_mark (iseq : iseq_ptr) (u : unit_ptr) (s : mjit_state) :
  mjit_enabled s = true → body_jit_unit s iseq = Some u →
  (∀ n, n ∈ ul_head (mjit_unit_queue s) → unit_iseq s (node_unit n) = Some iseq →
        node_unit n = u) →
  ∃ reported,
    gc_marked (host (mjit_mark (mjit_free_iseq iseq s))) = gc_marked (host s) ++ reported ∧
    iseq ∉ reported.
Proof.
  intros Hon Hju Hbound.
  pose proof (mjit_free_iseq_outside iseq s) as Hout.
  assert (mjit_enabled (mjit_free_iseq iseq s) = true) as Hon'.
  { by rewrite (f_equal mjit_enabled Hout : mjit_enabled (mjit_free_iseq iseq s) = _). }
  assert (mjit_unit_queue (mjit_free_iseq iseq s) = mjit_unit_queue s) as Hq.
  { exact (f_equal mjit_unit_queue Hout). }
  assert (host (mjit_free_iseq iseq s) = host s) as Hh.
  { exact (f_equal host Hout). }
  exists (live_iseqs (mjit_free_iseq iseq s) (ul_head (mjit_unit_queue s))). split.
  - unfold mjit_mark. rewrite Hon'. simpl. rewrite mjit_mark_from_eq. simpl.
    by rewrite Hh, Hq.
  - intros (n & Hn & Hiseq)%list_elem_of_omap.
    revert Hiseq. unfold mjit_free_iseq, unit_iseq. rewrite Hon, Hju. simpl.
    destruct (decide (node_unit n = u)) as [Heq|Hne].
    + rewrite Heq, lookup_alter_eq. by destruct (unit_heap s !! u).
    + rewrite lookup_alter_ne by done. intros Hiseq. by apply Hne, Hbound.
Qed.

Lemma mjit_free_iseq_hides_from_mark_witness :
  ∃ reported,
    gc_marked (host (mjit_mark (mjit_free_iseq 1 waiting_state)))
      = gc_marked (host waiting_state) ++ reported ∧
    1%positive ∉ reported.
Proof.
  apply (mjit_free_iseq_hides_from_mark 1 1 waiting_state).
  - reflexivity.
  - vm_compute. reflexivity.
  - intros n Hn _. vm_compute in Hn. apply list_elem_of_singleton in Hn. by subst n.
Defined.

(** ** The order of [mjit_finish] *)

(** [pch_wait] returns in the first state in which PCH is no longer being
    built. *)
Lemma pch_wait_run (sched : schedule) (s s' : mjit_state) (sched' : schedule) :
  pch_wait sched s = Some (s', sched') →
  ∃ pre, sched = pre ++ sched' ∧ s' = run pre s ∧ mjit_pch_status s' ≠ PCH_NOT_READY ∧
    ∀ k, (k < length pre)%nat → mjit_pch_status (run (take k pre) s) = PCH_NOT_READY.
Proof.
  revert s. induction sched as [|w sched IH]; intros s; simpl.
  - destruct (decide (mjit_pch_status s = PCH_NOT_READY)) as [Hp|Hp]; [done|].
    intros [= <- <-]. exists []. repeat split; [done|]. simpl. lia.
  - destruct (decide (mjit_pch_status s = PCH_NOT_READY)) as [Hp|Hp].
    + intros (pre & -> & -> & Hout & Hin)%IH. exists (w :: pre).
      repeat split; [done|]. intros [|k] Hk; [done|].
      simpl. apply Hin. simpl in Hk. lia.
    + intros [= <- <-]. exists []. repeat split; [done|]. simpl. lia.
Qed.

Lemma pch_wait_idle (n : nat) (s : mjit_state) :
  mjit_pch_status s = PCH_NOT_READY → pch_wait (replicate n idle) s = None.
Proof.
  intros Hp. induction n as [|n IH]; simpl; rewrite decide_True by done; [done|exact IH].
Qed.

(** The files and paths after the teardown. *)
Lemma mjit_finish_teardown_files (s : mjit_state) :
  removed_files (host (mjit_finish_teardown s))
    = (if save_temps (mjit_opts s) then []
       else from_option (λ f, [f]) [] (mjit_pch_file s)) ++ removed_files (host s) ∧
  mjit_pch_file (mjit_finish_teardown s) = None ∧
  mjit_header_file (mjit_finish_teardown s) = None ∧
  mjit_tmp_dir (mjit_finish_teardown s) = None ∧
  sync_primitives (host (mjit_finish_teardown s)) = false.
Proof.
  rewrite mjit_finish_teardown_eq.
  set (s0 := teardown_resources s).
  set (sc := free_list _ (free_list _ (free_list _ s0))).
  assert (outside_heaps (finish_conts sc) = outside_heaps s0) as Hout.
  { unfold finish_conts, sc.
    by rewrite finish_conts_from_outside_heaps, !free_list_outside_heaps. }
  assert (removed_files (host (finish_conts sc)) = removed_files (host s0)) as Hrm.
  { exact (f_equal (λ s, removed_files (host s)) Hout). }
  assert (sync_primitives (host (finish_conts sc)) = sync_primitives (host s0)) as Hsync.
  { exact (f_equal (λ s, sync_primitives (host s)) Hout). }
  assert (mjit_pch_file (finish_conts sc) = mjit_pch_file s0) as Hpch.
  { exact (f_equal mjit_pch_file Hout). }
  assert (mjit_header_file (finish_conts sc) = mjit_header_file s0) as Hhdr.
  { exact (f_equal mjit_header_file Hout). }
  assert (mjit_tmp_dir (finish_conts sc) = mjit_tmp_dir s0) as Htmp.
  { exact (f_equal mjit_tmp_dir Hout). }
  simpl. rewrite Hrm, Hsync, Hpch, Hhdr, Htmp.
  unfold s0, teardown_resources, remove_file. cbn zeta. simpl.
  destruct (save_temps (mjit_opts s)); [done|].
  by destruct (mjit_pch_file s).
Qed.

(** X21: [mjit_finish], called with the subsystem enabled, first sleeps
    through the steps of the worker during which PCH is still being built,
    and only in the first state in which it is not asks the worker to
    stop; the teardown starts from the state in which the worker has
    stopped.  It removes the PCH file unless [save_temps] is set, and
    nothing else; the three paths are cleared.  A second call does
    nothing.  While PCH stays [PCH_NOT_READY] the call does not return. *)
Theorem mjit_finish_order (sched : schedule) (s : mjit_state) :
  mjit_enabled s = true →
  (∀ s' sched', mjit_finish sched s = Some (s', sched') →
     ∃ pre sched1 s1,
       sched = pre ++ sched1 ∧
       mjit_pch_status (run pre s) ≠ PCH_NOT_READY ∧
       (∀ k, (k < length pre)%nat → mjit_pch_status (run (take k pre) s) = PCH_NOT_READY) ∧
       stop_worker sched1 (run pre s) = Some (s1, sched') ∧
       s' = mjit_finish_teardown s1 ∧
       removed_files (host s')
         = (if save_temps (mjit_opts s1) then []
            else from_option (λ f, [f]) [] (mjit_pch_file s1)) ++ removed_files (host s1) ∧
       mjit_pch_file s' = None ∧ mjit_header_file s' = None ∧ mjit_tmp_dir s' = None ∧
       mjit_finish sched' s' = Some (s', sched')) ∧
  (mjit_pch_status s = PCH_NOT_READY → ∀ n, mjit_finish (replicate n idle) s = None).
Proof.
  intros Hon. unfold mjit_finish at 1 3. rewrite Hon. simpl. split.
  - intros s' sched'.
    destruct (pch_wait sched s) as [[s0 sched0]|] eqn:Hwait; [|done].
    destruct (stop_worker sched0 s0) as [[s1 sched1]|] eqn:Hstop; [|done].
    intros [= <- <-].
    apply pch_wait_run in Hwait as (pre & -> & -> & Hready & Hbuilding).
    destruct (mjit_finish_teardown_files s1) as (Hrm & Hpch & Hhdr & Htmp & _).
    exists pre, sched0, s1. by repeat split.
  - intros Hp n. by rewrite pch_wait_idle.
Qed.

Lemma mjit_finish_order_witness :
  (∀ s' sched', mjit_finish finishing_worker running_state = Some (s', sched') →
     ∃ pre sched1 s1,
       finishing_worker = pre ++ sched1 ∧
       mjit_pch_status (run pre running_state) ≠ PCH_NOT_READY ∧
       (∀ k, (k < length pre)%nat →
             mjit_pch_status (run (take k pre) running_state) = PCH_NOT_READY) ∧
       stop_worker sched1 (run pre running_state) = Some (s1, sched') ∧
       s' = mjit_finish_teardown s1 ∧
       removed_files (host s')
         = (if save_temps (mjit_opts s1) then []
            else from_option (λ f, [f]) [] (mjit_pch_file s1)) ++ removed_files (host s1) ∧
       mjit_pch_file s' = None ∧ mjit_header_file s' = None ∧ mjit_tmp_dir s' = None ∧
       mjit_finish sched' s' = Some (s', sched')) ∧
  (mjit_pch_status running_state = PCH_NOT_READY →
   ∀ n, mjit_finish (replicate n idle) running_state = None).
Proof. apply (mjit_finish_order finishing_worker running_state). reflexivity. Defined.

(** ** The temporary directory *)




(** A [$TMPDIR] that others may write to and that is not sticky is passed
    over, here for [/tmp]. *)
Example system_tmpdir_skips_unsafe :
  check_tmpdir unsafe_tmpdir_fs (Some "/home/u/tmp") = false ∧
  check_tmpdir unsafe_tmpdir_fs (Some "/tmp") = true ∧
  system_tmpdir unsafe_tmpdir_fs = "/tmp".
Proof. repeat split; vm_compute; reflexivity. Qed.

